(** * OMR engine: scoring, template geometry, mark detection, marker crop

    A shallow embedding of the pure core of the OMR backend
    (backend/omr_core/evaluation.py, template.py, bubble_detection.py,
    processors.py and services/omr_processor.py), with the properties of
    its specification stated and settled against it.

    Conventions of the embedding.
    - A Python [float] is an IEEE binary64 number: the kernel's primitive
      [float].  Python's [int] is [Z] (or [nat] for counters and lengths).
    - A [try: ... except Exception] body is a function into [option]
      ([None]: an exception was raised); the method itself then returns the
      value of its [except] branch.
    - A [dict] that is iterated is an association list in insertion order;
      a [dict] that is only looked up is a [gmap].
    - Library calls (float(), cv2.mean, cv2.matchTemplate, ...) are section
      variables: every theorem holds for whatever they compute. *)

From Stdlib Require Import ZArith List String Ascii Floats Uint63 Lia Bool.
From stdpp Require Import gmap strings list sorting pretty.

Set Warnings "-inexact-float".

(** ** Python values shared by the modules *)
Module Py.

(** [float(n)] for an integer [n]: exact below 2^53, rounded to nearest
    beyond (and defined here up to 2^63, far above any length or pixel sum). *)
Definition float_of_Z (z : Z) : float :=
  if (z <? 0)%Z then PrimFloat.opp (PrimFloat.of_uint63 (Uint63.of_Z (- z)))
  else PrimFloat.of_uint63 (Uint63.of_Z z).

Definition float_of_nat (n : nat) : float := float_of_Z (Z.of_nat n).

(** The builtin [sum(xs)]: a left-to-right accumulation from 0. *)
Definition sum (xs : list float) : float := fold_left PrimFloat.add xs 0%float.

(** [for x in items: body], where the body may raise. *)
Fixpoint for_each {S A : Type} (body : S -> A -> option S) (items : list A) (st : S)
  : option S :=
  match items with
  | [] => Some st
  | x :: rest => match body st x with
                 | Some st' => for_each body rest st'
                 | None => None
                 end
  end.

(** [d[k] = v] on an insertion-ordered dict: an existing key keeps its
    position and takes the new value, a new key goes last. *)
Fixpoint dict_set {V : Type} (d : list (string * V)) (k : string) (v : V)
  : list (string * V) :=
  match d with
  | [] => [(k, v)]
  | (k', v') :: rest =>
      if String.eqb k' k then (k', v) :: rest else (k', v') :: dict_set rest k v
  end.

(** [d.get(k)]. *)
Fixpoint dict_get {V : Type} (d : list (string * V)) (k : string) : option V :=
  match d with
  | [] => None
  | (k', v') :: rest => if String.eqb k' k then Some v' else dict_get rest k
  end.

(** [d.update(e)]. *)
Definition dict_update {V : Type} (d e : list (string * V)) : list (string * V) :=
  fold_left (fun acc kv => dict_set acc (fst kv) (snd kv)) e d.

(** [range(lo, hi)]. *)
Definition range (lo hi : Z) : list Z :=
  map (fun k => (lo + Z.of_nat k)%Z) (seq 0 (Z.to_nat (hi - lo))).

(** [xs[i]]: a negative index counts from the end; [None] is IndexError. *)
Definition index {A : Type} (xs : list A) (i : Z) : option A :=
  if (i <? 0)%Z then
    if (- i <=? Z.of_nat (length xs))%Z then xs !! Z.to_nat (Z.of_nat (length xs) + i)
    else None
  else xs !! Z.to_nat i.

Lemma for_each_app {S A : Type} (body : S -> A -> option S) (xs ys : list A) (st : S) :
  for_each body (xs ++ ys) st =
  match for_each body xs st with
  | Some st' => for_each body ys st'
  | None => None
  end.
Proof.
  revert st. induction xs as [|x xs IH]; intros st; simpl; [reflexivity|].
  destruct (body st x); [apply IH | reflexivity].
Qed.

(** A loop invariant rule: what holds before the loop and is kept by every
    iteration that does not raise holds after it. *)
Lemma for_each_invariant {S A : Type} (body : S -> A -> option S)
    (I : list A -> S -> Prop) (items : list A) (st0 st : S) :
  I [] st0 ->
  (forall done x s s', I done s -> body s x = Some s' -> I (done ++ [x]) s') ->
  for_each body items st0 = Some st ->
  I items st.
Proof.
  intros H0 Hstep.
  assert (G : forall rest done s, I done s -> for_each body rest s = Some st ->
                                  I (done ++ rest) st).
  { induction rest as [|x rest IH]; intros done s Hs Hrun; simpl in Hrun.
    - injection Hrun as <-. now rewrite app_nil_r.
    - destruct (body s x) as [s'|] eqn:Hb; [|discriminate].
      replace (done ++ x :: rest) with ((done ++ [x]) ++ rest)
        by now rewrite <- app_assoc.
      eapply IH; [eapply Hstep; eassumption | exact Hrun]. }
  intros Hrun. apply (G items [] st0 H0 Hrun).
Qed.

Lemma range_snoc (lo : Z) (k : nat) :
  range lo (lo + Z.of_nat (S k)) = range lo (lo + Z.of_nat k) ++ [(lo + Z.of_nat k)%Z].
Proof.
  unfold range.
  replace (lo + Z.of_nat (S k) - lo)%Z with (Z.of_nat (S k)) by lia.
  replace (lo + Z.of_nat k - lo)%Z with (Z.of_nat k) by lia.
  now rewrite !Nat2Z.id, seq_S, map_app.
Qed.

Lemma range_to_nat (lo hi : Z) :
  range lo hi = range lo (lo + Z.of_nat (Z.to_nat (hi - lo))).
Proof. unfold range. do 2 f_equal. lia. Qed.

Lemma index_nonneg {A : Type} (xs : list A) (i : Z) :
  (0 <= i)%Z -> index xs i = xs !! Z.to_nat i.
Proof.
  intros Hi. unfold index.
  destruct (i <? 0)%Z eqn:E; [apply Z.ltb_lt in E; lia | reflexivity].
Qed.


(** Comparison of binary64 numbers is antisymmetric (NaN compares with
    nothing). *)
Lemma SFcompare_antisym (f g : SpecFloat.spec_float) :
  SpecFloat.SFcompare g f = option_map CompOpp (SpecFloat.SFcompare f g).
Proof.
  destruct f as [s1 | s1 | | s1 m1 e1], g as [s2 | s2 | | s2 m2 e2];
    try destruct s1; try destruct s2; simpl; try reflexivity.
  - rewrite (Z.compare_antisym e1 e2). destruct (e1 ?= e2)%Z; simpl; try reflexivity.
    change (Pos.compare_cont Eq m2 m1) with (Pos.compare m2 m1).
    change (Pos.compare_cont Eq m1 m2) with (Pos.compare m1 m2).
    now rewrite (Pos.compare_antisym m1 m2).
  - rewrite (Z.compare_antisym e1 e2). destruct (e1 ?= e2)%Z; simpl; try reflexivity.
    change (Pos.compare_cont Eq m2 m1) with (Pos.compare m2 m1).
    change (Pos.compare_cont Eq m1 m2) with (Pos.compare m1 m2).
    now rewrite (Pos.compare_antisym m1 m2).
Qed.

(** [t <= v] excludes [v < t] on floats. *)
Lemma float_leb_not_ltb (t v : float) :
  PrimFloat.leb t v = true -> PrimFloat.ltb v t = false.
Proof.
  rewrite FloatAxioms.leb_spec, FloatAxioms.ltb_spec. unfold SpecFloat.SFleb, SpecFloat.SFltb.
  rewrite (SFcompare_antisym (Prim2SF t) (Prim2SF v)).
  destruct (SpecFloat.SFcompare (Prim2SF t) (Prim2SF v)) as [[]|]; simpl; congruence.
Qed.

Lemma dict_get_set_eq {V : Type} (d : list (string * V)) k v :
  dict_get (dict_set d k v) k = Some v.
Proof.
  induction d as [|[k' v'] d IH]; simpl.
  - now rewrite String.eqb_refl.
  - destruct (String.eqb k' k) eqn:E; simpl; rewrite E; [reflexivity | exact IH].
Qed.

Lemma dict_get_set_ne {V : Type} (d : list (string * V)) k k' v :
  k <> k' -> dict_get (dict_set d k v) k' = dict_get d k'.
Proof.
  intros Hne. induction d as [|[k0 v0] d IH]; simpl.
  - destruct (String.eqb k k') eqn:E; [apply String.eqb_eq in E; contradiction | reflexivity].
  - destruct (String.eqb k0 k) eqn:E; simpl.
    + apply String.eqb_eq in E. subst k0.
      destruct (String.eqb k k') eqn:E'; [apply String.eqb_eq in E'; contradiction | reflexivity].
    + destruct (String.eqb k0 k'); [reflexivity | exact IH].
Qed.

Lemma dict_set_fresh {V : Type} (d : list (string * V)) k v :
  ~ In k (map fst d) -> dict_set d k v = d ++ [(k, v)].
Proof.
  induction d as [|[k' v'] d IH]; simpl; intros Hn; [reflexivity|].
  destruct (String.eqb k' k) eqn:E.
  - apply String.eqb_eq in E. tauto.
  - f_equal. apply IH. tauto.
Qed.

Lemma dict_update_fresh_keys {V : Type} (items : list (string * V)) :
  forall d, NoDup (map fst d ++ map fst items) -> dict_update d items = d ++ items.
Proof.
  unfold dict_update.
  induction items as [|[k v] items IH]; intros d Hnd; simpl; [now rewrite app_nil_r|].
  rewrite dict_set_fresh.
  - rewrite IH; [now rewrite <- app_assoc|].
    rewrite map_app. simpl. now rewrite <- app_assoc.
  - simpl in Hnd. apply NoDup_app in Hnd as (_ & Hsep & _). intros Hin.
    apply (Hsep k); [now apply list_elem_of_In | now left].
Qed.

Lemma dict_update_fresh_nil {V : Type} (items : list (string * V)) :
  NoDup (map fst items) -> dict_update [] items = items.
Proof. intros Hnd. now rewrite dict_update_fresh_keys. Qed.

End Py.

(** ** evaluation.py: answer key, marking scheme, scoring report *)
Module Evaluation.
Import Py.

(** The four verdict strings of [evaluate_omr_response]. *)
Inductive Verdict : Set := correct | unmarked | multi_marked | incorrect.

Definition verdict_str (v : Verdict) : string :=
  match v with
  | correct => "correct"
  | unmarked => "unmarked"
  | multi_marked => "multi_marked"
  | incorrect => "incorrect"
  end.

(** A detected answer: a [str], or [None] (a template whose [emptyValue]
    is null hands [None] to the evaluator, which tests for it). *)
Definition Answer : Type := option string.

Record EvaluationResult : Type := {
  question : string;
  student_answer : Answer;
  correct_answer : string;
  verdict : Verdict;
  score : float;
  confidence : float
}.

Record ScoringReport : Type := {
  total_score : float;
  max_possible_score : float;
  percentage : float;
  correct_answers : nat;
  incorrect_answers : nat;
  unmarked_answers : nat;
  multi_marked_answers : nat;
  evaluation_results : list EvaluationResult;
  subject_scores : list (string * float)
}.

Record AnswerKeyManager : Type := {
  answer_key : gmap string string;
  marking_schemes : gmap string (gmap string string)
}.

Record OMREvaluator : Type := {
  answer_key_manager : AnswerKeyManager;
  should_explain_scoring : bool
}.

(** [AnswerKeyManager.get_answer]: [self.answer_key.get(question, "")]. *)
Definition get_answer (akm : AnswerKeyManager) (question : string) : string :=
  default ""%string (answer_key akm !! question).

(** [AnswerKeyManager.get_marking_scheme]:
    [self.marking_schemes.get(scheme_name, self.marking_schemes["DEFAULT"])];
    the second argument is evaluated first, so a missing DEFAULT raises. *)
Definition get_marking_scheme (akm : AnswerKeyManager) (scheme_name : string)
  : option (gmap string string) :=
  match marking_schemes akm !! "DEFAULT"%string with
  | Some dflt => Some (default dflt (marking_schemes akm !! scheme_name))
  | None => None
  end.

(** [student_answer == correct_answer]: [None] equals no string. *)
Definition answer_eqb (student_answer : Answer) (correct_answer : string) : bool :=
  match student_answer with
  | Some s => String.eqb s correct_answer
  | None => false
  end.

(** [student_answer == "" or student_answer is None]. *)
Definition is_blank (student_answer : Answer) : bool :=
  match student_answer with
  | Some s => String.eqb s ""
  | None => true
  end.

(** [len(student_answer)], reached for strings only. *)
Definition answer_len (student_answer : Answer) : nat :=
  match student_answer with
  | Some s => String.length s
  | None => 0
  end.

(** The local variables of [evaluate_omr_response] that the loop updates. *)
Record Tally : Type := {
  t_total_score : float;
  t_correct_answers : nat;
  t_incorrect_answers : nat;
  t_unmarked_answers : nat;
  t_multi_marked_answers : nat;
  t_evaluation_results : list EvaluationResult
}.

Definition tally0 : Tally :=
  {| t_total_score := 0%float; t_correct_answers := 0; t_incorrect_answers := 0;
     t_unmarked_answers := 0; t_multi_marked_answers := 0;
     t_evaluation_results := [] |}.

(** The report of the [except] branch. *)
Definition error_report : ScoringReport :=
  {| total_score := 0%float; max_possible_score := 0%float; percentage := 0%float;
     correct_answers := 0; incorrect_answers := 0; unmarked_answers := 0;
     multi_marked_answers := 0; evaluation_results := []; subject_scores := [] |}.

Section Evaluator.

(** The builtin [float()] on a string; [None] when it raises ValueError. *)
Variable py_float : string -> option float.

(** [float(marking_scheme[k])]: raises on a missing key or a bad literal. *)
Definition points (marking_scheme : gmap string string) (k : string) : option float :=
  match marking_scheme !! k with
  | Some s => py_float s
  | None => None
  end.

(** One iteration of the loop over [omr_response.items()]. *)
Definition evaluate_question (ev : OMREvaluator) (marking_scheme : gmap string string)
    (t : Tally) (item : string * Answer) : option Tally :=
  let question := fst item in
  let student_answer := snd item in
  let correct_answer := get_answer (answer_key_manager ev) question in
  let judged : option (Verdict * float * Tally) :=
    if answer_eqb student_answer correct_answer then
      match points marking_scheme "correct" with
      | Some score =>
          Some (correct, score,
                {| t_total_score := t_total_score t;
                   t_correct_answers := t_correct_answers t + 1;
                   t_incorrect_answers := t_incorrect_answers t;
                   t_unmarked_answers := t_unmarked_answers t;
                   t_multi_marked_answers := t_multi_marked_answers t;
                   t_evaluation_results := t_evaluation_results t |})
      | None => None
      end
    else if is_blank student_answer then
      match points marking_scheme "unmarked" with
      | Some score =>
          Some (unmarked, score,
                {| t_total_score := t_total_score t;
                   t_correct_answers := t_correct_answers t;
                   t_incorrect_answers := t_incorrect_answers t;
                   t_unmarked_answers := t_unmarked_answers t + 1;
                   t_multi_marked_answers := t_multi_marked_answers t;
                   t_evaluation_results := t_evaluation_results t |})
      | None => None
      end
    else if Nat.ltb 1 (answer_len student_answer) then
      Some (multi_marked, 0%float,
            {| t_total_score := t_total_score t;
               t_correct_answers := t_correct_answers t;
               t_incorrect_answers := t_incorrect_answers t;
               t_unmarked_answers := t_unmarked_answers t;
               t_multi_marked_answers := t_multi_marked_answers t + 1;
               t_evaluation_results := t_evaluation_results t |})
    else
      match points marking_scheme "incorrect" with
      | Some score =>
          Some (incorrect, score,
                {| t_total_score := t_total_score t;
                   t_correct_answers := t_correct_answers t;
                   t_incorrect_answers := t_incorrect_answers t + 1;
                   t_unmarked_answers := t_unmarked_answers t;
                   t_multi_marked_answers := t_multi_marked_answers t;
                   t_evaluation_results := t_evaluation_results t |})
      | None => None
      end in
  match judged with
  | Some (verdict, score, t1) =>
      let evaluation_result :=
        {| question := question; student_answer := student_answer;
           correct_answer := correct_answer; verdict := verdict; score := score;
           confidence := 0%float |} in
      Some {| t_total_score := PrimFloat.add (t_total_score t1) score;
              t_correct_answers := t_correct_answers t1;
              t_incorrect_answers := t_incorrect_answers t1;
              t_unmarked_answers := t_unmarked_answers t1;
              t_multi_marked_answers := t_multi_marked_answers t1;
              t_evaluation_results := t_evaluation_results t1 ++ [evaluation_result] |}
  | None => None
  end.

(** [OMREvaluator.calculate_subject_scores]: the total of the scores under
    the one key "Total" (its [except] branch is never taken on floats). *)
Definition calculate_subject_scores (evaluation_results : list EvaluationResult)
  : list (string * float) :=
  [("Total"%string, Py.sum (map score evaluation_results))].

(** The [try] body of [OMREvaluator.evaluate_omr_response]. *)
Definition evaluate_omr_response_body (ev : OMREvaluator)
    (omr_response : list (string * Answer)) : option ScoringReport :=
  match get_marking_scheme (answer_key_manager ev) "DEFAULT" with
  | None => None
  | Some marking_scheme =>
    match for_each (evaluate_question ev marking_scheme) omr_response tally0 with
    | None => None
    | Some t =>
      match points marking_scheme "correct" with
      | None => None
      | Some c =>
        let max_possible_score :=
          PrimFloat.mul (float_of_nat (length omr_response)) c in
        let percentage :=
          if PrimFloat.ltb 0%float max_possible_score
          then PrimFloat.mul (PrimFloat.div (t_total_score t) max_possible_score) 100%float
          else 0%float in
        Some {| total_score := t_total_score t;
                max_possible_score := max_possible_score;
                percentage := percentage;
                correct_answers := t_correct_answers t;
                incorrect_answers := t_incorrect_answers t;
                unmarked_answers := t_unmarked_answers t;
                multi_marked_answers := t_multi_marked_answers t;
                evaluation_results := t_evaluation_results t;
                subject_scores := calculate_subject_scores (t_evaluation_results t) |}
      end
    end
  end.

(** [OMREvaluator.evaluate_omr_response]. *)
Definition evaluate_omr_response (ev : OMREvaluator)
    (omr_response : list (string * Answer)) : ScoringReport :=
  match evaluate_omr_response_body ev omr_response with
  | Some report => report
  | None => error_report
  end.

(** The verdict and score of one question as the specification words its
    precedence: equal to the key, else blank, else longer than one
    character, else wrong. *)
Inductive by_precedence (marking_scheme : gmap string string) (correct_value : string)
    (response : Answer) : Verdict -> float -> Prop :=
| prec_correct (p : float) :
    response = Some correct_value ->
    points marking_scheme "correct" = Some p ->
    by_precedence marking_scheme correct_value response correct p
| prec_unmarked (p : float) :
    response <> Some correct_value ->
    (response = Some ""%string \/ response = None) ->
    points marking_scheme "unmarked" = Some p ->
    by_precedence marking_scheme correct_value response unmarked p
| prec_multi_marked (s : string) :
    response <> Some correct_value ->
    response = Some s -> s <> ""%string ->
    1 < String.length s ->
    by_precedence marking_scheme correct_value response multi_marked 0%float
| prec_incorrect (s : string) (p : float) :
    response <> Some correct_value ->
    response = Some s -> s <> ""%string ->
    String.length s <= 1 ->
    points marking_scheme "incorrect" = Some p ->
    by_precedence marking_scheme correct_value response incorrect p.

End Evaluator.

(** The literals of the repository's two marking schemes as [float()]
    reads them; used to run the evaluator on concrete sheets. *)
Definition float_literal (s : string) : option float :=
  if String.eqb s "1" then Some 1%float
  else if String.eqb s "0" then Some 0%float
  else if String.eqb s "2" then Some 2%float
  else if String.eqb s "-0.5" then Some (-0.5)%float
  else if String.eqb s "-1" then Some (-1)%float
  else None.

(** The marking schemes of [EvaluationConfig.create_default_config]. *)
Definition default_marking_schemes : gmap string (gmap string string) :=
  <["DEFAULT"%string :=
      <["correct"%string := "1"%string]>
        (<["incorrect"%string := "0"%string]>
           (<["unmarked"%string := "0"%string]> ∅))]>
    (<["WEIGHTED"%string :=
        <["correct"%string := "2"%string]>
          (<["incorrect"%string := "-0.5"%string]>
             (<["unmarked"%string := "0"%string]> ∅))]> ∅).

(** [OMREvaluator(config)] for an inline answer key and the default schemes. *)
Definition evaluator_of (answers : gmap string string) : OMREvaluator :=
  {| answer_key_manager :=
       {| answer_key := answers; marking_schemes := default_marking_schemes |};
     should_explain_scoring := true |}.

(** One entry of the caller's [test_subjects]: a dict whose keys may be
    absent. *)
Record Subject : Type := {
  s_name : option string;
  s_questions : option Z;
  s_answer_key : option (list string)
}.

(** [subject.get("questions", 0)]. *)
Definition subject_questions (subject : Subject) : Z := default 0%Z (s_questions subject).

(** One subject of [EvaluationConfig.create_from_test_data]: the inner
    loop numbers its questions on from [question_num]. *)
Definition add_subject_answers (st : gmap string string * Z) (subject : Subject)
  : gmap string string * Z :=
  let subject_answer_key := default [] (s_answer_key subject) in
  fold_left
    (fun (acc : gmap string string * Z) (i : Z) =>
       let '(answers, question_num) := acc in
       let answer :=
         if (i <? Z.of_nat (length subject_answer_key))%Z
         then default "A"%string (index subject_answer_key i)
         else "A"%string in
       (<[("q" +:+ pretty question_num)%string := answer]> answers, (question_num + 1)%Z))
    (range 0 (subject_questions subject)) st.

(** [EvaluationConfig.create_from_test_data], then [OMREvaluator(config)]:
    the inline answers over the default marking schemes. *)
Definition create_from_test_data (test_subjects : list Subject) : OMREvaluator :=
  evaluator_of (fst (fold_left add_subject_answers test_subjects (∅, 1%Z))).

(** *** Properties of the evaluator *)

Definition verdict_eqb (v w : Verdict) : bool :=
  match v, w with
  | correct, correct | unmarked, unmarked
  | multi_marked, multi_marked | incorrect, incorrect => true
  | _, _ => false
  end.

(** How many outcomes carry a given verdict. *)
Definition verdict_count (v : Verdict) (rs : list EvaluationResult) : nat :=
  length (List.filter (fun r => verdict_eqb (verdict r) v) rs).

Lemma verdict_count_snoc v rs r :
  verdict_count v (rs ++ [r]) =
  verdict_count v rs + (if verdict_eqb (verdict r) v then 1 else 0).
Proof.
  unfold verdict_count. rewrite List.filter_app, length_app. simpl.
  destruct (verdict_eqb (verdict r) v); reflexivity.
Qed.

Lemma verdict_count_total rs :
  verdict_count correct rs + verdict_count incorrect rs
  + verdict_count unmarked rs + verdict_count multi_marked rs = length rs.
Proof.
  induction rs as [|r rs IH]; [reflexivity|].
  unfold verdict_count in *. simpl. destruct (verdict r); simpl; lia.
Qed.

Lemma sum_snoc (xs : list float) (x : float) :
  Py.sum (xs ++ [x]) = PrimFloat.add (Py.sum xs) x.
Proof. unfold Py.sum. now rewrite fold_left_app. Qed.

Lemma answer_eqb_true a c : answer_eqb a c = true -> a = Some c.
Proof.
  destruct a as [s|]; simpl; [|discriminate].
  intros H. apply String.eqb_eq in H. now subst.
Qed.

Lemma answer_eqb_false a c : answer_eqb a c = false -> a <> Some c.
Proof.
  destruct a as [s|]; simpl; [|discriminate].
  intros H E. injection E as ->. now rewrite String.eqb_refl in H.
Qed.

Section EvaluatorFacts.

Variable py_float : string -> option float.

(** The evaluation met no internal error: the [try] body ran to its end. *)
Definition evaluates_cleanly (ev : OMREvaluator) (omr_response : list (string * Answer))
  : Prop :=
  is_Some (evaluate_omr_response_body py_float ev omr_response).

(** What one question adds to the tally. *)
Definition outcome_of (ev : OMREvaluator) (marking_scheme : gmap string string)
    (item : string * Answer) (r : EvaluationResult) : Prop :=
  question r = fst item /\ student_answer r = snd item /\
  correct_answer r = get_answer (answer_key_manager ev) (fst item) /\
  by_precedence py_float marking_scheme (correct_answer r) (snd item)
                (verdict r) (score r).

Lemma evaluate_question_step ev ms t item t' :
  evaluate_question py_float ev ms t item = Some t' ->
  exists r,
    outcome_of ev ms item r /\
    t_evaluation_results t' = t_evaluation_results t ++ [r] /\
    t_total_score t' = PrimFloat.add (t_total_score t) (score r) /\
    (forall v, (match v with
                | correct => t_correct_answers
                | incorrect => t_incorrect_answers
                | unmarked => t_unmarked_answers
                | multi_marked => t_multi_marked_answers
                end) t' =
               (match v with
                | correct => t_correct_answers
                | incorrect => t_incorrect_answers
                | unmarked => t_unmarked_answers
                | multi_marked => t_multi_marked_answers
                end) t + (if verdict_eqb (verdict r) v then 1 else 0)).
Proof.
  destruct item as [q a]. unfold evaluate_question, outcome_of. simpl.
  destruct (answer_eqb a _) eqn:Heq.
  - apply answer_eqb_true in Heq.
    destruct (points py_float ms "correct") as [p|] eqn:Hp; [|discriminate].
    intros [= <-]. eexists. simpl. repeat split; try reflexivity.
    + now apply prec_correct.
    + intros []; simpl; lia.
  - apply answer_eqb_false in Heq.
    destruct (is_blank a) eqn:Hb.
    + destruct (points py_float ms "unmarked") as [p|] eqn:Hp; [|discriminate].
      intros [= <-]. eexists. simpl. repeat split; try reflexivity.
      * apply prec_unmarked; trivial.
        destruct a as [s|]; [left | now right].
        simpl in Hb. apply String.eqb_eq in Hb. now subst.
      * intros []; simpl; lia.
    + destruct a as [s|]; [|discriminate]. simpl in Hb.
      assert (Hs : s <> ""%string) by (intros ->; discriminate).
      simpl. destruct (Nat.ltb 1 (String.length s)) eqn:Hl.
      * intros [= <-]. eexists. simpl. repeat split; try reflexivity.
        -- apply Nat.ltb_lt in Hl. now apply prec_multi_marked with s.
        -- intros []; simpl; lia.
      * destruct (points py_float ms "incorrect") as [p|] eqn:Hp; [|discriminate].
        intros [= <-]. eexists. simpl. repeat split; try reflexivity.
        -- apply Nat.ltb_ge in Hl. now apply prec_incorrect with s.
        -- intros []; simpl; lia.
Qed.

(** The invariant of the loop over the response items. *)
Definition tally_invariant (ev : OMREvaluator) (ms : gmap string string)
    (seen : list (string * Answer)) (t : Tally) : Prop :=
  Forall2 (outcome_of ev ms) seen (t_evaluation_results t) /\
  t_total_score t = Py.sum (map score (t_evaluation_results t)) /\
  t_correct_answers t = verdict_count correct (t_evaluation_results t) /\
  t_incorrect_answers t = verdict_count incorrect (t_evaluation_results t) /\
  t_unmarked_answers t = verdict_count unmarked (t_evaluation_results t) /\
  t_multi_marked_answers t = verdict_count multi_marked (t_evaluation_results t).

Lemma tally_loop ev ms omr t :
  for_each (evaluate_question py_float ev ms) omr tally0 = Some t ->
  tally_invariant ev ms omr t.
Proof.
  apply for_each_invariant.
  - unfold tally_invariant. simpl. repeat split; constructor.
  - intros seen x s s' (HF & Ht & Hc & Hi & Hu & Hm) Hstep.
    apply evaluate_question_step in Hstep as (r & Hr & Hres & Htot & Hcnt).
    unfold tally_invariant. rewrite Hres, map_app, !verdict_count_snoc.
    change (map score [r]) with [score r]. rewrite sum_snoc. repeat split.
    + apply Forall2_app; [exact HF | now constructor].
    + now rewrite Htot, Ht.
    + now rewrite (Hcnt correct), Hc.
    + now rewrite (Hcnt incorrect), Hi.
    + now rewrite (Hcnt unmarked), Hu.
    + now rewrite (Hcnt multi_marked), Hm.
Qed.

(** The shape of a report produced without error. *)
Lemma body_report ev omr report :
  evaluate_omr_response_body py_float ev omr = Some report ->
  exists ms t c,
    get_marking_scheme (answer_key_manager ev) "DEFAULT" = Some ms /\
    for_each (evaluate_question py_float ev ms) omr tally0 = Some t /\
    points py_float ms "correct" = Some c /\
    total_score report = t_total_score t /\
    max_possible_score report = PrimFloat.mul (float_of_nat (length omr)) c /\
    correct_answers report = t_correct_answers t /\
    incorrect_answers report = t_incorrect_answers t /\
    unmarked_answers report = t_unmarked_answers t /\
    multi_marked_answers report = t_multi_marked_answers t /\
    evaluation_results report = t_evaluation_results t /\
    subject_scores report = calculate_subject_scores (t_evaluation_results t).
Proof.
  unfold evaluate_omr_response_body.
  destruct (get_marking_scheme _ _) as [ms|] eqn:Hms; [|discriminate].
  destruct (for_each _ _ _) as [t|] eqn:Hloop; [|discriminate].
  destruct (points py_float ms "correct") as [c|] eqn:Hc; [|discriminate].
  intros [= <-]. exists ms, t, c. simpl. repeat split; trivial.
Qed.

Lemma clean_report ev omr :
  evaluates_cleanly ev omr ->
  evaluate_omr_response_body py_float ev omr =
  Some (evaluate_omr_response py_float ev omr).
Proof.
  intros [report H]. unfold evaluate_omr_response. now rewrite H.
Qed.

(** The loop raises only on a marking-scheme entry it cannot read. *)
Lemma evaluation_total ev omr ms c i u :
  get_marking_scheme (answer_key_manager ev) "DEFAULT" = Some ms ->
  points py_float ms "correct" = Some c ->
  points py_float ms "incorrect" = Some i ->
  points py_float ms "unmarked" = Some u ->
  evaluates_cleanly ev omr.
Proof.
  intros Hms Hc Hi Hu. unfold evaluates_cleanly, evaluate_omr_response_body.
  rewrite Hms.
  assert (G : forall t, is_Some (for_each (evaluate_question py_float ev ms) omr t)).
  { induction omr as [|x rest IH]; intros t; simpl; [eauto|].
    assert (Hq : is_Some (evaluate_question py_float ev ms t x)).
    { unfold evaluate_question. rewrite Hc, Hi, Hu.
      destruct (answer_eqb _ _); [eauto|].
      destruct (is_blank _); [eauto|].
      destruct (Nat.ltb _ _); eauto. }
    destruct Hq as [t' ->]. apply IH. }
  destruct (G tally0) as [t ->]. rewrite Hc. eauto.
Qed.

(** The precedence relation is a function of the response: one verdict
    and one score per question. *)
Lemma by_precedence_functional ms c a v1 p1 v2 p2 :
  by_precedence py_float ms c a v1 p1 ->
  by_precedence py_float ms c a v2 p2 ->
  v1 = v2 /\ p1 = p2.
Proof.
  intros H1 H2.
  destruct H1 as [p Ha Hp | p Hn Hb Hp | s Hn Ha Hs Hl | s p Hn Ha Hs Hl Hp];
    destruct H2 as [p' Ha' Hp' | p' Hn' Hb' Hp' | s' Hn' Ha' Hs' Hl' | s' p' Hn' Ha' Hs' Hl' Hp'];
    try congruence;
    try (split; [reflexivity | congruence]);
    try (destruct Hb as [Hb|Hb]; congruence);
    try (destruct Hb' as [Hb'|Hb']; congruence);
    try (assert (s = s') by congruence; subst; lia).
Qed.

Lemma outcomes_follow_items ev omr :
  evaluates_cleanly ev omr ->
  exists ms,
    get_marking_scheme (answer_key_manager ev) "DEFAULT" = Some ms /\
    Forall2 (outcome_of ev ms) omr
            (evaluation_results (evaluate_omr_response py_float ev omr)).
Proof.
  intros Hclean. apply clean_report in Hclean.
  apply body_report in Hclean as (ms & t & c & Hms & Hloop & _ & _ & _ & _ & _ & _ & _ & Hres & _).
  exists ms. split; [exact Hms|]. rewrite Hres.
  apply tally_loop in Hloop as [HF _]. exact HF.
Qed.

(** The entry of a marking scheme under a key, read by [float()]. *)
Lemma points_entry ms k p :
  points py_float ms k = Some p ->
  exists entry, ms !! k = Some entry /\ py_float entry = Some p.
Proof.
  unfold points. destruct (ms !! k) as [entry|]; [|discriminate].
  intros H. now exists entry.
Qed.

(** The scheme an evaluation uses is the DEFAULT entry of the marking
    schemes. *)
Lemma default_scheme_entry akm ms :
  get_marking_scheme akm "DEFAULT" = Some ms ->
  marking_schemes akm !! "DEFAULT"%string = Some ms.
Proof.
  unfold get_marking_scheme.
  destruct (marking_schemes akm !! "DEFAULT"%string) as [dflt|]; [|discriminate].
  simpl. trivial.
Qed.

(** The verdict and score of one question, in the words of the
    specification: the score of a verdict is the entry of the marking
    scheme under that verdict's key, as [float()] reads it. *)
Inductive scored_by_precedence (marking_scheme : gmap string string)
    (correct_value : string) (response : Answer) : Verdict -> float -> Prop :=
| scored_correct (entry : string) (p : float) :
    response = Some correct_value ->
    marking_scheme !! "correct"%string = Some entry ->
    py_float entry = Some p ->
    scored_by_precedence marking_scheme correct_value response correct p
| scored_unmarked (entry : string) (p : float) :
    response <> Some correct_value ->
    (response = Some ""%string \/ response = None) ->
    marking_scheme !! "unmarked"%string = Some entry ->
    py_float entry = Some p ->
    scored_by_precedence marking_scheme correct_value response unmarked p
| scored_multi_marked (s : string) :
    response <> Some correct_value ->
    response = Some s -> s <> ""%string ->
    1 < String.length s ->
    scored_by_precedence marking_scheme correct_value response multi_marked 0%float
| scored_incorrect (s entry : string) (p : float) :
    response <> Some correct_value ->
    response = Some s -> s <> ""%string ->
    String.length s <= 1 ->
    marking_scheme !! "incorrect"%string = Some entry ->
    py_float entry = Some p ->
    scored_by_precedence marking_scheme correct_value response incorrect p.

Lemma by_precedence_scored ms c a v p :
  by_precedence py_float ms c a v p -> scored_by_precedence ms c a v p.
Proof.
  intros [q Ha Hp | q Hn Hb Hp | s Hn Ha Hs Hl | s q Hn Ha Hs Hl Hp].
  - apply points_entry in Hp as (entry & He & Hf). now apply scored_correct with entry.
  - apply points_entry in Hp as (entry & He & Hf). now apply scored_unmarked with entry.
  - now apply scored_multi_marked with s.
  - apply points_entry in Hp as (entry & He & Hf). now apply scored_incorrect with s entry.
Qed.

(** C2 (evaluation.py, [evaluate_omr_response]).  When the evaluation runs
    without internal error, the outcomes follow the response items one for
    one and in order; each is judged against the answer key's entry for
    its question (the empty string when there is none) under the DEFAULT
    marking scheme, and its verdict and score are given by the precedence:
    response equal to the correct value, [correct] with [float()] of the
    scheme's "correct" entry; else blank response, [unmarked] with
    [float()] of the "unmarked" entry; else response longer than one
    character, [multi_marked] with score 0 whatever the scheme; else
    [incorrect] with [float()] of the "incorrect" entry. *)
Theorem verdict_by_precedence (ev : OMREvaluator) (omr_response : list (string * Answer)) :
  evaluates_cleanly ev omr_response ->
  exists marking_scheme,
    marking_schemes (answer_key_manager ev) !! "DEFAULT"%string = Some marking_scheme /\
    Forall2
      (fun item r =>
         question r = fst item /\ student_answer r = snd item /\
         correct_answer r
           = default ""%string (answer_key (answer_key_manager ev) !! fst item) /\
         scored_by_precedence marking_scheme (correct_answer r) (snd item)
                              (verdict r) (score r))
      omr_response
      (evaluation_results (evaluate_omr_response py_float ev omr_response)).
Proof.
  intros Hclean.
  destruct (outcomes_follow_items ev omr_response Hclean) as (ms & Hms & HF).
  exists ms. split; [now apply default_scheme_entry|].
  eapply Forall2_impl; [exact HF|].
  intros item r (Hq & Ha & Hc & Hp). repeat split; trivial.
  now apply by_precedence_scored.
Qed.

(** C9 (evaluation.py, [evaluate_omr_response]).  A report produced without
    internal error is consistent with its input: the four verdict counts
    add up to the number of questions (each is the number of outcomes with
    that verdict), there is one outcome per question, in order, the total
    score is the sum of the outcome scores, and the maximum score is the
    question count times [float()] of the "correct" entry of the DEFAULT
    marking scheme. *)
Theorem report_consistent (ev : OMREvaluator) (omr_response : list (string * Answer)) :
  evaluates_cleanly ev omr_response ->
  let report := evaluate_omr_response py_float ev omr_response in
  correct_answers report + incorrect_answers report
    + unmarked_answers report + multi_marked_answers report = length omr_response /\
  correct_answers report = verdict_count correct (evaluation_results report) /\
  incorrect_answers report = verdict_count incorrect (evaluation_results report) /\
  unmarked_answers report = verdict_count unmarked (evaluation_results report) /\
  multi_marked_answers report = verdict_count multi_marked (evaluation_results report) /\
  length (evaluation_results report) = length omr_response /\
  map question (evaluation_results report) = map fst omr_response /\
  total_score report = Py.sum (map score (evaluation_results report)) /\
  exists marking_scheme entry c,
    marking_schemes (answer_key_manager ev) !! "DEFAULT"%string = Some marking_scheme /\
    marking_scheme !! "correct"%string = Some entry /\
    py_float entry = Some c /\
    max_possible_score report = PrimFloat.mul (float_of_nat (length omr_response)) c.
Proof.
  intros Hclean report. apply clean_report in Hclean. fold report in Hclean.
  apply body_report in Hclean
    as (ms & t & c & Hms & Hloop & Hc & Htot & Hmax & Hco & Hin & Hun & Hmu & Hres & _).
  apply tally_loop in Hloop as (HF & Ht & Hc' & Hi' & Hu' & Hm').
  rewrite Hco, Hin, Hun, Hmu, Hres, Htot, Hmax.
  assert (Hlen : length (t_evaluation_results t) = length omr_response).
  { symmetry. eapply Forall2_length. exact HF. }
  repeat split; trivial.
  - rewrite Hc', Hi', Hu', Hm', verdict_count_total. exact Hlen.
  - clear -HF. induction HF as [|x r xs rs Hxr _ IH]; simpl; [reflexivity|].
    destruct Hxr as (Hq & _). now rewrite Hq, IH.
  - apply points_entry in Hc as (entry & He & Hf).
    exists ms, entry, c. repeat split; trivial. now apply default_scheme_entry.
Qed.

(** The subject scores of a report: the total under the key "Total". *)
Lemma report_subject_scores ev omr :
  evaluates_cleanly ev omr ->
  subject_scores (evaluate_omr_response py_float ev omr)
  = [("Total"%string, total_score (evaluate_omr_response py_float ev omr))].
Proof.
  intros Hclean. apply clean_report in Hclean.
  apply body_report in Hclean
    as (ms & t & c & _ & Hloop & _ & Htot & _ & _ & _ & _ & _ & _ & Hsub).
  apply tally_loop in Hloop as (_ & Ht & _).
  rewrite Hsub, Htot, Ht. reflexivity.
Qed.

(** A question of the responses that the answer key lacks is judged
    against the empty string: a null response to it is [unmarked], and a
    non-empty response is [multi_marked] when longer than one character
    and [incorrect] otherwise, never [correct]. *)
Lemma unkeyed_question_answered (ev : OMREvaluator)
    (omr_response : list (string * Answer)) (i : nat) (q : string) (a : Answer) :
  evaluates_cleanly ev omr_response ->
  omr_response !! i = Some (q, a) ->
  answer_key (answer_key_manager ev) !! q = None ->
  exists r,
    evaluation_results (evaluate_omr_response py_float ev omr_response) !! i = Some r /\
    question r = q /\ student_answer r = a /\
    correct_answer r = ""%string /\
    (a = None -> verdict r = unmarked) /\
    (forall s, a = Some s -> s <> ""%string ->
               verdict r = if Nat.ltb 1 (String.length s) then multi_marked else incorrect).
Proof.
  intros Hclean Hi Hkey.
  destruct (outcomes_follow_items ev omr_response Hclean) as (ms & _ & HF).
  destruct (Forall2_lookup_l _ _ _ _ _ HF Hi) as (r & Hr & Hq & Ha & Hc & Hp).
  simpl in Hq, Ha, Hc.
  assert (Hempty : correct_answer r = ""%string).
  { rewrite Hc. unfold get_answer. now rewrite Hkey. }
  exists r. rewrite Hempty in Hp. simpl in Hp. repeat split; trivial.
  - intros ->. inversion Hp; congruence.
  - intros s -> Hs.
    inversion Hp as [p E | p Hn Hb | s' Hn E Hs' Hl | s' p Hn E Hs' Hl];
      try congruence.
    + destruct Hb; congruence.
    + injection E as <-. apply Nat.ltb_lt in Hl. now rewrite Hl.
    + injection E as <-. apply Nat.ltb_ge in Hl. now rewrite Hl.
Qed.

End EvaluatorFacts.

(** *** The evaluator on concrete sheets *)

(** The answer key [A, B, C, D] of a four-question test. *)
Definition abcd_key : gmap string string :=
  <["q1"%string := "A"%string]>
    (<["q2"%string := "B"%string]>
       (<["q3"%string := "C"%string]>
          (<["q4"%string := "D"%string]> ∅))).

(** A sheet with one right, one blank, one doubly marked and one wrong answer. *)
Definition mixed_sheet : list (string * Answer) :=
  [("q1", Some "A"); ("q2", Some ""); ("q3", Some "AC"); ("q4", Some "B")]%string.

(** A sheet that answers a question the key does not have. *)
Definition stray_sheet : list (string * Answer) :=
  [("q1", Some "A"); ("q9", Some "B")]%string.

Example mixed_sheet_verdicts :
  map verdict (evaluation_results
                 (evaluate_omr_response float_literal (evaluator_of abcd_key) mixed_sheet))
  = [correct; unmarked; multi_marked; incorrect] /\
  total_score (evaluate_omr_response float_literal (evaluator_of abcd_key) mixed_sheet)
  = 1%float.
Proof. split; vm_compute; reflexivity. Qed.

(** An evaluator whose configuration names other points under DEFAULT:
    3 for a correct answer, -1 for an incorrect one and -0.5 for an
    unmarked one. *)
Definition penalty_scheme : gmap string string :=
  <["correct"%string := "3"%string]>
    (<["incorrect"%string := "-1"%string]>
       (<["unmarked"%string := "-0.5"%string]> ∅)).

Definition penalty_evaluator : OMREvaluator :=
  {| answer_key_manager :=
       {| answer_key := abcd_key;
          marking_schemes := <["DEFAULT"%string := penalty_scheme]> ∅ |};
     should_explain_scoring := true |}.

(** [float()] on the literals of [penalty_scheme]. *)
Definition penalty_literal (s : string) : option float :=
  if String.eqb s "3" then Some 3%float
  else if String.eqb s "-1" then Some (-1)%float
  else if String.eqb s "-0.5" then Some (-0.5)%float
  else None.

Example mixed_sheet_penalties :
  let report := evaluate_omr_response penalty_literal penalty_evaluator mixed_sheet in
  map (fun r => (verdict r, score r)) (evaluation_results report)
  = [(correct, 3%float); (unmarked, (-0.5)%float); (multi_marked, 0%float);
     (incorrect, (-1)%float)] /\
  total_score report = 1.5%float /\
  max_possible_score report = 12%float.
Proof. repeat split; vm_compute; reflexivity. Qed.

Lemma verdict_by_precedence_witness :
  exists marking_scheme,
    marking_schemes (answer_key_manager penalty_evaluator) !! "DEFAULT"%string
      = Some marking_scheme /\
    Forall2
      (fun item r =>
         question r = fst item /\ student_answer r = snd item /\
         correct_answer r
           = default ""%string (answer_key (answer_key_manager penalty_evaluator) !! fst item) /\
         scored_by_precedence penalty_literal marking_scheme (correct_answer r) (snd item)
                              (verdict r) (score r))
      mixed_sheet
      (evaluation_results
         (evaluate_omr_response penalty_literal penalty_evaluator mixed_sheet)).
Proof.
  apply (verdict_by_precedence penalty_literal penalty_evaluator mixed_sheet).
  exists (evaluate_omr_response penalty_literal penalty_evaluator mixed_sheet).
  vm_compute. reflexivity.
Defined.

Lemma report_consistent_witness :
  let report := evaluate_omr_response penalty_literal penalty_evaluator mixed_sheet in
  correct_answers report + incorrect_answers report
    + unmarked_answers report + multi_marked_answers report = length mixed_sheet /\
  correct_answers report = verdict_count correct (evaluation_results report) /\
  incorrect_answers report = verdict_count incorrect (evaluation_results report) /\
  unmarked_answers report = verdict_count unmarked (evaluation_results report) /\
  multi_marked_answers report = verdict_count multi_marked (evaluation_results report) /\
  length (evaluation_results report) = length mixed_sheet /\
  map question (evaluation_results report) = map fst mixed_sheet /\
  total_score report = Py.sum (map score (evaluation_results report)) /\
  exists marking_scheme entry c,
    marking_schemes (answer_key_manager penalty_evaluator) !! "DEFAULT"%string
      = Some marking_scheme /\
    marking_scheme !! "correct"%string = Some entry /\
    penalty_literal entry = Some c /\
    max_possible_score report = PrimFloat.mul (float_of_nat (length mixed_sheet)) c.
Proof.
  apply (report_consistent penalty_literal penalty_evaluator mixed_sheet).
  exists (evaluate_omr_response penalty_literal penalty_evaluator mixed_sheet).
  vm_compute. reflexivity.
Defined.

Example stray_answer_is_incorrect :
  map (fun r => (question r, student_answer r, correct_answer r, verdict r, score r))
      (evaluation_results
         (evaluate_omr_response float_literal (evaluator_of abcd_key) stray_sheet))
  = [("q1"%string, Some "A"%string, "A"%string, correct, 1%float);
     ("q9"%string, Some "B"%string, ""%string, incorrect, 0%float)].
Proof. vm_compute. reflexivity. Qed.

(** The same question left null rather than blank: the blank branch,
    [student_answer == "" or student_answer is None], is reached and the
    verdict is [unmarked]. *)
Example null_unkeyed_question_is_unmarked :
  map (fun r => (question r, student_answer r, correct_answer r, verdict r, score r))
      (evaluation_results
         (evaluate_omr_response float_literal (evaluator_of abcd_key)
            [("q9"%string, None)]))
  = [("q9"%string, None, ""%string, unmarked, 0%float)].
Proof. vm_compute. reflexivity. Qed.

(** C1 (evaluation.py, [get_answer] and [evaluate_omr_response]).  The
    evaluator on the response [{"q9": ""}] under a key that has no "q9":
    the blank response equals the empty string that [get_answer] returns
    for the missing key, the equality test comes before the blank test,
    and the question is scored [correct] with the scheme's correct
    points. *)
Lemma blank_unkeyed_question_is_correct :
  answer_key (answer_key_manager (evaluator_of abcd_key)) !! "q9"%string = None /\
  map (fun r => (question r, student_answer r, correct_answer r, verdict r, score r))
      (evaluation_results
         (evaluate_omr_response float_literal (evaluator_of abcd_key)
            [("q9"%string, Some ""%string)]))
  = [("q9"%string, Some ""%string, ""%string, correct, 1%float)].
Proof. split; vm_compute; reflexivity. Qed.

(** Two subjects of two questions each, and a sheet that has both
    questions of the first right and both of the second wrong. *)
Definition two_subjects : list Subject :=
  [ {| s_name := Some "Math"%string; s_questions := Some 2%Z;
       s_answer_key := Some ["A"; "B"]%string |};
    {| s_name := Some "Physics"%string; s_questions := Some 2%Z;
       s_answer_key := Some ["C"; "D"]%string |} ].

Definition half_right_sheet : list (string * Answer) :=
  [("q1", Some "A"); ("q2", Some "B"); ("q3", Some "A"); ("q4", Some "A")]%string.

(** C3 as stated fails: the report of an evaluator set up from two
    subjects holds one subject entry, "Total" with the sum of the scores,
    and none per subject. *)
Lemma report_has_only_total :
  map (fun s => default ""%string (s_name s)) two_subjects = ["Math"; "Physics"]%string /\
  map verdict (evaluation_results
                 (evaluate_omr_response float_literal (create_from_test_data two_subjects)
                                        half_right_sheet))
  = [correct; correct; incorrect; incorrect] /\
  subject_scores (evaluate_omr_response float_literal (create_from_test_data two_subjects)
                                        half_right_sheet)
  = [("Total"%string, 2%float)].
Proof. repeat split; vm_compute; reflexivity. Qed.

End Evaluation.

(** ** template.py: field blocks, bubble grids, template validation *)
Module TemplateModel.

Open Scope Z_scope.

(** [Bubble].  The coordinates are Python floats that hold integers: the
    origin converted by [float()], then moved by integer gaps.  They are
    modelled in [Z], which is what binary64 computes as long as the
    origin, the gaps and every point reached are integers of magnitude
    at most 2^53 ([grid_in_range] below); beyond that range the code rounds, and
    beyond the range of a double [float()] raises OverflowError, where the
    model does neither. *)
Record Bubble : Type := {
  x : Z;
  y : Z;
  field_label : string;
  field_type : string;
  field_value : string
}.

Inductive Direction : Set := vertical | horizontal.

(** The table [field_types] of [generate_bubble_grid]; [None] for a type
    that is not a key of it. *)
Definition field_types (ft : string) : option (list string * Direction) :=
  if String.eqb ft "QTYPE_INT" then
    Some (["0"; "1"; "2"; "3"; "4"; "5"; "6"; "7"; "8"; "9"]%string, vertical)
  else if String.eqb ft "QTYPE_MCQ4" then
    Some (["A"; "B"; "C"; "D"]%string, horizontal)
  else if String.eqb ft "QTYPE_MCQ5" then
    Some (["A"; "B"; "C"; "D"; "E"]%string, horizontal)
  else None.

(** [FieldBlock].  [origin] is the two-element list the code indexes at 0
    and 1; [traverse_bubbles] is [None] until [__post_init__] fills it. *)
Record FieldBlock : Type := {
  name : string;
  fb_field_type : string;
  origin : Z * Z;
  fb_bubble_dimensions : list Z;
  bubbles_gap : Z;
  labels_gap : Z;
  field_labels : list string;
  empty_value : option string;
  shift : Z;
  traverse_bubbles : option (list (list Bubble))
}.

(** [point[axis] += d] on a two-element point. *)
Definition advance (point : Z * Z) (axis : nat) (d : Z) : Z * Z :=
  match axis with
  | O => (fst point + d, snd point)
  | _ => (fst point, snd point + d)
  end.

(** [_h, _v = (1, 0) if direction == "vertical" else (0, 1)]. *)
Definition axes (direction : Direction) : nat * nat :=
  match direction with
  | vertical => (1%nat, 0%nat)
  | horizontal => (0%nat, 1%nat)
  end.

(** The inner loop: one bubble per value from [bubble_point], which moves
    by [bubbles_gap] along axis [_h] after each (a binary64 addition in
    the code, exact on [grid_in_range]). *)
Fixpoint place_bubbles (ft label : string) (gap : Z) (_h : nat)
    (bubble_point : Z * Z) (bubble_values : list string) : list Bubble :=
  match bubble_values with
  | [] => []
  | bubble_value :: rest =>
      {| x := fst bubble_point; y := snd bubble_point; field_label := label;
         field_type := ft; field_value := bubble_value |}
      :: place_bubbles ft label gap _h (advance bubble_point _h gap) rest
  end.

(** The outer loop: one row per label from [lead_point], which moves by
    [labels_gap] along axis [_v] after each (a binary64 addition in the
    code, exact on [grid_in_range]). *)
Fixpoint place_rows (ft : string) (bgap lgap : Z) (_h _v : nat)
    (bubble_values : list string) (lead_point : Z * Z) (labels : list string)
  : list (list Bubble) :=
  match labels with
  | [] => []
  | label :: rest =>
      place_bubbles ft label bgap _h lead_point bubble_values
      :: place_rows ft bgap lgap _h _v bubble_values (advance lead_point _v lgap) rest
  end.

Definition with_traverse_bubbles (fb : FieldBlock) (rows : list (list Bubble))
  : FieldBlock :=
  {| name := name fb; fb_field_type := fb_field_type fb; origin := origin fb;
     fb_bubble_dimensions := fb_bubble_dimensions fb; bubbles_gap := bubbles_gap fb;
     labels_gap := labels_gap fb; field_labels := field_labels fb;
     empty_value := empty_value fb; shift := shift fb;
     traverse_bubbles := Some rows |}.

(** [FieldBlock.generate_bubble_grid]: appends the rows of the grid to
    [self.traverse_bubbles]; raises on an unsupported field type (and on a
    [traverse_bubbles] that is still [None]).  The lead point is
    [float(origin[0]), float(origin[1])], which is the origin itself on
    [grid_in_range]. *)
Definition generate_bubble_grid (fb : FieldBlock) : option FieldBlock :=
  match field_types (fb_field_type fb) with
  | None => None
  | Some (bubble_values, direction) =>
      let '(_h, _v) := axes direction in
      match traverse_bubbles fb with
      | None => None
      | Some rows =>
          Some (with_traverse_bubbles fb
                  (rows ++ place_rows (fb_field_type fb) (bubbles_gap fb) (labels_gap fb)
                                      _h _v bubble_values (origin fb) (field_labels fb)))
      end
  end.

(** [FieldBlock.__post_init__]. *)
Definition post_init (fb : FieldBlock) : option FieldBlock :=
  match traverse_bubbles fb with
  | None => generate_bubble_grid (with_traverse_bubbles fb [])
  | Some _ => Some fb
  end.

(** One entry of the [fieldBlocks] object of a template configuration. *)
Record BlockConfig : Type := {
  fieldType : string;
  cfg_origin : Z * Z;
  bubblesGap : Z;
  labelsGap : Z;
  fieldLabels : list string
}.

(** [Template]: the fields that [validate_template] and the detector read. *)
Record Template : Type := {
  page_dimensions : list Z;
  bubble_dimensions : list Z;
  field_blocks : list FieldBlock;
  t_empty_value : option string
}.

(** The [FieldBlock(...)] call of [Template.setup_field_blocks]. *)
Definition new_field_block (bubble_dims : list Z) (empty : option string)
    (block_name : string) (c : BlockConfig) : option FieldBlock :=
  post_init {| name := block_name; fb_field_type := fieldType c; origin := cfg_origin c;
               fb_bubble_dimensions := bubble_dims; bubbles_gap := bubblesGap c;
               labels_gap := labelsGap c; field_labels := fieldLabels c;
               empty_value := empty; shift := 0; traverse_bubbles := None |}.

(** [Template.setup_field_blocks]: one block per configuration entry, in
    order; a block that raises aborts the construction. *)
Fixpoint setup_field_blocks (bubble_dims : list Z) (empty : option string)
    (field_blocks_config : list (string * BlockConfig)) : option (list FieldBlock) :=
  match field_blocks_config with
  | [] => Some []
  | (block_name, c) :: rest =>
      match new_field_block bubble_dims empty block_name c with
      | None => None
      | Some fb =>
          match setup_field_blocks bubble_dims empty rest with
          | None => None
          | Some fbs => Some (fb :: fbs)
          end
      end
  end.

(** [Template.__init__] on a configuration already read from its file. *)
Definition new_template (pageDimensions bubbleDimensions : list Z)
    (emptyValue : option string) (fieldBlocks : list (string * BlockConfig))
  : option Template :=
  match setup_field_blocks bubbleDimensions emptyValue fieldBlocks with
  | None => None
  | Some fbs =>
      Some {| page_dimensions := pageDimensions; bubble_dimensions := bubbleDimensions;
              field_blocks := fbs; t_empty_value := emptyValue |}
  end.

(** [not xs] for a list. *)
Definition is_empty {A : Type} (xs : list A) : bool :=
  match xs with [] => true | _ => false end.

(** The loop of [validate_template] over one block: [False] at the first
    empty grid or empty row. *)
Definition block_is_valid (block : FieldBlock) : bool :=
  match traverse_bubbles block with
  | None => false
  | Some rows => negb (is_empty rows) && forallb (fun row => negb (is_empty row)) rows
  end.

(** [Template.validate_template]. *)
Definition validate_template (t : Template) : bool :=
  if is_empty (page_dimensions t) || negb (Nat.eqb (length (page_dimensions t)) 2) then false
  else if is_empty (bubble_dimensions t) || negb (Nat.eqb (length (bubble_dimensions t)) 2)
  then false
  else if is_empty (field_blocks t) then false
  else forallb block_is_valid (field_blocks t).

(** The coordinate of a bubble along axis 0 ([x]) or 1 ([y]). *)
Definition coordinate (axis : nat) (b : Bubble) : Z :=
  match axis with O => x b | _ => y b end.

(** [point[axis]] for a two-element point. *)
Definition along (axis : nat) (point : Z * Z) : Z :=
  match axis with O => fst point | _ => snd point end.

(** An integer of magnitude at most 2^53: binary64 holds it exactly,
    [float()] of it does not round, and the sum of two floats that hold
    integers is exact when the sum is in this range. *)
Definition exact_in_double (z : Z) : Prop := - 2 ^ 53 <= z <= 2 ^ 53.

(** The range on which the grid that the code computes in binary64 is the
    grid computed here in [Z]: the origin, the two gaps and the last
    point of each loop are integers of magnitude at most 2^53 (the points of a
    loop lie between its first and its last, so every addition of the two
    loops is exact). *)
Definition grid_in_range (origin : Z * Z) (bgap lgap : Z) (direction : Direction)
    (n_values n_labels : nat) : Prop :=
  exact_in_double (fst origin) /\ exact_in_double (snd origin) /\
  exact_in_double bgap /\ exact_in_double lgap /\
  exact_in_double (along (fst (axes direction)) origin + Z.of_nat n_values * bgap) /\
  exact_in_double (along (snd (axes direction)) origin + Z.of_nat n_labels * lgap).

(** What the specification asks of a dimension pair: two positive integers. *)
Definition two_positive (dims : list Z) : Prop :=
  exists w h, dims = [w; h] /\ 0 < w /\ 0 < h.

(** The grid as a function of the field type, the origin, the two gaps and
    the labels alone. *)
Definition grid_of (ft : string) (origin : Z * Z) (bgap lgap : Z) (labels : list string)
  : option (list (list Bubble)) :=
  match field_types ft with
  | None => None
  | Some (bubble_values, direction) =>
      Some (place_rows ft bgap lgap (fst (axes direction)) (snd (axes direction))
                       bubble_values origin labels)
  end.

(** *** Properties of the grid *)

Lemma advance_twice p axis d e : advance (advance p axis d) axis e = advance p axis (d + e).
Proof. destruct p as [px py], axis; simpl; f_equal; lia. Qed.

Lemma advance_zero p axis : advance p axis 0 = p.
Proof. destruct p as [px py], axis; simpl; f_equal; lia. Qed.

Lemma place_bubbles_length ft label gap h p values :
  length (place_bubbles ft label gap h p values) = length values.
Proof.
  revert p. induction values as [|v values IH]; intros p; simpl; [reflexivity|].
  now rewrite IH.
Qed.

Lemma place_bubbles_lookup ft label gap h values :
  forall (k : nat) p v,
    values !! k = Some v ->
    place_bubbles ft label gap h p values !! k =
    Some {| x := fst (advance p h (Z.of_nat k * gap));
            y := snd (advance p h (Z.of_nat k * gap));
            field_label := label; field_type := ft; field_value := v |}.
Proof.
  induction values as [|v0 values IH]; intros k p v Hk; [discriminate|].
  destruct k as [|k]; simpl in *.
  - injection Hk as <-. now rewrite advance_zero.
  - rewrite (IH k _ v Hk), advance_twice.
    replace (gap + Z.of_nat k * gap) with (Z.of_nat (S k) * gap) by lia.
    reflexivity.
Qed.

Lemma place_rows_length ft bgap lgap h v values lead labels :
  length (place_rows ft bgap lgap h v values lead labels) = length labels.
Proof.
  revert lead. induction labels as [|l labels IH]; intros lead; simpl; [reflexivity|].
  now rewrite IH.
Qed.

Lemma place_rows_lookup ft bgap lgap h v values labels :
  forall (i : nat) lead label,
    labels !! i = Some label ->
    place_rows ft bgap lgap h v values lead labels !! i =
    Some (place_bubbles ft label bgap h (advance lead v (Z.of_nat i * lgap)) values).
Proof.
  induction labels as [|l0 labels IH]; intros i lead label Hi; [discriminate|].
  destruct i as [|i]; simpl in *.
  - injection Hi as <-. now rewrite advance_zero.
  - rewrite (IH i _ label Hi), advance_twice.
    replace (lgap + Z.of_nat i * lgap) with (Z.of_nat (S i) * lgap) by lia.
    reflexivity.
Qed.

Lemma place_rows_count ft bgap lgap h v values lead labels :
  length (concat (place_rows ft bgap lgap h v values lead labels))
  = (length labels * length values)%nat.
Proof.
  revert lead. induction labels as [|l labels IH]; intros lead; simpl; [reflexivity|].
  now rewrite length_app, place_bubbles_length, IH.
Qed.

(** The three supported field types and their domains. *)
Lemma field_types_domain ft values direction :
  field_types ft = Some (values, direction) ->
  (ft = "QTYPE_INT"%string /\ length values = 10%nat /\ direction = vertical) \/
  (ft = "QTYPE_MCQ4"%string /\ length values = 4%nat /\ direction = horizontal) \/
  (ft = "QTYPE_MCQ5"%string /\ length values = 5%nat /\ direction = horizontal).
Proof.
  unfold field_types.
  destruct (String.eqb ft "QTYPE_INT") eqn:E1;
    [apply String.eqb_eq in E1; intros [= <- <-]; now left|].
  destruct (String.eqb ft "QTYPE_MCQ4") eqn:E2;
    [apply String.eqb_eq in E2; intros [= <- <-]; right; now left|].
  destruct (String.eqb ft "QTYPE_MCQ5") eqn:E3;
    [apply String.eqb_eq in E3; intros [= <- <-]; right; now right|].
  discriminate.
Qed.

(** Two neighbours of a row: one [bubbles_gap] apart along the layout
    axis, level on the other axis. *)
Lemma row_neighbours ft label gap direction p values (k : nat) b b' :
  place_bubbles ft label gap (fst (axes direction)) p values !! k = Some b ->
  place_bubbles ft label gap (fst (axes direction)) p values !! S k = Some b' ->
  coordinate (fst (axes direction)) b' = coordinate (fst (axes direction)) b + gap /\
  coordinate (snd (axes direction)) b' = coordinate (snd (axes direction)) b.
Proof.
  intros Hb Hb'.
  assert (Hk : is_Some (values !! k)).
  { apply lookup_lt_is_Some. rewrite <- (place_bubbles_length ft label gap (fst (axes direction)) p).
    apply lookup_lt_is_Some. eauto. }
  assert (Hk' : is_Some (values !! S k)).
  { apply lookup_lt_is_Some. rewrite <- (place_bubbles_length ft label gap (fst (axes direction)) p).
    apply lookup_lt_is_Some. eauto. }
  destruct Hk as [v Hv], Hk' as [v' Hv'].
  rewrite (place_bubbles_lookup _ _ _ _ _ _ _ _ Hv) in Hb.
  rewrite (place_bubbles_lookup _ _ _ _ _ _ _ _ Hv') in Hb'.
  injection Hb as <-. injection Hb' as <-.
  destruct p as [px py], direction; simpl; lia.
Qed.

(** C5, as the code has it (template.py, [generate_bubble_grid]).  For a
    block of a supported field type (QTYPE_INT with 10 values laid
    vertically, QTYPE_MCQ4 with 4 and QTYPE_MCQ5 with 5 laid
    horizontally) whose origin, gaps and farthest grid points are
    integers of magnitude at most 2^53, where the float coordinates of
    the code are exact, the grid built at construction is a
    function of the field type, origin, gaps and labels alone; it has one
    row per label and one bubble per domain value in each row, so
    [len(fieldLabels) * domainSize] bubbles in all; two successive bubbles
    of a question are exactly [bubbles_gap] apart along the layout axis
    and level on the other, so the coordinates strictly increase along
    the layout axis whenever [bubbles_gap] is positive. *)
Theorem bubble_grid_geometry (fb : FieldBlock) (bubble_values : list string)
    (direction : Direction) :
  field_types (fb_field_type fb) = Some (bubble_values, direction) ->
  traverse_bubbles fb = None ->
  grid_in_range (origin fb) (bubbles_gap fb) (labels_gap fb) direction
                (length bubble_values) (length (field_labels fb)) ->
  ((fb_field_type fb = "QTYPE_INT"%string /\ length bubble_values = 10%nat
    /\ direction = vertical) \/
   (fb_field_type fb = "QTYPE_MCQ4"%string /\ length bubble_values = 4%nat
    /\ direction = horizontal) \/
   (fb_field_type fb = "QTYPE_MCQ5"%string /\ length bubble_values = 5%nat
    /\ direction = horizontal)) /\
  exists rows,
    post_init fb = Some (with_traverse_bubbles fb rows) /\
    grid_of (fb_field_type fb) (origin fb) (bubbles_gap fb) (labels_gap fb)
            (field_labels fb) = Some rows /\
    length rows = length (field_labels fb) /\
    length (concat rows) = (length (field_labels fb) * length bubble_values)%nat /\
    forall (i : nat) row, rows !! i = Some row ->
      length row = length bubble_values /\
      forall (k : nat) b b', row !! k = Some b -> row !! S k = Some b' ->
        coordinate (fst (axes direction)) b'
          = coordinate (fst (axes direction)) b + bubbles_gap fb /\
        coordinate (snd (axes direction)) b' = coordinate (snd (axes direction)) b /\
        (0 < bubbles_gap fb ->
         coordinate (fst (axes direction)) b < coordinate (fst (axes direction)) b').
Proof.
  intros Hft Hnone _. split; [now apply field_types_domain|].
  exists (place_rows (fb_field_type fb) (bubbles_gap fb) (labels_gap fb)
                     (fst (axes direction)) (snd (axes direction))
                     bubble_values (origin fb) (field_labels fb)).
  split; [|split; [|split; [|split]]].
  - unfold post_init, generate_bubble_grid. rewrite Hnone. simpl. rewrite Hft.
    now destruct direction.
  - unfold grid_of. now rewrite Hft.
  - apply place_rows_length.
  - apply place_rows_count.
  - intros i row Hrow.
    assert (Hi : is_Some (field_labels fb !! i)).
    { apply lookup_lt_is_Some.
      rewrite <- (place_rows_length (fb_field_type fb) (bubbles_gap fb) (labels_gap fb)
                    (fst (axes direction)) (snd (axes direction)) bubble_values (origin fb)).
      apply lookup_lt_is_Some. eauto. }
    destruct Hi as [label Hl].
    rewrite (place_rows_lookup _ _ _ _ _ _ _ _ _ _ Hl) in Hrow. injection Hrow as <-.
    split; [apply place_bubbles_length|].
    intros k b b' Hb Hb'.
    destruct (row_neighbours _ _ _ _ _ _ _ _ _ Hb Hb') as [Hstep Hlevel].
    repeat split; trivial. lia.
Qed.

Lemma is_empty_false {A : Type} (xs : list A) : is_empty xs = false <-> xs <> [].
Proof. destruct xs; simpl; split; congruence. Qed.

Lemma block_is_valid_iff block :
  block_is_valid block = true <->
  exists rows, traverse_bubbles block = Some rows /\ rows <> [] /\
               Forall (fun row => row <> []) rows.
Proof.
  unfold block_is_valid. destruct (traverse_bubbles block) as [rows|].
  - rewrite andb_true_iff, negb_true_iff, is_empty_false, forallb_forall.
    split.
    + intros [Hne Hall]. exists rows. repeat split; trivial.
      apply List.Forall_forall. intros row Hin.
      apply is_empty_false, negb_true_iff, Hall, Hin.
    + intros (rows' & [= <-] & Hne & Hall). split; [exact Hne|].
      intros row Hin. apply negb_true_iff, is_empty_false.
      rewrite List.Forall_forall in Hall. now apply Hall.
  - split; [discriminate|]. intros (rows & Hr & _). discriminate.
Qed.

(** C4, as the code has it (template.py, [validate_template]).  Validation
    returns true exactly when the page dimensions and the bubble
    dimensions each have two entries, whatever their values, there is at
    least one field block, and every block has a grid with at least one
    row and no empty row. *)
Theorem validate_template_iff (t : Template) :
  validate_template t = true <->
  length (page_dimensions t) = 2%nat /\
  length (bubble_dimensions t) = 2%nat /\
  field_blocks t <> [] /\
  Forall (fun block =>
            exists rows, traverse_bubbles block = Some rows /\ rows <> [] /\
                         Forall (fun row => row <> []) rows)
         (field_blocks t).
Proof.
  unfold validate_template.
  destruct (is_empty (page_dimensions t) || negb (Nat.eqb (length (page_dimensions t)) 2))
    eqn:Hp.
  { split; [discriminate|]. intros (Hl & _).
    rewrite Hl in Hp. destruct (page_dimensions t); discriminate. }
  destruct (is_empty (bubble_dimensions t) || negb (Nat.eqb (length (bubble_dimensions t)) 2))
    eqn:Hb.
  { split; [discriminate|]. intros (_ & Hl & _).
    rewrite Hl in Hb. destruct (bubble_dimensions t); discriminate. }
  apply orb_false_iff in Hp as [_ Hp]. apply negb_false_iff, Nat.eqb_eq in Hp.
  apply orb_false_iff in Hb as [_ Hb]. apply negb_false_iff, Nat.eqb_eq in Hb.
  destruct (is_empty (field_blocks t)) eqn:Hf.
  { split; [discriminate|]. intros (_ & _ & Hne & _).
    destruct (field_blocks t); [congruence | discriminate]. }
  apply is_empty_false in Hf. rewrite forallb_forall. split.
  - intros Hall. repeat split; trivial.
    apply List.Forall_forall. intros block Hin. apply block_is_valid_iff, Hall, Hin.
  - intros (_ & _ & _ & Hall) block Hin. apply block_is_valid_iff.
    rewrite List.Forall_forall in Hall. now apply Hall.
Qed.

(** *** Concrete templates *)

(** The block of [create_default_template], cut to three questions. *)
Definition questions_block : BlockConfig :=
  {| fieldType := "QTYPE_MCQ4"; cfg_origin := (50, 100); bubblesGap := 50;
     labelsGap := 60; fieldLabels := ["q1"; "q2"; "q3"]%string |}.

(** The same block with its bubbles laid on top of each other. *)
Definition stacked_block : BlockConfig :=
  {| fieldType := "QTYPE_MCQ4"; cfg_origin := (50, 100); bubblesGap := 0;
     labelsGap := 60; fieldLabels := ["q1"]%string |}.

Definition fresh_block (block_name : string) (c : BlockConfig) : FieldBlock :=
  {| name := block_name; fb_field_type := fieldType c; origin := cfg_origin c;
     fb_bubble_dimensions := [20; 20]; bubbles_gap := bubblesGap c;
     labels_gap := labelsGap c; field_labels := fieldLabels c;
     empty_value := Some ""%string; shift := 0; traverse_bubbles := None |}.

Example questions_block_xs :
  option_map (fun fb => map (map (fun b => (x b, y b, field_value b)))
                            (default [] (traverse_bubbles fb)))
             (post_init (fresh_block "Questions" questions_block))
  = Some [[(50, 100, "A"); (100, 100, "B"); (150, 100, "C"); (200, 100, "D")];
          [(50, 160, "A"); (100, 160, "B"); (150, 160, "C"); (200, 160, "D")];
          [(50, 220, "A"); (100, 220, "B"); (150, 220, "C"); (200, 220, "D")]]%string.
Proof. vm_compute. reflexivity. Qed.

Lemma bubble_grid_geometry_witness :
  ((fb_field_type (fresh_block "Questions" questions_block) = "QTYPE_INT"%string
    /\ length ["A"; "B"; "C"; "D"]%string = 10%nat /\ horizontal = vertical) \/
   (fb_field_type (fresh_block "Questions" questions_block) = "QTYPE_MCQ4"%string
    /\ length ["A"; "B"; "C"; "D"]%string = 4%nat /\ horizontal = horizontal) \/
   (fb_field_type (fresh_block "Questions" questions_block) = "QTYPE_MCQ5"%string
    /\ length ["A"; "B"; "C"; "D"]%string = 5%nat /\ horizontal = horizontal)) /\
  exists rows,
    post_init (fresh_block "Questions" questions_block)
      = Some (with_traverse_bubbles (fresh_block "Questions" questions_block) rows) /\
    grid_of "QTYPE_MCQ4" (50, 100) 50 60 ["q1"; "q2"; "q3"]%string = Some rows /\
    length rows = 3%nat /\
    length (concat rows) = (3 * 4)%nat /\
    forall (i : nat) row, rows !! i = Some row ->
      length row = 4%nat /\
      forall (k : nat) b b', row !! k = Some b -> row !! S k = Some b' ->
        x b' = x b + 50 /\ y b' = y b /\ (0 < 50 -> x b < x b').
Proof.
  apply (bubble_grid_geometry (fresh_block "Questions" questions_block)
           ["A"; "B"; "C"; "D"]%string horizontal).
  - reflexivity.
  - reflexivity.
  - unfold grid_in_range, exact_in_double. simpl. lia.
Defined.

(** C5 as stated fails: with [bubblesGap = 0] every bubble of a question
    has the same coordinates, so nothing increases along the layout axis. *)
Lemma zero_gap_grid_does_not_increase :
  field_types (fieldType stacked_block) = Some (["A"; "B"; "C"; "D"]%string, horizontal) /\
  option_map (fun fb => map (map (coordinate 0)) (default [] (traverse_bubbles fb)))
             (post_init (fresh_block "Questions" stacked_block))
  = Some [[50; 50; 50; 50]].
Proof. split; vm_compute; reflexivity. Qed.

(** *** The grid on binary64 points *)

(** The two loops as the code runs them, on float points: the lead point
    is [float(origin[0]), float(origin[1])], and each gap is added to a
    float. *)
Definition advance_double (point : float * float) (axis : nat) (d : Z) : float * float :=
  match axis with
  | O => (PrimFloat.add (fst point) (Py.float_of_Z d), snd point)
  | _ => (fst point, PrimFloat.add (snd point) (Py.float_of_Z d))
  end.

Fixpoint row_points (gap : Z) (_h : nat) (bubble_point : float * float)
    (bubble_values : list string) : list (float * float) :=
  match bubble_values with
  | [] => []
  | _ :: rest => bubble_point :: row_points gap _h (advance_double bubble_point _h gap) rest
  end.

Fixpoint grid_points (bgap lgap : Z) (_h _v : nat) (bubble_values : list string)
    (lead_point : float * float) (labels : list string) : list (list (float * float)) :=
  match labels with
  | [] => []
  | _ :: rest =>
      row_points bgap _h lead_point bubble_values
      :: grid_points bgap lgap _h _v bubble_values (advance_double lead_point _v lgap) rest
  end.

Definition double_grid (c : BlockConfig) : option (list (list (float * float))) :=
  match field_types (fieldType c) with
  | None => None
  | Some (bubble_values, direction) =>
      Some (grid_points (bubblesGap c) (labelsGap c)
                        (fst (axes direction)) (snd (axes direction)) bubble_values
                        (Py.float_of_Z (fst (cfg_origin c)), Py.float_of_Z (snd (cfg_origin c)))
                        (fieldLabels c))
  end.

(** The coordinates of the grid computed in [Z], as floats. *)
Definition integer_grid (c : BlockConfig) : option (list (list (float * float))) :=
  option_map (fun fb => map (map (fun b => (Py.float_of_Z (x b), Py.float_of_Z (y b))))
                            (default [] (traverse_bubbles fb)))
             (post_init (fresh_block "Questions" c)).

(** On the block of the default template the two grids are the same. *)
Example questions_block_on_doubles :
  double_grid questions_block = integer_grid questions_block.
Proof. vm_compute. reflexivity. Qed.

(** A block whose origin is beyond [grid_in_range]: binary64 rounds the
    origin and loses every gap of 1 added to it, so the four bubbles of
    the code share one [x], where the grid in [Z] moves on.  The grid is
    described on [grid_in_range] for that reason. *)
Definition far_block : BlockConfig :=
  {| fieldType := "QTYPE_MCQ4"; cfg_origin := (2 ^ 53 + 1, 100); bubblesGap := 1;
     labelsGap := 60; fieldLabels := ["q1"]%string |}.

Example far_block_on_doubles :
  option_map (map (map fst)) (double_grid far_block)
  = Some [[Py.float_of_Z (2 ^ 53); Py.float_of_Z (2 ^ 53); Py.float_of_Z (2 ^ 53);
           Py.float_of_Z (2 ^ 53)]] /\
  option_map (fun fb => map (map x) (default [] (traverse_bubbles fb)))
             (post_init (fresh_block "Questions" far_block))
  = Some [[2 ^ 53 + 1; 2 ^ 53 + 2; 2 ^ 53 + 3; 2 ^ 53 + 4]].
Proof. split; vm_compute; reflexivity. Qed.

(** C4 as stated fails: a template whose page dimensions are zero and
    negative, and whose bubble dimensions are negative, is built and
    validated. *)
Lemma nonpositive_dimensions_validate :
  option_map (fun t => (page_dimensions t, bubble_dimensions t, validate_template t))
             (new_template [0; -820] [-20; -20] (Some ""%string)
                           [("Questions"%string, questions_block)])
  = Some ([0; -820], [-20; -20], true).
Proof. vm_compute. reflexivity. Qed.

End TemplateModel.

(** ** bubble_detection.py: thresholds and mark detection *)
Module Detection.
Import Py.

Open Scope Z_scope.

(** A single-channel 8-bit image: rows of pixels in 0..255. *)
Definition Image : Type := list (list Z).

(** [image.shape[0]] and [image.shape[1]]. *)
Definition shape0 (image : Image) : Z := Z.of_nat (length image).
Definition shape1 (image : Image) : Z :=
  match image with
  | [] => 0
  | row :: _ => Z.of_nat (length row)
  end.

(** [image.flatten()]. *)
Definition flatten (image : Image) : list Z := concat image.

(** The [threshold_params] object of the tuning configuration; [None] is
    an absent key. *)
Record ThresholdParams : Type := {
  GAMMA_LOW : option float;
  MIN_GAP : option Z;
  MIN_JUMP : option Z;
  CONFIDENT_SURPLUS : option Z;
  JUMP_DELTA : option Z;
  PAGE_TYPE_FOR_THRESHOLD : option string
}.

Record BubbleDetector : Type := {
  gamma_low : float;
  min_gap : Z;
  min_jump : Z;
  confident_surplus : Z;
  jump_delta : Z;
  page_type : string;
  global_default_threshold : Z
}.

(** [BubbleDetector.__init__]. *)
Definition new_detector (threshold_params : ThresholdParams) : BubbleDetector :=
  let page_type := default "white"%string (PAGE_TYPE_FOR_THRESHOLD threshold_params) in
  {| gamma_low := default 0.7%float (GAMMA_LOW threshold_params);
     min_gap := default 30 (MIN_GAP threshold_params);
     min_jump := default 25 (MIN_JUMP threshold_params);
     confident_surplus := default 5 (CONFIDENT_SURPLUS threshold_params);
     jump_delta := default 30 (JUMP_DELTA threshold_params);
     page_type := page_type;
     global_default_threshold := if String.eqb page_type "white" then 200 else 100 |}.

(** Subtraction of two [numpy.uint8] scalars: the result wraps to 8 bits. *)
Definition uint8_sub (a b : Z) : Z := (a - b) mod 256.

(** One iteration of the gap scan of [get_global_threshold] at index [i]:
    [jump = q_vals[i + 1] - q_vals[i - 1]], kept when larger than [max1]
    together with [q_vals[i - 1] + jump / 2]. *)
Definition global_scan_step (q_vals : list Z) (st : Z * float) (i : Z)
  : option (Z * float) :=
  match index q_vals (i + 1), index q_vals (i - 1) with
  | Some hi, Some lo =>
      let jump := uint8_sub hi lo in
      if fst st <? jump
      then Some (jump, PrimFloat.add (float_of_Z lo) (PrimFloat.div (float_of_Z jump) 2%float))
      else Some st
  | _, _ => None
  end.

(** The [try] body of [BubbleDetector.get_global_threshold]. *)
Definition get_global_threshold_body (d : BubbleDetector) (image : Image)
  : option (float * float * float) :=
  let q_vals_orig := flatten image in
  let q_vals := merge_sort Z.le q_vals_orig in
  let l := Z.of_nat (length q_vals) - 1 in
  match for_each (global_scan_step q_vals) (range 1 l)
                 (min_jump d, float_of_Z (global_default_threshold d)) with
  | None => None
  | Some (max1, thr1) =>
      let thr_low := PrimFloat.sub thr1 (float_of_Z (max1 / 2)) in
      let thr_high := PrimFloat.add thr1 (float_of_Z (max1 / 2)) in
      if PrimFloat.ltb (gamma_low d) 1%float
      then Some (PrimFloat.mul thr1 (gamma_low d),
                 PrimFloat.mul thr_low (gamma_low d),
                 PrimFloat.mul thr_high (gamma_low d))
      else Some (thr1, thr_low, thr_high)
  end.

(** [BubbleDetector.get_global_threshold]. *)
Definition get_global_threshold (d : BubbleDetector) (image : Image)
  : float * float * float :=
  match get_global_threshold_body d image with
  | Some r => r
  | None => (float_of_Z (global_default_threshold d),
             float_of_Z (global_default_threshold d - 50),
             float_of_Z (global_default_threshold d + 50))
  end.

(** [sorted] on floats, as a stable insertion sort: on a list without NaN
    (cv2.mean returns none) it is the list Python's stable sort returns. *)
Fixpoint insert_float (v : float) (xs : list float) : list float :=
  match xs with
  | [] => [v]
  | u :: rest => if PrimFloat.ltb v u then v :: xs else u :: insert_float v rest
  end.

Definition sorted_floats (xs : list float) : list float :=
  fold_left (fun acc v => insert_float v acc) xs [].

(** One iteration of the gap scan of [get_local_threshold]. *)
Definition local_scan_step (q_vals : list float) (st : float * float) (i : Z)
  : option (float * float) :=
  match index q_vals (i + 1), index q_vals (i - 1) with
  | Some hi, Some lo =>
      let jump := PrimFloat.sub hi lo in
      if PrimFloat.ltb (fst st) jump
      then Some (jump, PrimFloat.add lo (PrimFloat.div jump 2%float))
      else Some st
  | _, _ => None
  end.

Section Detector.

(** [cv2.mean(image[y0:y1, x0:x1])[0]]: the mean intensity of a region. *)
Variable cv2_mean : Image -> Z -> Z -> Z -> Z -> float.

(** [np.max], [np.min] and [np.mean] of a list; [None] when they raise
    (on an empty list). *)
Variable np_max np_min np_mean : list float -> option float.

(** The [try] body of [BubbleDetector.get_local_threshold]. *)
Definition get_local_threshold_body (d : BubbleDetector) (q_vals : list float)
    (global_thr : float) : option float :=
  if Z.of_nat (length q_vals) <? 3 then
    match np_max q_vals, np_min q_vals with
    | Some hi, Some lo =>
        if PrimFloat.ltb (PrimFloat.sub hi lo) (float_of_Z (min_gap d))
        then Some global_thr
        else np_mean q_vals
    | _, _ => None
    end
  else
    let q_vals := sorted_floats q_vals in
    let l := Z.of_nat (length q_vals) - 1 in
    match for_each (local_scan_step q_vals) (range 1 l)
                   (float_of_Z (min_jump d), 255%float) with
    | None => None
    | Some (max1, thr1) =>
        let confident_jump := min_jump d + confident_surplus d in
        if PrimFloat.ltb max1 (float_of_Z confident_jump)
        then Some global_thr
        else Some thr1
    end.

(** [BubbleDetector.get_local_threshold]. *)
Definition get_local_threshold (d : BubbleDetector) (q_vals : list float)
    (global_thr : float) : float :=
  match get_local_threshold_body d q_vals global_thr with
  | Some thr => thr
  | None => global_thr
  end.

(** [rect = [y, y + box_h, x, x + box_w]] for a bubble of a block. *)
Definition bubble_rect (fb : TemplateModel.FieldBlock) (box_w box_h : Z)
    (bubble : TemplateModel.Bubble) : Z * Z * Z * Z :=
  let x := TemplateModel.x bubble + TemplateModel.shift fb in
  let y := TemplateModel.y bubble in
  (y, y + box_h, x, x + box_w).

(** The bounds test on a rectangle. *)
Definition within_image (image : Image) (rect : Z * Z * Z * Z) : bool :=
  let '(r0, r1, r2, r3) := rect in
  (0 <=? r0) && (r1 <=? shape0 image) && (0 <=? r2) && (r3 <=? shape1 image).

(** The measured intensity of a bubble whose rectangle is in bounds. *)
Definition bubble_intensity (fb : TemplateModel.FieldBlock) (image : Image)
    (box_w box_h : Z) (bubble : TemplateModel.Bubble) : float :=
  let '(r0, r1, r2, r3) := bubble_rect fb box_w box_h bubble in
  cv2_mean image r0 r1 r2 r3.

(** The first pass: the intensities of all in-bounds bubbles, row by row. *)
Fixpoint row_intensities (fb : TemplateModel.FieldBlock) (image : Image)
    (box_w box_h : Z) (field_bubbles : list TemplateModel.Bubble) : list float :=
  match field_bubbles with
  | [] => []
  | bubble :: rest =>
      if within_image image (bubble_rect fb box_w box_h bubble)
      then bubble_intensity fb image box_w box_h bubble
           :: row_intensities fb image box_w box_h rest
      else row_intensities fb image box_w box_h rest
  end.

Definition all_intensities (fb : TemplateModel.FieldBlock) (image : Image)
    (box_w box_h : Z) (rows : list (list TemplateModel.Bubble)) : list float :=
  concat (map (row_intensities fb image box_w box_h) rows).

(** The inner loop of the second pass: the bubbles of one question that
    are in bounds and darker than the local threshold, in order. *)
Fixpoint detect_row (fb : TemplateModel.FieldBlock) (image : Image)
    (box_w box_h : Z) (local_thr : float) (field_bubbles : list TemplateModel.Bubble)
  : list TemplateModel.Bubble :=
  match field_bubbles with
  | [] => []
  | bubble :: rest =>
      if within_image image (bubble_rect fb box_w box_h bubble) then
        let bubble_is_marked :=
          PrimFloat.ltb (bubble_intensity fb image box_w box_h bubble) local_thr in
        if bubble_is_marked
        then bubble :: detect_row fb image box_w box_h local_thr rest
        else detect_row fb image box_w box_h local_thr rest
      else detect_row fb image box_w box_h local_thr rest
  end.

(** What the second pass accumulates: [field_response], [marked],
    [multi_marked]. *)
Record BlockResult : Type := {
  field_response : list (string * option string);
  marked : list string;
  multi_marked : list string
}.

(** [''.join([b.field_value for b in detected_bubbles])]. *)
Definition joined_values (detected_bubbles : list TemplateModel.Bubble) : string :=
  String.concat "" (map TemplateModel.field_value detected_bubbles).

(** One iteration of the second pass, for the bubbles of one question. *)
Definition process_question (fb : TemplateModel.FieldBlock) (image : Image)
    (box_w box_h : Z) (local_thr : float) (acc : BlockResult)
    (field_bubbles : list TemplateModel.Bubble) : option BlockResult :=
  match field_bubbles with
  | [] => None
  | first :: _ =>
      let field_label := TemplateModel.field_label first in
      let detected_bubbles := detect_row fb image box_w box_h local_thr field_bubbles in
      match detected_bubbles with
      | _ :: _ :: _ =>
          Some {| field_response :=
                    dict_set (field_response acc) field_label
                             (Some (joined_values detected_bubbles));
                  marked := marked acc;
                  multi_marked := multi_marked acc ++ [field_label] |}
      | [only] =>
          Some {| field_response :=
                    dict_set (field_response acc) field_label
                             (Some (TemplateModel.field_value only));
                  marked := marked acc ++ [field_label];
                  multi_marked := multi_marked acc |}
      | [] =>
          Some {| field_response :=
                    dict_set (field_response acc) field_label (TemplateModel.empty_value fb);
                  marked := marked acc;
                  multi_marked := multi_marked acc |}
      end
  end.

Definition empty_result : BlockResult :=
  {| field_response := []; marked := []; multi_marked := [] |}.

(** The second pass over the questions of a block, for a given threshold. *)
Definition process_questions (fb : TemplateModel.FieldBlock) (image : Image)
    (box_w box_h : Z) (local_thr : float) (rows : list (list TemplateModel.Bubble))
  : option BlockResult :=
  for_each (process_question fb image box_w box_h local_thr) rows empty_result.

(** The local threshold that [process_field_block] computes for a block. *)
Definition block_threshold (d : BubbleDetector) (fb : TemplateModel.FieldBlock)
    (image : Image) (global_thr : float) (box_w box_h : Z)
    (rows : list (list TemplateModel.Bubble)) : float :=
  get_local_threshold d (all_intensities fb image box_w box_h rows) global_thr.

(** The [try] body of [BubbleDetector.process_field_block] (the fourth
    component, [multi_roll], is always the empty list). *)
Definition process_field_block_body (d : BubbleDetector) (fb : TemplateModel.FieldBlock)
    (image : Image) (global_thr : float) (bubble_dimensions : list Z)
  : option BlockResult :=
  match bubble_dimensions with
  | [box_w; box_h] =>
      match TemplateModel.traverse_bubbles fb with
      | None => None
      | Some rows =>
          let local_thr := block_threshold d fb image global_thr box_w box_h rows in
          process_questions fb image box_w box_h local_thr rows
      end
  | _ => None
  end.

(** [BubbleDetector.process_field_block]. *)
Definition process_field_block (d : BubbleDetector) (fb : TemplateModel.FieldBlock)
    (image : Image) (global_thr : float) (bubble_dimensions : list Z) : BlockResult :=
  match process_field_block_body d fb image global_thr bubble_dimensions with
  | Some r => r
  | None => empty_result
  end.

(** The response recorded for a question from its detected bubbles. *)
Definition question_response (fb : TemplateModel.FieldBlock)
    (detected_bubbles : list TemplateModel.Bubble) : option string :=
  match detected_bubbles with
  | [] => TemplateModel.empty_value fb
  | _ :: _ => Some (joined_values detected_bubbles)
  end.

(** The labels whose number of marks passes a test, in question order. *)
Fixpoint labels_where (keep : nat -> bool) (labels : list string) (counts : list nat)
  : list string :=
  match labels, counts with
  | label :: labels', n :: counts' =>
      if keep n then label :: labels_where keep labels' counts'
      else labels_where keep labels' counts'
  | _, _ => []
  end.

(** *** Marks against the local threshold *)

Lemma detect_row_In fb image box_w box_h T row bubble :
  In bubble (detect_row fb image box_w box_h T row) <->
  In bubble row /\
  within_image image (bubble_rect fb box_w box_h bubble) = true /\
  PrimFloat.ltb (bubble_intensity fb image box_w box_h bubble) T = true.
Proof.
  induction row as [|b row IH]; [simpl; tauto|].
  cbn [detect_row In].
  destruct (within_image image (bubble_rect fb box_w box_h b)) eqn:Hin;
    [destruct (PrimFloat.ltb (bubble_intensity fb image box_w box_h b) T) eqn:Hlt|];
    cbn [In]; split.
  - intros [<- | H]; [auto | apply IH in H; tauto].
  - intros ([<- | H1] & H2 & H3); [now left | right; apply IH; auto].
  - intros H. apply IH in H. tauto.
  - intros ([<- | H1] & H2 & H3); [congruence | apply IH; auto].
  - intros H. apply IH in H. tauto.
  - intros ([<- | H1] & H2 & H3); [congruence | apply IH; auto].
Qed.

(** C7 (bubble_detection.py, [process_field_block]).  For a bubble of a
    question whose rectangle lies within the image, and any local
    threshold [T]: the bubble is among the detected (marked) bubbles of
    its question if and only if its measured mean intensity is strictly
    below [T]; an intensity of [T] or more is never marked. *)
Theorem marked_iff_below_threshold (fb : TemplateModel.FieldBlock) (image : Image)
    (box_w box_h : Z) (T : float) (field_bubbles : list TemplateModel.Bubble)
    (bubble : TemplateModel.Bubble) :
  In bubble field_bubbles ->
  within_image image (bubble_rect fb box_w box_h bubble) = true ->
  let intensity := bubble_intensity fb image box_w box_h bubble in
  let detected_bubbles := detect_row fb image box_w box_h T field_bubbles in
  (In bubble detected_bubbles <-> PrimFloat.ltb intensity T = true) /\
  (PrimFloat.leb T intensity = true -> ~ In bubble detected_bubbles).
Proof.
  intros Hrow Hin intensity detected_bubbles. split.
  - unfold detected_bubbles. rewrite detect_row_In. tauto.
  - intros Hge Hdet. apply detect_row_In in Hdet as (_ & _ & Hlt).
    apply float_leb_not_ltb in Hge. fold intensity in Hlt. congruence.
Qed.

(** *** The responses of a field block *)




Lemma process_question_effect fb image box_w box_h T acc b rest :
  process_question fb image box_w box_h T acc (b :: rest) =
  Some {| field_response :=
            dict_set (field_response acc) (TemplateModel.field_label b)
                     (question_response fb (detect_row fb image box_w box_h T (b :: rest)));
          marked :=
            marked acc ++
            (if Nat.eqb 1 (length (detect_row fb image box_w box_h T (b :: rest)))
             then [TemplateModel.field_label b] else []);
          multi_marked :=
            multi_marked acc ++
            (if Nat.leb 2 (length (detect_row fb image box_w box_h T (b :: rest)))
             then [TemplateModel.field_label b] else []) |}.
Proof.
  unfold process_question.
  destruct (detect_row fb image box_w box_h T (b :: rest)) as [|d1 [|d2 ds]];
    cbn [length Nat.eqb Nat.leb question_response]; rewrite ?app_nil_r; reflexivity.
Qed.

(** A row whose first bubble carries the label. *)
Definition row_of_label (row : list TemplateModel.Bubble) (label : string) : Prop :=
  exists b rest, row = b :: rest /\ TemplateModel.field_label b = label.

Lemma process_questions_effect fb image box_w box_h T rows labels :
  Forall2 row_of_label rows labels ->
  forall acc,
    for_each (process_question fb image box_w box_h T) rows acc =
    Some {| field_response :=
              dict_update (field_response acc)
                (combine labels (map (fun row => question_response fb
                                         (detect_row fb image box_w box_h T row)) rows));
            marked :=
              marked acc ++
              labels_where (Nat.eqb 1) labels
                (map (fun row => length (detect_row fb image box_w box_h T row)) rows);
            multi_marked :=
              multi_marked acc ++
              labels_where (Nat.leb 2) labels
                (map (fun row => length (detect_row fb image box_w box_h T row)) rows) |}.
Proof.
  induction 1 as [|row label rows labels (b & rest & -> & Hl) HF IH]; intros acc.
  - simpl. rewrite !app_nil_r. now destruct acc.
  - cbn [for_each]. rewrite process_question_effect, IH. cbn [field_response marked multi_marked].
    rewrite Hl. cbn [map combine labels_where]. unfold dict_update. cbn [fold_left fst snd].
    f_equal. f_equal.
    + destruct (Nat.eqb 1 _); now rewrite <- app_assoc.
    + destruct (Nat.leb 2 _); now rewrite <- app_assoc.
Qed.

Lemma place_rows_labels ft bgap lgap h v values labels :
  values <> [] ->
  forall lead,
    Forall2 row_of_label (TemplateModel.place_rows ft bgap lgap h v values lead labels) labels.
Proof.
  intros Hne. induction labels as [|l labels IH]; intros lead; simpl; constructor.
  - destruct values as [|v0 values]; [congruence|]. simpl. eexists _, _. split; reflexivity.
  - apply IH.
Qed.



Lemma field_types_values ft values direction :
  TemplateModel.field_types ft = Some (values, direction) ->
  values <> [] /\ Forall (fun v => String.length v = 1%nat) values.
Proof.
  unfold TemplateModel.field_types.
  destruct (String.eqb ft "QTYPE_INT");
    [intros [= <- <-]; split; [discriminate | repeat constructor]|].
  destruct (String.eqb ft "QTYPE_MCQ4");
    [intros [= <- <-]; split; [discriminate | repeat constructor]|].
  destruct (String.eqb ft "QTYPE_MCQ5");
    [intros [= <- <-]; split; [discriminate | repeat constructor]|].
  discriminate.
Qed.


Lemma labels_where_In keep labels counts l :
  In l (labels_where keep labels counts) -> In l labels.
Proof.
  revert counts. induction labels as [|l0 labels IH]; intros [|n counts]; simpl; try tauto.
  destruct (keep n); simpl; intros H; [destruct H as [H|H]; [now left|]|]; right; eauto.
Qed.



End Detector.

(** *** The global threshold against its specification *)

(** The gap around index [i] of the sorted values, as the specification
    words it: its lower end [values[i-1]] and its width
    [values[i+1] - values[i-1]]. *)
Definition gap_at (values : list Z) (i : Z) : option (Z * Z) :=
  match index values (i - 1), index values (i + 1) with
  | Some lo, Some hi => Some (lo, hi - lo)
  | _, _ => None
  end.

(** [i] is the place of the single largest gap above the floor: no gap
    is wider, and every earlier gap is strictly narrower. *)
Definition largest_gap (values : list Z) (floor : Z) (i lo width : Z) : Prop :=
  1 <= i < Z.of_nat (length values) - 1 /\
  gap_at values i = Some (lo, width) /\
  floor < width /\
  forall j lo' width',
    1 <= j < Z.of_nat (length values) - 1 ->
    gap_at values j = Some (lo', width') ->
    width' <= width /\ (j < i -> width' < width).


(** There is at most one such place. *)
Lemma largest_gap_unique values floor i lo width i' lo' width' :
  largest_gap values floor i lo width ->
  largest_gap values floor i' lo' width' ->
  i = i' /\ lo = lo' /\ width = width'.
Proof.
  intros (Hi & Hg & _ & Hmax) (Hi' & Hg' & _ & Hmax').
  destruct (Hmax i' lo' width' Hi' Hg') as [Hle Hlt].
  destruct (Hmax' i lo width Hi Hg) as [Hle' Hlt'].
  assert (i = i') by lia. subst i'.
  rewrite Hg in Hg'. injection Hg' as <- <-. auto.
Qed.












(** *** Instances of the library calls, to run the detector *)

(** The pixels of [image[y0:y1, x0:x1]]. *)
Definition region (image : Image) (y0 y1 x0 x1 : Z) : list Z :=
  concat (map (fun row => take (Z.to_nat (x1 - x0)) (drop (Z.to_nat x0) row))
              (take (Z.to_nat (y1 - y0)) (drop (Z.to_nat y0) image))).

(** The mean of a region: the sum of its pixels over their number. *)
Definition region_mean (image : Image) (y0 y1 x0 x1 : Z) : float :=
  PrimFloat.div (float_of_Z (fold_left Z.add (region image y0 y1 x0 x1) 0))
                (float_of_Z (Z.of_nat (length (region image y0 y1 x0 x1)))).

Definition float_max (xs : list float) : option float :=
  match xs with
  | [] => None
  | v :: rest => Some (fold_left (fun m u => if PrimFloat.ltb m u then u else m) rest v)
  end.

Definition float_min (xs : list float) : option float :=
  match xs with
  | [] => None
  | v :: rest => Some (fold_left (fun m u => if PrimFloat.ltb u m then u else m) rest v)
  end.

Definition float_mean (xs : list float) : option float :=
  match xs with
  | [] => None
  | _ => Some (PrimFloat.div (fold_left PrimFloat.add xs 0%float)
                             (float_of_Z (Z.of_nat (length xs))))
  end.

(** A tuning configuration without threshold parameters, and its detector. *)
Definition no_params : ThresholdParams :=
  {| GAMMA_LOW := None; MIN_GAP := None; MIN_JUMP := None;
     CONFIDENT_SURPLUS := None; JUMP_DELTA := None;
     PAGE_TYPE_FOR_THRESHOLD := None |}.

Definition default_detector : BubbleDetector := new_detector no_params.

(** A block of one-pixel bubbles laid from the top-left corner. *)
Definition pixel_block (labels : list string) : TemplateModel.FieldBlock :=
  {| TemplateModel.name := "Questions"; TemplateModel.fb_field_type := "QTYPE_MCQ4";
     TemplateModel.origin := (0, 0); TemplateModel.fb_bubble_dimensions := [1; 1];
     TemplateModel.bubbles_gap := 1; TemplateModel.labels_gap := 1;
     TemplateModel.field_labels := labels;
     TemplateModel.empty_value := Some ""%string; TemplateModel.shift := 0;
     TemplateModel.traverse_bubbles := None |}.

(** A sheet of two questions: A is inked in the first, A and B in the second. *)
Definition two_rows : Image := [[0; 255; 255; 255]; [0; 0; 255; 255]].

(** The bubbles of the first question of such a block. *)
Definition first_row : list TemplateModel.Bubble :=
  TemplateModel.place_bubbles "QTYPE_MCQ4" "q1" 1 0 (0, 0) ["A"; "B"; "C"; "D"]%string.

Definition bubble_A : TemplateModel.Bubble :=
  {| TemplateModel.x := 0; TemplateModel.y := 0; TemplateModel.field_label := "q1";
     TemplateModel.field_type := "QTYPE_MCQ4"; TemplateModel.field_value := "A" |}.

(** The block of two questions after [__post_init__]. *)
Definition two_question_block : TemplateModel.FieldBlock :=
  Eval vm_compute in
    default (pixel_block []) (TemplateModel.post_init (pixel_block ["q1"; "q2"]%string)).

Example two_rows_threshold :
  get_global_threshold default_detector two_rows
  = (89.25%float, PrimFloat.mul 0.5%float 0.7%float, PrimFloat.mul 254.5%float 0.7%float).
Proof. vm_compute. reflexivity. Qed.

Example two_rows_responses :
  process_field_block region_mean float_max float_min float_mean default_detector
    two_question_block two_rows 89.25%float [1; 1]
  = {| field_response := [("q1", Some "A"); ("q2", Some "AB")]%string;
       marked := ["q1"]%string; multi_marked := ["q2"]%string |}.
Proof. vm_compute. reflexivity. Qed.

(** A tuning configuration that sets the three parameters of the global
    threshold: half gamma, a minimum jump of 10, a dark page. *)
Definition dark_params : ThresholdParams :=
  {| GAMMA_LOW := Some 0.5%float; MIN_GAP := None; MIN_JUMP := Some 10;
     CONFIDENT_SURPLUS := None; JUMP_DELTA := None;
     PAGE_TYPE_FOR_THRESHOLD := Some "black"%string |}.

(** Under it the same sheet has its threshold at half the midpoint 127.5 of
    the gap from 0 to 255, and a sheet of one grey level gets half the
    default of a dark page, with bounds half the minimum jump apart. *)
Example two_rows_dark_threshold :
  get_global_threshold (new_detector dark_params) two_rows
  = (63.75%float, 0.25%float, 127.25%float).
Proof. vm_compute. reflexivity. Qed.

Example flat_dark_threshold :
  get_global_threshold (new_detector dark_params) [[90; 90]; [90; 90]]
  = (50%float, 47.5%float, 52.5%float).
Proof. vm_compute. reflexivity. Qed.


Lemma marked_iff_below_threshold_witness :
  let intensity := bubble_intensity region_mean (pixel_block ["q1"]%string) two_rows 1 1 bubble_A in
  let detected_bubbles :=
    detect_row region_mean (pixel_block ["q1"]%string) two_rows 1 1 127.5%float first_row in
  (In bubble_A detected_bubbles <-> PrimFloat.ltb intensity 127.5%float = true) /\
  (PrimFloat.leb 127.5%float intensity = true -> ~ In bubble_A detected_bubbles).
Proof.
  apply (marked_iff_below_threshold region_mean (pixel_block ["q1"]%string) two_rows 1 1
           127.5%float first_row bubble_A).
  - left. reflexivity.
  - vm_compute. reflexivity.
Defined.



End Detection.

(** ** processors.py: the marker-aligned crop *)
Module Processors.
Import Py.

Open Scope Z_scope.

Definition Image : Type := Detection.Image.

(** [CropOnMarkers]: the fields set by [__init__]. *)
Record CropOnMarkers : Type := {
  marker_path : string;
  min_matching_threshold : float;
  output_size : Z * Z
}.

(** The options of the step; [None] is an absent key. *)
Record MarkerOptions : Type := {
  markerPath : option string;
  minMatchingThreshold : option float;
  outputSize : option (Z * Z)
}.

(** [CropOnMarkers.__init__]. *)
Definition new_crop_on_markers (options : MarkerOptions) : CropOnMarkers :=
  {| marker_path := default ""%string (markerPath options);
     min_matching_threshold := default 0.6%float (minMatchingThreshold options);
     output_size := default (666, 820) (outputSize options) |}.

(** [gray[r0:r1, c0:c1]] for bounds within the image. *)
Definition slice (gray : Image) (r0 r1 c0 c1 : Z) : Image :=
  map (fun row => take (Z.to_nat (c1 - c0)) (drop (Z.to_nat c0) row))
      (take (Z.to_nat (r1 - r0)) (drop (Z.to_nat r0) gray)).

(** The dictionary [quads] of [apply_filter], as the list of its values
    for the keys 0, 1, 2, 3. *)
Definition quadrants (gray : Image) : list Image :=
  let h := Detection.shape0 gray in
  let w := Detection.shape1 gray in
  let midh := h / 3 in
  let midw := w / 2 in
  [slice gray 0 midh 0 midw;
   slice gray 0 midh midw w;
   slice gray midh h 0 midw;
   slice gray midh h midw w].

(** How the loop over the four quadrants ends. *)
Inductive Matching : Type :=
| low_confidence                      (* [return image] inside the loop *)
| raised                              (* a library call raised *)
| matched (centres : list (Z * Z)).   (* the loop ran to its end *)

Section MarkerCrop.

(** The input picture, colour or gray, and what the step does with it
    through OpenCV. *)
Variable Picture : Type.

(** [Path(p).exists()]. *)
Variable path_exists : string -> bool.
(** [cv2.imread(p, cv2.IMREAD_GRAYSCALE)]; [None] when it returns None. *)
Variable imread_gray : string -> option Image.
(** The gray version of the picture; [None] when [cv2.cvtColor] raises. *)
Variable to_gray : Picture -> option Image.
(** [int(v)] for a float. *)
Variable py_int : float -> Z.
(** [cv2.resize(marker, (w, h))]. *)
Variable cv2_resize : Image -> Z -> Z -> Image.
(** The score map of [cv2.matchTemplate(img, marker, TM_CCOEFF_NORMED)];
    [None] when it raises. *)
Variable ScoreMap : Type.
Variable match_template : Image -> Image -> option ScoreMap.
(** [res.max()]. *)
Variable res_max : ScoreMap -> float.
(** [np.argwhere(res == max_t)[0]]; [None] when there is no such point. *)
Variable first_argmax : ScoreMap -> float -> option (Z * Z).
(** [cv2.warpPerspective] of the picture from four centres to a size;
    [None] when OpenCV raises. *)
Variable warp : Picture -> list (Z * Z) -> Z * Z -> option Picture.

(** The loop of [_get_best_match] over the scales: the state is
    [(best_scale, best_max)]. *)
Definition best_match_step (image marker : Image) (st : option float * float)
    (scale : float) : option (option float * float) :=
  let h := py_int (PrimFloat.mul (float_of_Z (Detection.shape0 marker)) scale) in
  let w := py_int (PrimFloat.mul (float_of_Z (Detection.shape1 marker)) scale) in
  if (h <? 10) || (w <? 10) || (Detection.shape0 image <? h) || (Detection.shape1 image <? w)
  then Some st
  else
    match match_template image (cv2_resize marker w h) with
    | None => None
    | Some res =>
        let max_val := res_max res in
        if PrimFloat.ltb (snd st) max_val then Some (Some scale, max_val) else Some st
    end.

(** [CropOnMarkers._get_best_match]: [None] when it raises, [Some None]
    for the pair [(None, None)]. *)
Definition get_best_match (image marker : Image) : option (option (float * Image)) :=
  let scales := [0.5; 0.75; 1; 1.25; 1.5]%float in
  match for_each (best_match_step image marker) scales (None, 0%float) with
  | None => None
  | Some (None, _) => Some None
  | Some (Some best_scale, _) =>
      let h := py_int (PrimFloat.mul (float_of_Z (Detection.shape0 marker)) best_scale) in
      let w := py_int (PrimFloat.mul (float_of_Z (Detection.shape1 marker)) best_scale) in
      Some (Some (best_scale, cv2_resize marker w h))
  end.

(** The loop [for k in range(4)] of [apply_filter] over the quadrants
    still to match, with the centres found so far. *)
Fixpoint match_quadrants (self : CropOnMarkers) (optimal_marker : Image)
    (quads : list Image) (centres : list (Z * Z)) : Matching :=
  match quads with
  | [] => matched centres
  | quad :: rest =>
      match match_template quad optimal_marker with
      | None => raised
      | Some res =>
          let max_t := res_max res in
          if PrimFloat.ltb max_t (min_matching_threshold self) then low_confidence
          else
            match first_argmax res max_t with
            | None => raised
            | Some pt =>
                match_quadrants self optimal_marker rest
                  (centres ++ [(fst pt + Detection.shape0 optimal_marker / 2,
                                snd pt + Detection.shape1 optimal_marker / 2)])
            end
      end
  end.

(** [CropOnMarkers.apply_filter]; every [None] of a library call is the
    [except] branch, which returns the image. *)
Definition apply_filter (self : CropOnMarkers) (image : Picture) : Picture :=
  if String.eqb (marker_path self) "" || negb (path_exists (marker_path self)) then image
  else
    match imread_gray (marker_path self) with
    | None => image
    | Some marker =>
        match to_gray image with
        | None => image
        | Some gray =>
            match get_best_match gray marker with
            | None => image
            | Some None => image
            | Some (Some (best_scale, optimal_marker)) =>
                match match_quadrants self optimal_marker (quadrants gray) [] with
                | low_confidence => image
                | raised => image
                | matched centres =>
                    match warp image centres (output_size self) with
                    | Some aligned => aligned
                    | None => image
                    end
                end
            end
        end
    end.

(** An image is rectangular of width [w]. *)
Definition rectangular (gray : Image) (w : Z) : Prop :=
  Forall (fun row => Z.of_nat (length row) = w) gray.

(** Laying two images side by side, row by row. *)
Fixpoint beside (left right : Image) : Image :=
  match left, right with
  | l :: ls, r :: rs => (l ++ r) :: beside ls rs
  | _, _ => []
  end.

(** *** The quadrants *)

Lemma beside_map (f g : list Z -> list Z) (rows : Image) :
  beside (map f rows) (map g rows) = map (fun row => f row ++ g row) rows.
Proof. induction rows as [|row rows IH]; simpl; [reflexivity | now rewrite IH]. Qed.

Lemma map_id_on (f : list Z -> list Z) (rows : Image) :
  Forall (fun row => f row = row) rows -> map f rows = rows.
Proof. induction 1 as [|row rows Hrow _ IH]; simpl; [reflexivity | now rewrite Hrow, IH]. Qed.

Lemma third_bounds (h : Z) : 0 <= h -> 0 <= h / 3 /\ 3 * (h / 3) <= h.
Proof. intros Hh. split; [apply Z.div_pos; lia | apply Z.mul_div_le; lia]. Qed.

Lemma half_bounds (w : Z) : 0 <= w -> 0 <= w / 2 /\ 2 * (w / 2) <= w.
Proof. intros Hw. split; [apply Z.div_pos; lia | apply Z.mul_div_le; lia]. Qed.

Lemma shape1_nonneg (gray : Image) : 0 <= Detection.shape1 gray.
Proof. destruct gray; simpl; lia. Qed.

(** A horizontal band cut at a column and laid back side by side. *)
Lemma band_beside (rows : Image) (w m : Z) :
  rectangular rows w -> 0 <= m <= w ->
  beside (map (fun row => take (Z.to_nat (m - 0)) (drop (Z.to_nat 0) row)) rows)
         (map (fun row => take (Z.to_nat (w - m)) (drop (Z.to_nat m) row)) rows)
  = rows.
Proof.
  intros Hrect Hm. rewrite beside_map. apply map_id_on.
  apply List.Forall_forall. intros row Hrow.
  unfold rectangular in Hrect. rewrite List.Forall_forall in Hrect.
  specialize (Hrect row Hrow). change (Z.to_nat 0) with 0%nat. rewrite drop_0.
  replace (m - 0) with m by lia.
  rewrite (take_ge (drop (Z.to_nat m) row)) by (rewrite length_drop; lia).
  apply take_drop.
Qed.

Lemma band_widths (rows : Image) (w c0 c1 : Z) :
  rectangular rows w -> 0 <= c0 <= c1 -> c1 <= w ->
  rectangular (map (fun row => take (Z.to_nat (c1 - c0)) (drop (Z.to_nat c0) row)) rows)
              (c1 - c0).
Proof.
  intros Hrect Hc Hw. unfold rectangular in *. rewrite List.Forall_forall in Hrect.
  apply List.Forall_forall. intros row' Hin.
  apply in_map_iff in Hin as (row & <- & Hrow). specialize (Hrect row Hrow).
  rewrite length_take, length_drop. lia.
Qed.

Lemma rectangular_sublist (rows rows' : Image) (w : Z) :
  rectangular rows w -> (forall row, In row rows' -> In row rows) -> rectangular rows' w.
Proof.
  unfold rectangular. rewrite !List.Forall_forall. intros H Hsub row Hin. apply H, Hsub, Hin.
Qed.

Lemma In_take {A : Type} (n : nat) (l : list A) (a : A) : In a (take n l) -> In a l.
Proof.
  intros H. apply list_elem_of_In. apply list_elem_of_In in H.
  now apply (subseteq_take n l).
Qed.

Lemma In_drop {A : Type} (n : nat) (l : list A) (a : A) : In a (drop n l) -> In a l.
Proof.
  intros H. apply list_elem_of_In. apply list_elem_of_In in H.
  now apply (subseteq_drop n l).
Qed.

(** The geometry of the four quadrants of a rectangular image. *)
Lemma quadrant_geometry (gray : Image) :
  rectangular gray (Detection.shape1 gray) ->
  let h := Detection.shape0 gray in
  let w := Detection.shape1 gray in
  let tl := slice gray 0 (h / 3) 0 (w / 2) in
  let tr := slice gray 0 (h / 3) (w / 2) w in
  let bl := slice gray (h / 3) h 0 (w / 2) in
  let br := slice gray (h / 3) h (w / 2) w in
  quadrants gray = [tl; tr; bl; br] /\
  beside tl tr ++ beside bl br = gray /\
  Detection.shape0 tl = h / 3 /\ Detection.shape0 tr = h / 3 /\
  Detection.shape0 bl = h - h / 3 /\ Detection.shape0 br = h - h / 3 /\
  rectangular tl (w / 2) /\ rectangular bl (w / 2) /\
  rectangular tr (w - w / 2) /\ rectangular br (w - w / 2) /\
  (0 < h -> Detection.shape0 tl < Detection.shape0 bl /\
            Detection.shape0 tr < Detection.shape0 br).
Proof.
  intros Hrect h w tl tr bl br.
  assert (Hh : 0 <= h) by (unfold h, Detection.shape0; lia).
  assert (Hw : 0 <= w) by apply shape1_nonneg.
  destruct (third_bounds h Hh) as [Hq0 Hq1]. destruct (half_bounds w Hw) as [Hm0 Hm1].
  assert (Htop : rectangular (take (Z.to_nat (h / 3 - 0)) (drop (Z.to_nat 0) gray)) w).
  { eapply rectangular_sublist; [exact Hrect|]. intros row Hin.
    eapply In_drop, In_take, Hin. }
  assert (Hbot : rectangular (take (Z.to_nat (h - h / 3)) (drop (Z.to_nat (h / 3)) gray)) w).
  { eapply rectangular_sublist; [exact Hrect|]. intros row Hin.
    eapply In_drop, In_take, Hin. }
  assert (Hlen_top : Z.of_nat (length (take (Z.to_nat (h / 3 - 0)) (drop (Z.to_nat 0) gray)))
                     = h / 3).
  { rewrite length_take, length_drop. unfold h, Detection.shape0 in *. lia. }
  assert (Hlen_bot : Z.of_nat (length (take (Z.to_nat (h - h / 3)) (drop (Z.to_nat (h / 3)) gray)))
                     = h - h / 3).
  { rewrite length_take, length_drop. unfold h, Detection.shape0 in *. lia. }
  split; [reflexivity|].
  split.
  { unfold tl, tr, bl, br, slice.
    rewrite (band_beside _ w (w / 2) Htop) by lia.
    rewrite (band_beside _ w (w / 2) Hbot) by lia.
    change (Z.to_nat 0) with 0%nat. rewrite drop_0.
    replace (h / 3 - 0) with (h / 3) by lia.
    rewrite (take_ge (drop (Z.to_nat (h / 3)) gray))
      by (rewrite length_drop; unfold h, Detection.shape0 in *; lia).
    apply take_drop. }
  unfold tl, tr, bl, br, slice, Detection.shape0. rewrite !length_map.
  repeat split; try assumption; try lia.
  - pose proof (band_widths _ w 0 (w / 2) Htop ltac:(lia) ltac:(lia)) as Hb.
    revert Hb. apply List.Forall_impl. intros row Hrow. lia.
  - pose proof (band_widths _ w 0 (w / 2) Hbot ltac:(lia) ltac:(lia)) as Hb.
    revert Hb. apply List.Forall_impl. intros row Hrow. lia.
  - apply (band_widths _ w (w / 2) w); [exact Htop | lia | lia].
  - apply (band_widths _ w (w / 2) w); [exact Hbot | lia | lia].
Qed.

(** A quadrant of low confidence ends the loop without centres. *)
Lemma low_confidence_stops (self : CropOnMarkers) (optimal_marker : Image)
    (quads : list Image) (k : nat) (quad : Image) (res : ScoreMap) :
  quads !! k = Some quad ->
  match_template quad optimal_marker = Some res ->
  PrimFloat.ltb (res_max res) (min_matching_threshold self) = true ->
  forall centres,
    match_quadrants self optimal_marker quads centres = low_confidence \/
    match_quadrants self optimal_marker quads centres = raised.
Proof.
  revert k. induction quads as [|q quads IH]; intros k Hk Hres Hlow centres; [discriminate|].
  destruct k as [|k]; simpl in Hk.
  - injection Hk as ->. simpl. rewrite Hres, Hlow. now left.
  - simpl. destruct (match_template q optimal_marker) as [res'|]; [|now right].
    destruct (PrimFloat.ltb (res_max res') (min_matching_threshold self)); [now left|].
    destruct (first_argmax res' (res_max res')) as [pt|]; [|now right].
    eapply IH; eassumption.
Qed.

(** C8 (processors.py, [CropOnMarkers.apply_filter]).  The gray image is
    cut into four quadrants by the column at half its width and the row at
    one third of its height: the two top quadrants have a third of the
    rows and the two bottom ones the remaining two thirds, so the
    quadrants are not of equal area; laid back together they are the
    image.  The marker is matched in each quadrant on its own, and as soon
    as one quadrant's best score is below the minimum matching threshold
    the step returns its input image unchanged. *)
Theorem quadrant_matching (self : CropOnMarkers) (image : Picture) (gray : Image) :
  to_gray image = Some gray ->
  rectangular gray (Detection.shape1 gray) ->
  let h := Detection.shape0 gray in
  let w := Detection.shape1 gray in
  let tl := slice gray 0 (h / 3) 0 (w / 2) in
  let tr := slice gray 0 (h / 3) (w / 2) w in
  let bl := slice gray (h / 3) h 0 (w / 2) in
  let br := slice gray (h / 3) h (w / 2) w in
  quadrants gray = [tl; tr; bl; br] /\
  beside tl tr ++ beside bl br = gray /\
  Detection.shape0 tl = h / 3 /\ Detection.shape0 tr = h / 3 /\
  Detection.shape0 bl = h - h / 3 /\ Detection.shape0 br = h - h / 3 /\
  rectangular tl (w / 2) /\ rectangular bl (w / 2) /\
  rectangular tr (w - w / 2) /\ rectangular br (w - w / 2) /\
  (0 < h -> Detection.shape0 tl < Detection.shape0 bl /\
            Detection.shape0 tr < Detection.shape0 br) /\
  (forall marker best_scale optimal_marker (k : nat) quad res,
      imread_gray (marker_path self) = Some marker ->
      get_best_match gray marker = Some (Some (best_scale, optimal_marker)) ->
      quadrants gray !! k = Some quad ->
      match_template quad optimal_marker = Some res ->
      PrimFloat.ltb (res_max res) (min_matching_threshold self) = true ->
      apply_filter self image = image).
Proof.
  intros Hgray Hrect h w tl tr bl br.
  destruct (quadrant_geometry gray Hrect)
    as (Hq & Hjoin & H1 & H2 & H3 & H4 & H5 & H6 & H7 & H8 & H9).
  repeat (split; [assumption|]).
  intros marker best_scale optimal_marker k quad res Hread Hbest Hk Hres Hlow.
  unfold apply_filter.
  destruct (String.eqb (marker_path self) "" || negb (path_exists (marker_path self)));
    [reflexivity|].
  rewrite Hread, Hgray, Hbest.
  destruct (low_confidence_stops self optimal_marker (quadrants gray) k quad res
              Hk Hres Hlow []) as [-> | ->]; reflexivity.
Qed.

End MarkerCrop.

(** *** The crop on a concrete page *)

(** A page of three rows and four columns. *)
Definition small_page : Image := [[1; 2; 3; 4]; [5; 6; 7; 8]; [9; 10; 11; 12]].

(** A matcher that scores every quadrant 0.5, below the default 0.6. *)
Definition faint_match (quad marker : Image) : option float := Some 0.5%float.

Definition default_crop : CropOnMarkers :=
  new_crop_on_markers {| markerPath := Some "marker.jpg"%string;
                         minMatchingThreshold := None; outputSize := None |}.

Example small_page_quadrants :
  quadrants small_page = [[[1; 2]]; [[3; 4]]; [[5; 6]; [9; 10]]; [[7; 8]; [11; 12]]].
Proof. reflexivity. Qed.

Example faint_marker_is_low_confidence :
  match_quadrants float faint_match (fun res => res) (fun _ _ => Some (0, 0))
                  default_crop [[0]] (quadrants small_page) []
  = low_confidence.
Proof. vm_compute. reflexivity. Qed.

(** *** The crop on a page that the marker fits *)

(** A white page of twelve rows and twelve columns, and a marker file of
    twenty by twenty. *)
Definition twelve_page : Image := repeat (repeat 255 12%nat) 12%nat.
Definition blank_marker : Image := repeat (repeat 0 20%nat) 20%nat.

(** [int(v)] on the floats from 0 up to 64. *)
Definition small_int (v : float) : Z :=
  default 0 (List.find (fun z => PrimFloat.ltb v (float_of_Z (z + 1))) (range 0 64)).

(** A resize that keeps the marker blank. *)
Definition blank_resize (marker : Image) (w h : Z) : Image :=
  repeat (repeat 0 (Z.to_nat w)) (Z.to_nat h).

(** A matcher that scores every quadrant 0.9, above the default 0.6. *)
Definition clear_match (quad marker : Image) : option float := Some 0.9%float.

(** A warp that returns the empty picture, which no input page is. *)
Definition blank_warp (image : Image) (centres : list (Z * Z)) (size : Z * Z)
  : option Image := Some [].

(** Of the five scales only the first gives a marker that fits the page,
    ten by ten; the quadrants are then matched, and the faint score of the
    first ends the step, which returns the page.  With a clear score in
    every quadrant the step returns the warped picture instead. *)
Example twelve_page_best_match :
  get_best_match small_int blank_resize float faint_match (fun r => r)
                 twelve_page blank_marker
  = Some (Some (0.5%float, repeat (repeat 0 10%nat) 10%nat)).
Proof. vm_compute. reflexivity. Qed.

Example twelve_page_low_confidence :
  match_quadrants float faint_match (fun res => res) (fun _ _ => Some (0, 0))
                  default_crop (repeat (repeat 0 10%nat) 10%nat) (quadrants twelve_page) []
  = low_confidence /\
  apply_filter Image (fun _ => true) (fun _ => Some blank_marker) (fun img => Some img)
               small_int blank_resize float faint_match (fun r => r)
               (fun _ _ => Some (0, 0)) blank_warp default_crop twelve_page
  = twelve_page.
Proof. split; vm_compute; reflexivity. Qed.

Example twelve_page_clear_match :
  apply_filter Image (fun _ => true) (fun _ => Some blank_marker) (fun img => Some img)
               small_int blank_resize float clear_match (fun r => r)
               (fun _ _ => Some (0, 0)) blank_warp default_crop twelve_page
  = [].
Proof. vm_compute. reflexivity. Qed.

Lemma quadrant_matching_witness :
  let gray := twelve_page in
  let h := Detection.shape0 gray in
  let w := Detection.shape1 gray in
  let tl := slice gray 0 (h / 3) 0 (w / 2) in
  let tr := slice gray 0 (h / 3) (w / 2) w in
  let bl := slice gray (h / 3) h 0 (w / 2) in
  let br := slice gray (h / 3) h (w / 2) w in
  quadrants gray = [tl; tr; bl; br] /\
  beside tl tr ++ beside bl br = gray /\
  Detection.shape0 tl = h / 3 /\ Detection.shape0 tr = h / 3 /\
  Detection.shape0 bl = h - h / 3 /\ Detection.shape0 br = h - h / 3 /\
  rectangular tl (w / 2) /\ rectangular bl (w / 2) /\
  rectangular tr (w - w / 2) /\ rectangular br (w - w / 2) /\
  (0 < h -> Detection.shape0 tl < Detection.shape0 bl /\
            Detection.shape0 tr < Detection.shape0 br) /\
  (forall marker best_scale optimal_marker (k : nat) quad res,
      (fun _ : string => Some blank_marker) (marker_path default_crop) = Some marker ->
      get_best_match small_int blank_resize float faint_match (fun r => r)
                     gray marker = Some (Some (best_scale, optimal_marker)) ->
      quadrants gray !! k = Some quad ->
      faint_match quad optimal_marker = Some res ->
      PrimFloat.ltb res (min_matching_threshold default_crop) = true ->
      apply_filter Image (fun _ => true) (fun _ => Some blank_marker) (fun img => Some img)
                   small_int blank_resize float faint_match (fun r => r)
                   (fun _ _ => Some (0, 0)) blank_warp
                   default_crop twelve_page = twelve_page).
Proof.
  apply (quadrant_matching Image (fun _ => true) (fun _ => Some blank_marker)
           (fun img => Some img) small_int blank_resize float faint_match (fun r => r)
           (fun _ _ => Some (0, 0)) blank_warp
           default_crop twelve_page twelve_page).
  - reflexivity.
  - unfold twelve_page. simpl. repeat constructor.
Defined.

End Processors.

(** ** services/omr_processor.py: per-subject scores of the response *)
Module Service.
Import Py.

Open Scope Z_scope.

(** A number of the response: a Python int or float. *)
Inductive Num : Type :=
| IntNum (z : Z)
| FloatNum (f : float).

(** [SubjectScores] of models/schemas.py, a pydantic model: five [int]
    fields from 0 to 20, an [int] total from 0 to 100 and an optional
    [Dict[str, int]].  A value of this type is a validated instance. *)
Record SubjectScores : Type := {
  math : Z;
  ai_ml : Z;
  stats : Z;
  python : Z;
  genai : Z;
  total : Z;
  subject_scores : option (list (string * Z))
}.

(** [subject.get("name", f"Subject_{i+1}")] for the subject at index [i]. *)
Definition subject_name (i : nat) (subject : Evaluation.Subject) : string :=
  default ("Subject_" +:+ pretty (Z.of_nat i + 1))%string (Evaluation.s_name subject).

(** One iteration of the inner loop at question number [j]: a result
    within the list adds a point when its verdict is "correct". *)
Definition count_question (evaluation_results : list Evaluation.EvaluationResult)
    (subject_score : Z) (j : Z) : option Z :=
  if j <=? Z.of_nat (length evaluation_results) then
    match index evaluation_results (j - 1) with
    | Some result =>
        if Evaluation.verdict_eqb (Evaluation.verdict result) Evaluation.correct
        then Some (subject_score + 1)
        else Some subject_score
    | None => None
    end
  else Some subject_score.

(** One iteration of the loop over [enumerate(test_subjects)]: the state
    is [(subject_scores, current_question)]. *)
Definition score_subject (evaluation_results : list Evaluation.EvaluationResult)
    (st : list (string * Z) * Z) (entry : nat * Evaluation.Subject)
  : option (list (string * Z) * Z) :=
  let '(subject_scores, current_question) := st in
  let '(i, subject) := entry in
  let subject_questions := Evaluation.subject_questions subject in
  match for_each (count_question evaluation_results)
                 (range current_question (current_question + subject_questions)) 0 with
  | Some subject_score =>
      Some (dict_set subject_scores (subject_name i subject) subject_score,
            current_question + subject_questions)
  | None => None
  end.

(** [enumerate(xs)] counting from [start]. *)
Fixpoint enumerate_from {A : Type} (start : nat) (xs : list A) : list (nat * A) :=
  match xs with
  | [] => []
  | a :: rest => (start, a) :: enumerate_from (S start) rest
  end.

(** The dict [subject_scores] that the loop of [_convert_to_subject_scores]
    builds; [None] when it raises. *)
Definition subject_score_dict (evaluation_results : list Evaluation.EvaluationResult)
    (test_subjects : list Evaluation.Subject) : option (list (string * Z)) :=
  match for_each (score_subject evaluation_results) (enumerate_from 0 test_subjects) ([], 1) with
  | Some (subject_scores, _) => Some subject_scores
  | None => None
  end.

(** [subject_scores.get(subjects_list[n] if len(subjects_list) > n else
    fallback, 0)]. *)
Definition legacy_score (subject_scores : list (string * Z)) (n : nat) (fallback : string)
  : Num :=
  let subjects_list := map fst subject_scores in
  IntNum (default 0 (dict_get subject_scores (default fallback (subjects_list !! n)))).

Section Schema.

(** Pydantic's reading of a float handed to an [int] field; [None] when it
    refuses the value.  Which floats it refuses is the library's: version
    2 refuses a float with a fractional part, version 1 truncates it. *)
Variable int_of_float : float -> option Z.

(** The validation of an [int] field: an int is taken as it is. *)
Definition int_field (v : Num) : option Z :=
  match v with
  | IntNum z => Some z
  | FloatNum f => int_of_float f
  end.

(** The validation of [int = Field(ge=lo, le=hi)]. *)
Definition ranged_field (lo hi : Z) (v : Num) : option Z :=
  match int_field v with
  | Some z => if (lo <=? z) && (z <=? hi) then Some z else None
  | None => None
  end.

(** The validation of [Dict[str, int]]: every value as an [int] field. *)
Fixpoint int_dict (d : list (string * Num)) : option (list (string * Z)) :=
  match d with
  | [] => Some []
  | (k, v) :: rest =>
      match int_field v, int_dict rest with
      | Some z, Some more => Some ((k, z) :: more)
      | _, _ => None
      end
  end.

(** The validation of [Optional[Dict[str, int]]]. *)
Definition optional_int_dict (d : option (list (string * Num)))
  : option (option (list (string * Z))) :=
  match d with
  | None => Some None
  | Some d => option_map Some (int_dict d)
  end.

(** [SubjectScores(math=..., ai_ml=..., stats=..., python=..., genai=...,
    total=..., subject_scores=...)]: the instance when every field
    validates; [None] when pydantic raises ValidationError. *)
Definition new_subject_scores (math_arg ai_ml_arg stats_arg python_arg genai_arg : Num)
    (total_arg : Num) (subject_scores_arg : option (list (string * Num)))
  : option SubjectScores :=
  match ranged_field 0 20 math_arg, ranged_field 0 20 ai_ml_arg,
        ranged_field 0 20 stats_arg, ranged_field 0 20 python_arg,
        ranged_field 0 20 genai_arg, ranged_field 0 100 total_arg,
        optional_int_dict subject_scores_arg with
  | Some m, Some a, Some s, Some p, Some g, Some t, Some d =>
      Some {| math := m; ai_ml := a; stats := s; python := p; genai := g;
              total := t; subject_scores := d |}
  | _, _, _, _, _, _, _ => None
  end.

(** [OMRProcessor._convert_to_subject_scores]; [None] when it raises. *)
Definition _convert_to_subject_scores (scoring_report : Evaluation.ScoringReport)
    (test_subjects : option (list Evaluation.Subject)) : option SubjectScores :=
  let total_score := Evaluation.total_score scoring_report in
  match test_subjects with
  | Some ((_ :: _) as subjects) =>
      match subject_score_dict (Evaluation.evaluation_results scoring_report) subjects with
      | None => None
      | Some subject_scores =>
          let dynamic_scores :=
            dict_update [("Total"%string, FloatNum total_score)]
                        (map (fun kv => (fst kv, IntNum (snd kv))) subject_scores) in
          new_subject_scores
            (legacy_score subject_scores 0 "Math")
            (legacy_score subject_scores 1 "AI/ML")
            (legacy_score subject_scores 2 "Stats")
            (legacy_score subject_scores 3 "Python")
            (legacy_score subject_scores 4 "GenAI")
            (FloatNum total_score)
            (Some dynamic_scores)
      end
  | _ =>
      let fifth := FloatNum (PrimFloat.mul total_score 0.2%float) in
      new_subject_scores fifth fifth fifth fifth fifth (FloatNum total_score) None
  end.

End Schema.

(** The fallback names of the five fixed fields, in field order. *)
Definition legacy_names : list string := ["Math"; "AI/ML"; "Stats"; "Python"; "GenAI"]%string.

(** The number of "correct" verdicts among some results: one point each. *)
Definition correct_count (results : list Evaluation.EvaluationResult) : Z :=
  Z.of_nat (Evaluation.verdict_count Evaluation.correct results).

(** The per-subject scores as the specification words them: the ordered
    results are cut into consecutive slices, one per subject and as long
    as its question count, and each subject scores the correct answers of
    its slice. *)
Fixpoint slice_scores (results : list Evaluation.EvaluationResult) (offset : Z) (i : nat)
    (subjects : list Evaluation.Subject) : list (string * Z) :=
  match subjects with
  | [] => []
  | subject :: rest =>
      let n := Evaluation.subject_questions subject in
      (subject_name i subject,
       correct_count (take (Z.to_nat n) (drop (Z.to_nat offset) results)))
      :: slice_scores results (offset + n) (S i) rest
  end.

(** *** The slices *)

Lemma correct_count_snoc rs r :
  correct_count (rs ++ [r]) =
  correct_count rs
  + (if Evaluation.verdict_eqb (Evaluation.verdict r) Evaluation.correct then 1 else 0).
Proof.
  unfold correct_count. rewrite Evaluation.verdict_count_snoc.
  destruct (Evaluation.verdict_eqb _ _); lia.
Qed.

(** The inner loop over the question numbers [cur .. cur + k - 1] counts
    the correct results of the slice that starts at [cur - 1]. *)
Lemma count_slice (results : list Evaluation.EvaluationResult) (cur : Z) :
  1 <= cur ->
  forall (k : nat) (s0 : Z),
    for_each (count_question results) (range cur (cur + Z.of_nat k)) s0
    = Some (s0 + correct_count (take k (drop (Z.to_nat (cur - 1)) results))).
Proof.
  intros Hcur. induction k as [|k IH]; intros s0.
  - replace (cur + Z.of_nat 0) with cur by lia.
    unfold range. rewrite Z.sub_diag, take_0. simpl. f_equal.
    unfold correct_count, Evaluation.verdict_count. simpl. lia.
  - rewrite range_snoc, for_each_app, IH. simpl.
    unfold count_question.
    set (l := drop (Z.to_nat (cur - 1)) results).
    destruct (cur + Z.of_nat k <=? Z.of_nat (length results)) eqn:Hin.
    + apply Z.leb_le in Hin.
      rewrite index_nonneg by lia.
      assert (Hl : l !! k = results !! Z.to_nat (cur + Z.of_nat k - 1)).
      { unfold l. rewrite lookup_drop. f_equal. lia. }
      destruct (results !! Z.to_nat (cur + Z.of_nat k - 1)) as [r|] eqn:Hr.
      * rewrite (take_S_r l k r Hl), correct_count_snoc.
        destruct (Evaluation.verdict_eqb _ _); f_equal; lia.
      * apply lookup_ge_None in Hr. lia.
    + apply Z.leb_gt in Hin.
      assert (Hlen : (length l <= k)%nat).
      { unfold l. rewrite length_drop. lia. }
      rewrite !take_ge by lia. reflexivity.
Qed.

Lemma score_subjects_loop (results : list Evaluation.EvaluationResult) :
  forall (subjects : list Evaluation.Subject) (i : nat) (d : list (string * Z)) (cur : Z),
    1 <= cur ->
    Forall (fun s => 0 <= Evaluation.subject_questions s) subjects ->
    exists last,
      for_each (score_subject results) (enumerate_from i subjects) (d, cur)
      = Some (dict_update d (slice_scores results (cur - 1) i subjects), last).
Proof.
  induction subjects as [|subject rest IH]; intros i d cur Hcur Hall.
  - exists cur. reflexivity.
  - apply Forall_cons in Hall as [Hn Hrest].
    cbn [enumerate_from for_each]. unfold score_subject at 1.
    set (n := Evaluation.subject_questions subject) in *.
    rewrite (range_to_nat cur (cur + n)).
    replace (Z.to_nat (cur + n - cur)) with (Z.to_nat n) by lia.
    rewrite (count_slice results cur Hcur (Z.to_nat n) 0).
    destruct (IH (S i) (dict_set d (subject_name i subject)
                          (0 + correct_count (take (Z.to_nat n)
                                                (drop (Z.to_nat (cur - 1)) results))))
                 (cur + n)) as (last & Hrun); [lia | exact Hrest|].
    exists last. rewrite Hrun. cbn [slice_scores]. fold n.
    replace (cur + n - 1) with (cur - 1 + n) by lia.
    unfold dict_update. cbn [fold_left fst snd]. rewrite Z.add_0_l. reflexivity.
Qed.

Lemma slice_scores_names results offset i subjects :
  map fst (slice_scores results offset i subjects)
  = map (fun entry => subject_name (fst entry) (snd entry)) (enumerate_from i subjects).
Proof.
  revert offset i. induction subjects as [|s rest IH]; intros offset i; simpl;
    [reflexivity | now rewrite IH].
Qed.

Lemma slice_scores_length results offset i subjects :
  length (slice_scores results offset i subjects) = length subjects.
Proof.
  revert offset i. induction subjects as [|s rest IH]; intros offset i; simpl;
    [reflexivity | now rewrite IH].
Qed.

(** *** The validation of the response *)

Lemma dict_get_lookup {V : Type} (d : list (string * V)) :
  NoDup (map fst d) ->
  forall n k v, d !! n = Some (k, v) -> dict_get d k = Some v.
Proof.
  induction d as [|[k0 v0] d IH]; intros Hnd n k v Hn; [discriminate|].
  simpl in Hnd. apply NoDup_cons in Hnd as [Hk0 Hnd].
  destruct n as [|n]; simpl in *.
  - injection Hn as -> ->. now rewrite String.eqb_refl.
  - destruct (String.eqb k0 k) eqn:E; [|eapply IH; eassumption].
    apply String.eqb_eq in E. subst k0. exfalso. apply Hk0.
    apply list_elem_of_In, in_map_iff. exists (k, v). split; [reflexivity|].
    apply list_elem_of_In. eapply list_elem_of_lookup_2. exact Hn.
Qed.

Lemma dict_get_Some_lookup {V : Type} (d : list (string * V)) k v :
  dict_get d k = Some v -> exists n, d !! n = Some (k, v).
Proof.
  induction d as [|[k0 v0] d IH]; simpl; [discriminate|].
  destruct (String.eqb k0 k) eqn:E.
  - apply String.eqb_eq in E. subst k0. intros [= <-]. now exists 0%nat.
  - intros H. destruct (IH H) as [n Hn]. now exists (S n).
Qed.

Lemma legacy_score_by_position (scores : list (string * Z)) (n : nat) (fallback : string) :
  NoDup (map fst scores) ->
  legacy_score scores n fallback
  = IntNum (match scores !! n with
            | Some kv => snd kv
            | None => default 0 (dict_get scores fallback)
            end).
Proof.
  intros Hnd. unfold legacy_score.
  change (map fst scores) with (fst <$> scores). rewrite list_lookup_fmap.
  destruct (scores !! n) as [[k v]|] eqn:Hn; simpl; [|reflexivity].
  now rewrite (dict_get_lookup scores Hnd n k v Hn).
Qed.

Lemma slice_scores_nonneg results offset i subjects :
  Forall (fun kv => 0 <= snd kv) (slice_scores results offset i subjects).
Proof.
  revert offset i. induction subjects as [|s rest IH]; intros offset i; simpl;
    constructor; [unfold correct_count; simpl; lia | apply IH].
Qed.

Lemma dict_set_values {V : Type} (Q : V -> Prop) (d : list (string * V)) k v :
  Forall (fun kv => Q (snd kv)) d -> Q v -> Forall (fun kv => Q (snd kv)) (dict_set d k v).
Proof.
  intros Hd Hv. induction Hd as [|[k0 v0] d H0 Hd IH]; simpl.
  - now repeat constructor.
  - destruct (String.eqb k0 k); constructor; trivial.
Qed.

Lemma dict_update_values {V : Type} (Q : V -> Prop) (e : list (string * V)) :
  Forall (fun kv => Q (snd kv)) e ->
  forall d, Forall (fun kv => Q (snd kv)) d -> Forall (fun kv => Q (snd kv)) (dict_update d e).
Proof.
  unfold dict_update. induction 1 as [|[k v] e Hv He IH]; intros d Hd; simpl; [exact Hd|].
  apply IH. now apply dict_set_values.
Qed.

Section SchemaFacts.

Variable int_of_float : float -> option Z.

Lemma ranged_field_Some lo hi v z :
  ranged_field int_of_float lo hi v = Some z <->
  int_field int_of_float v = Some z /\ lo <= z <= hi.
Proof.
  unfold ranged_field.
  destruct (int_field int_of_float v) as [z'|];
    [|split; [discriminate | intros [H _]; discriminate]].
  destruct ((lo <=? z') && (z' <=? hi)) eqn:E.
  - apply andb_true_iff in E as [E1 E2]. apply Z.leb_le in E1, E2. split.
    + intros [= <-]. split; [reflexivity | lia].
    + intros [[= <-] _]. reflexivity.
  - split; [discriminate|]. intros [[= <-] Hb].
    apply andb_false_iff in E as [E|E]; apply Z.leb_gt in E; lia.
Qed.

Lemma int_dict_ints (l : list (string * Z)) :
  int_dict int_of_float (map (fun kv => (fst kv, IntNum (snd kv))) l) = Some l.
Proof. induction l as [|[k z] l IH]; simpl; [reflexivity | now rewrite IH]. Qed.

Lemma int_dict_stored d stored :
  int_dict int_of_float d = Some stored ->
  Forall2 (fun kv kz => fst kz = fst kv /\ int_field int_of_float (snd kv) = Some (snd kz))
          d stored.
Proof.
  revert stored. induction d as [|[k v] d IH]; intros stored; simpl.
  - intros [= <-]. constructor.
  - destruct (int_field int_of_float v) as [z|] eqn:Hz; [|discriminate].
    destruct (int_dict int_of_float d) as [more|]; [|discriminate].
    intros [= <-]. constructor; [split; [reflexivity | exact Hz] | now apply IH].
Qed.

Lemma int_dict_total d :
  Forall (fun kv => is_Some (int_field int_of_float (snd kv))) d ->
  is_Some (int_dict int_of_float d).
Proof.
  induction 1 as [|[k v] d [z Hz] _ [more IH]]; simpl; [eauto|].
  simpl in Hz. rewrite Hz, IH. eauto.
Qed.

(** What the constructor returns, field by field. *)
Lemma new_subject_scores_Some m a s p g t ss r :
  new_subject_scores int_of_float m a s p g t ss = Some r <->
  ranged_field int_of_float 0 20 m = Some (math r) /\
  ranged_field int_of_float 0 20 a = Some (ai_ml r) /\
  ranged_field int_of_float 0 20 s = Some (stats r) /\
  ranged_field int_of_float 0 20 p = Some (python r) /\
  ranged_field int_of_float 0 20 g = Some (genai r) /\
  ranged_field int_of_float 0 100 t = Some (total r) /\
  optional_int_dict int_of_float ss = Some (subject_scores r).
Proof.
  unfold new_subject_scores.
  destruct (ranged_field int_of_float 0 20 m) as [m'|];
    [|split; [discriminate | intros (H & _); discriminate]].
  destruct (ranged_field int_of_float 0 20 a) as [a'|];
    [|split; [discriminate | intros (_ & H & _); discriminate]].
  destruct (ranged_field int_of_float 0 20 s) as [s'|];
    [|split; [discriminate | intros (_ & _ & H & _); discriminate]].
  destruct (ranged_field int_of_float 0 20 p) as [p'|];
    [|split; [discriminate | intros (_ & _ & _ & H & _); discriminate]].
  destruct (ranged_field int_of_float 0 20 g) as [g'|];
    [|split; [discriminate | intros (_ & _ & _ & _ & H & _); discriminate]].
  destruct (ranged_field int_of_float 0 100 t) as [t'|];
    [|split; [discriminate | intros (_ & _ & _ & _ & _ & H & _); discriminate]].
  destruct (optional_int_dict int_of_float ss) as [d'|];
    [|split; [discriminate | intros (_ & _ & _ & _ & _ & _ & H); discriminate]].
  split.
  - intros [= <-]. simpl. repeat split; reflexivity.
  - intros (H1 & H2 & H3 & H4 & H5 & H6 & H7). destruct r. simpl in *. congruence.
Qed.

Lemma new_subject_scores_is_Some m a s p g t ss :
  is_Some (ranged_field int_of_float 0 20 m) ->
  is_Some (ranged_field int_of_float 0 20 a) ->
  is_Some (ranged_field int_of_float 0 20 s) ->
  is_Some (ranged_field int_of_float 0 20 p) ->
  is_Some (ranged_field int_of_float 0 20 g) ->
  is_Some (ranged_field int_of_float 0 100 t) ->
  is_Some (optional_int_dict int_of_float ss) ->
  is_Some (new_subject_scores int_of_float m a s p g t ss).
Proof.
  intros [? H1] [? H2] [? H3] [? H4] [? H5] [? H6] [? H7].
  unfold new_subject_scores. rewrite H1, H2, H3, H4, H5, H6, H7. eauto.
Qed.

(** The call of the constructor on a non-empty subject list. *)
Lemma convert_subjects (report : Evaluation.ScoringReport)
    (subjects : list Evaluation.Subject) (scores : list (string * Z)) :
  subjects <> [] ->
  subject_score_dict (Evaluation.evaluation_results report) subjects = Some scores ->
  _convert_to_subject_scores int_of_float report (Some subjects)
  = new_subject_scores int_of_float
      (legacy_score scores 0 "Math") (legacy_score scores 1 "AI/ML")
      (legacy_score scores 2 "Stats") (legacy_score scores 3 "Python")
      (legacy_score scores 4 "GenAI")
      (FloatNum (Evaluation.total_score report))
      (Some (dict_update [("Total"%string, FloatNum (Evaluation.total_score report))]
                         (map (fun kv => (fst kv, IntNum (snd kv))) scores))).
Proof.
  intros Hne Hd. unfold _convert_to_subject_scores.
  destruct subjects as [|s0 rest]; [congruence|].
  cbv beta iota zeta. now rewrite Hd.
Qed.

(** A legacy field validates exactly when the score it holds is in range. *)
Lemma legacy_field_valid (scores : list (string * Z)) (n : nat) (fallback : string) (z : Z) :
  NoDup (map fst scores) ->
  ranged_field int_of_float 0 20 (legacy_score scores n fallback) = Some z <->
  z = match scores !! n with
      | Some kv => snd kv
      | None => default 0 (dict_get scores fallback)
      end /\ 0 <= z <= 20.
Proof.
  intros Hnd. rewrite ranged_field_Some, (legacy_score_by_position scores n fallback Hnd).
  simpl. split; [intros [[= <-] Hb] | intros [-> Hb]]; auto.
Qed.

(** The five legacy fields validate exactly when the first five scores
    are at most 20. *)
Lemma legacy_fields_valid (scores : list (string * Z)) :
  NoDup (map fst scores) ->
  Forall (fun kv => 0 <= snd kv) scores ->
  (forall n fallback, legacy_names !! n = Some fallback ->
                      is_Some (ranged_field int_of_float 0 20 (legacy_score scores n fallback)))
  <-> Forall (fun kv => snd kv <= 20) (take 5 scores).
Proof.
  intros Hnd Hpos. split.
  - intros Hvalid. apply Forall_lookup. intros n kv Hn.
    assert (Hlt : (n < 5)%nat).
    { apply lookup_lt_Some in Hn. rewrite length_take in Hn. lia. }
    rewrite lookup_take_lt in Hn by exact Hlt.
    destruct (lookup_lt_is_Some_2 legacy_names n) as [fallback Hf]; [simpl; lia|].
    destruct (Hvalid n fallback Hf) as [z Hz].
    apply (legacy_field_valid scores n fallback z Hnd) in Hz as [Hz Hb].
    rewrite Hn in Hz. lia.
  - intros Hall n fallback Hf.
    assert (Hlt : (n < 5)%nat) by (apply lookup_lt_Some in Hf; simpl in Hf; lia).
    eexists. apply (legacy_field_valid scores n fallback _ Hnd). split; [reflexivity|].
    rewrite Forall_lookup in Hall. rewrite Forall_lookup in Hpos.
    destruct (scores !! n) as [kv|] eqn:Hn.
    + split; [exact (Hpos n kv Hn)|].
      apply (Hall n kv). now rewrite lookup_take_lt.
    + destruct (dict_get scores fallback) as [v|] eqn:Hg; simpl; [|lia].
      apply dict_get_Some_lookup in Hg as [m Hm].
      assert (Hm5 : (m < 5)%nat).
      { apply lookup_lt_Some in Hm. apply lookup_ge_None in Hn. lia. }
      split; [exact (Hpos m _ Hm)|].
      apply (Hall m (fallback, v)). now rewrite lookup_take_lt.
Qed.

(** When the service returns a response: pydantic accepts the total and
    the first five scores. *)
Lemma convert_returns (report : Evaluation.ScoringReport)
    (subjects : list Evaluation.Subject) (scores : list (string * Z)) :
  subjects <> [] ->
  subject_score_dict (Evaluation.evaluation_results report) subjects = Some scores ->
  NoDup (map fst scores) ->
  Forall (fun kv => 0 <= snd kv) scores ->
  is_Some (_convert_to_subject_scores int_of_float report (Some subjects)) <->
  (exists t, int_of_float (Evaluation.total_score report) = Some t /\ 0 <= t <= 100) /\
  Forall (fun kv => snd kv <= 20) (take 5 scores).
Proof.
  intros Hne Hd Hnd Hpos. rewrite (convert_subjects report subjects scores Hne Hd).
  rewrite <- (legacy_fields_valid scores Hnd Hpos). split.
  - intros [r Hr]. apply new_subject_scores_Some in Hr
      as (H0 & H1 & H2 & H3 & H4 & Ht & _).
    split.
    + apply ranged_field_Some in Ht as [Ht Hb]. simpl in Ht. eauto.
    + intros n fallback Hf. unfold legacy_names in Hf.
      destruct n as [|[|[|[|[|n]]]]]; simpl in Hf; try discriminate;
        injection Hf as <-; eauto.
  - intros [(t & Ht & Hb) Hvalid].
    apply new_subject_scores_is_Some;
      try (apply Hvalid; reflexivity).
    + exists t. apply ranged_field_Some. split; [exact Ht | exact Hb].
    + simpl.
      destruct (int_dict_total
                  (dict_update [("Total"%string, FloatNum (Evaluation.total_score report))]
                               (map (fun kv => (fst kv, IntNum (snd kv))) scores)))
        as [stored Hs]; [|rewrite Hs; simpl; eauto].
      apply (dict_update_values (fun v => is_Some (int_field int_of_float v))).
      * apply List.Forall_forall. intros kv Hin. apply in_map_iff in Hin as (kz & <- & _).
        simpl. eauto.
      * repeat constructor. simpl. eauto.
Qed.

(** What a returned response holds. *)
Lemma convert_response (report : Evaluation.ScoringReport)
    (subjects : list Evaluation.Subject) (scores : list (string * Z))
    (response : SubjectScores) :
  subjects <> [] ->
  subject_score_dict (Evaluation.evaluation_results report) subjects = Some scores ->
  _convert_to_subject_scores int_of_float report (Some subjects) = Some response ->
  int_of_float (Evaluation.total_score report) = Some (total response) /\
  0 <= total response <= 100 /\
  exists stored,
    subject_scores response = Some stored /\
    int_dict int_of_float
      (dict_update [("Total"%string, FloatNum (Evaluation.total_score report))]
                   (map (fun kv => (fst kv, IntNum (snd kv))) scores))
    = Some stored.
Proof.
  intros Hne Hd. rewrite (convert_subjects report subjects scores Hne Hd).
  intros Hr. apply new_subject_scores_Some in Hr as (_ & _ & _ & _ & _ & Ht & Hs).
  apply ranged_field_Some in Ht as [Ht Hb]. simpl in Ht, Hs.
  split; [exact Ht|]. split; [exact Hb|].
  destruct (int_dict int_of_float _) as [stored|]; [|discriminate].
  simpl in Hs. injection Hs as Hs. now exists stored.
Qed.

End SchemaFacts.

Section SubjectScoresOfReport.

Variable py_float : string -> option float.
Variable int_of_float : float -> option Z.

(** C3, as the code has it (evaluation.py, [calculate_subject_scores];
    services/omr_processor.py, [_convert_to_subject_scores];
    models/schemas.py, [SubjectScores]).  The ScoringReport of an
    evaluation holds one subject entry, "Total", which is the total
    score.  The per-subject scores are computed from the report by the
    processing service: for caller-supplied subjects with non-negative
    question counts, the ordered outcome list is cut into consecutive
    slices of those counts and each subject scores one point per correct
    answer of its slice.  A response that the service returns holds the
    total as an integer from 0 to 100 and stores the scores by subject
    name after the entry "Total", each as pydantic reads it for an [int]
    field.  When the names are pairwise distinct and differ from "Total"
    there is one entry per subject, and the service returns a response
    exactly when pydantic reads the total as an integer from 0 to 100 and
    each of the first five subjects has at most 20 correct answers;
    otherwise the constructor of the response raises. *)
Theorem subject_scores_by_slices (ev : Evaluation.OMREvaluator)
    (omr_response : list (string * Evaluation.Answer))
    (test_subjects : list Evaluation.Subject) :
  Evaluation.evaluates_cleanly py_float ev omr_response ->
  test_subjects <> [] ->
  Forall (fun s => 0 <= Evaluation.subject_questions s) test_subjects ->
  let report := Evaluation.evaluate_omr_response py_float ev omr_response in
  let sliced := slice_scores (Evaluation.evaluation_results report) 0 0 test_subjects in
  Evaluation.subject_scores report = [("Total"%string, Evaluation.total_score report)] /\
  length sliced = length test_subjects /\
  subject_score_dict (Evaluation.evaluation_results report) test_subjects
  = Some (dict_update [] sliced) /\
  (forall response,
      _convert_to_subject_scores int_of_float report (Some test_subjects) = Some response ->
      int_of_float (Evaluation.total_score report) = Some (total response) /\
      0 <= total response <= 100 /\
      exists stored,
        subject_scores response = Some stored /\
        Forall2 (fun kv kz =>
                   fst kz = fst kv /\
                   match snd kv with
                   | IntNum z => snd kz = z
                   | FloatNum f => int_of_float f = Some (snd kz)
                   end)
                (dict_update [("Total"%string, FloatNum (Evaluation.total_score report))]
                             (map (fun kv => (fst kv, IntNum (snd kv)))
                                  (dict_update [] sliced)))
                stored) /\
  (NoDup ("Total"%string :: map fst sliced) ->
   (is_Some (_convert_to_subject_scores int_of_float report (Some test_subjects)) <->
    (exists t, int_of_float (Evaluation.total_score report) = Some t /\ 0 <= t <= 100) /\
    Forall (fun kv => snd kv <= 20) (take 5 sliced)) /\
   forall response,
     _convert_to_subject_scores int_of_float report (Some test_subjects) = Some response ->
     subject_scores response = Some (("Total"%string, total response) :: sliced)).
Proof.
  intros Hclean Hne Hall report sliced.
  destruct (score_subjects_loop (Evaluation.evaluation_results report)
              test_subjects 0%nat [] 1 ltac:(lia) Hall) as (last & Hrun).
  change (1 - 1) with 0 in Hrun. fold sliced in Hrun.
  assert (Hdict : subject_score_dict (Evaluation.evaluation_results report) test_subjects
                  = Some (dict_update [] sliced)).
  { unfold subject_score_dict. now rewrite Hrun. }
  split; [now apply Evaluation.report_subject_scores|].
  split; [apply slice_scores_length|].
  split; [exact Hdict|].
  split.
  - intros response Hr.
    destruct (convert_response int_of_float report test_subjects _ response Hne Hdict Hr)
      as (Ht & Hb & stored & Hs & Hstored).
    split; [exact Ht|]. split; [exact Hb|]. exists stored. split; [exact Hs|].
    apply int_dict_stored in Hstored. eapply Forall2_impl; [exact Hstored|].
    intros [k v] [k' z] [Hk Hv]. split; [exact Hk|].
    simpl in *. destruct v as [z0|f]; simpl in Hv; [now injection Hv | exact Hv].
  - intros Hnd. apply NoDup_cons in Hnd as [Hfresh Hnames].
    assert (Hs : dict_update [] sliced = sliced).
    { rewrite dict_update_fresh_nil; [reflexivity | exact Hnames]. }
    rewrite Hs in Hdict. split.
    + apply (convert_returns int_of_float report test_subjects sliced Hne Hdict Hnames).
      apply slice_scores_nonneg.
    + intros response Hr.
      destruct (convert_response int_of_float report test_subjects _ response Hne Hdict Hr)
        as (Ht & _ & stored & Hstored & Hd).
      rewrite Hstored. f_equal.
      rewrite dict_update_fresh_keys in Hd.
      * simpl in Hd. rewrite Ht, int_dict_ints in Hd. now injection Hd.
      * simpl. apply NoDup_cons. split.
        -- rewrite map_map. simpl. exact Hfresh.
        -- rewrite map_map. simpl. exact Hnames.
Qed.

End SubjectScoresOfReport.

(** *** The service on a concrete report *)

(** Pydantic 2's reading of a float by an [int] field: the integer that
    a finite float without fractional part equals, and a refusal of any
    other float. *)
Definition whole_float (f : float) : option Z :=
  match Prim2SF f with
  | SpecFloat.S754_zero _ => Some 0
  | SpecFloat.S754_finite s m e =>
      let sign := if s then -1 else 1 in
      if 0 <=? e then Some (sign * (Z.pos m * 2 ^ e))
      else if Z.pos m mod 2 ^ (- e) =? 0 then Some (sign * (Z.pos m / 2 ^ (- e)))
      else None
  | _ => None
  end.

Example whole_float_reads :
  map whole_float [2%float; 21%float; (-3)%float; 0.4%float; 1.5%float; infinity; nan]
  = [Some 2; Some 21; Some (-3); None; None; None; None].
Proof. vm_compute. reflexivity. Qed.

Example two_subject_scores :
  _convert_to_subject_scores whole_float
    (Evaluation.evaluate_omr_response Evaluation.float_literal
       (Evaluation.create_from_test_data Evaluation.two_subjects)
       Evaluation.half_right_sheet)
    (Some Evaluation.two_subjects)
  = Some {| math := 2; ai_ml := 0; stats := 0; python := 0; genai := 0; total := 2;
            subject_scores := Some [("Total", 2); ("Math", 2); ("Physics", 0)]%string |}.
Proof. vm_compute. reflexivity. Qed.

(** One subject of twenty-one questions, and a sheet that has them all
    right: the score 21 is beyond the 20 that the field [math] admits,
    and the constructor of the response raises. *)
Definition long_subject : list Evaluation.Subject :=
  [ {| Evaluation.s_name := Some "Math"%string; Evaluation.s_questions := Some 21;
       Evaluation.s_answer_key := None |} ].

Definition all_A_sheet : list (string * Evaluation.Answer) :=
  map (fun n => (("q" +:+ pretty n)%string, Some "A"%string)) (range 1 22).

Example twenty_one_right_is_refused :
  let report := Evaluation.evaluate_omr_response Evaluation.float_literal
                  (Evaluation.create_from_test_data long_subject) all_A_sheet in
  subject_score_dict (Evaluation.evaluation_results report) long_subject
  = Some [("Math"%string, 21)] /\
  Evaluation.total_score report = 21%float /\
  _convert_to_subject_scores whole_float report (Some long_subject) = None.
Proof. repeat split; vm_compute; reflexivity. Qed.

(** Without subjects every fixed field is a fifth of the total, which
    pydantic 2 refuses unless it is whole. *)
Example fifth_of_two_is_refused :
  _convert_to_subject_scores whole_float
    (Evaluation.evaluate_omr_response Evaluation.float_literal
       (Evaluation.create_from_test_data Evaluation.two_subjects)
       Evaluation.half_right_sheet)
    None
  = None.
Proof. vm_compute. reflexivity. Qed.

(** A subject with a negative question count moves the next slice back
    before the list, where Python's negative index reads the last result. *)
Example negative_count_wraps :
  subject_score_dict
    (Evaluation.evaluation_results
       (Evaluation.evaluate_omr_response Evaluation.float_literal
          (Evaluation.evaluator_of Evaluation.abcd_key)
          [("q1", Some "B"); ("q2", Some "B")]%string))
    [ {| Evaluation.s_name := Some "X"%string; Evaluation.s_questions := Some (-1);
         Evaluation.s_answer_key := None |};
      {| Evaluation.s_name := Some "Y"%string; Evaluation.s_questions := Some 1;
         Evaluation.s_answer_key := None |} ]
  = Some [("X", 0); ("Y", 1)]%string.
Proof. vm_compute. reflexivity. Qed.

Lemma subject_scores_by_slices_witness :
  let report := Evaluation.evaluate_omr_response Evaluation.float_literal
                  (Evaluation.create_from_test_data Evaluation.two_subjects)
                  Evaluation.half_right_sheet in
  let sliced := slice_scores (Evaluation.evaluation_results report) 0 0
                             Evaluation.two_subjects in
  Evaluation.subject_scores report = [("Total"%string, Evaluation.total_score report)] /\
  length sliced = length Evaluation.two_subjects /\
  subject_score_dict (Evaluation.evaluation_results report) Evaluation.two_subjects
  = Some (dict_update [] sliced) /\
  (forall response,
      _convert_to_subject_scores whole_float report (Some Evaluation.two_subjects)
      = Some response ->
      whole_float (Evaluation.total_score report) = Some (total response) /\
      0 <= total response <= 100 /\
      exists stored,
        subject_scores response = Some stored /\
        Forall2 (fun kv kz =>
                   fst kz = fst kv /\
                   match snd kv with
                   | IntNum z => snd kz = z
                   | FloatNum f => whole_float f = Some (snd kz)
                   end)
                (dict_update [("Total"%string, FloatNum (Evaluation.total_score report))]
                             (map (fun kv => (fst kv, IntNum (snd kv)))
                                  (dict_update [] sliced)))
                stored) /\
  (NoDup ("Total"%string :: map fst sliced) ->
   (is_Some (_convert_to_subject_scores whole_float report (Some Evaluation.two_subjects)) <->
    (exists t, whole_float (Evaluation.total_score report) = Some t /\ 0 <= t <= 100) /\
    Forall (fun kv => snd kv <= 20) (take 5 sliced)) /\
   forall response,
     _convert_to_subject_scores whole_float report (Some Evaluation.two_subjects)
     = Some response ->
     subject_scores response = Some (("Total"%string, total response) :: sliced)).
Proof.
  apply (subject_scores_by_slices Evaluation.float_literal whole_float
           (Evaluation.create_from_test_data Evaluation.two_subjects)
           Evaluation.half_right_sheet Evaluation.two_subjects).
  - exists (Evaluation.evaluate_omr_response Evaluation.float_literal
              (Evaluation.create_from_test_data Evaluation.two_subjects)
              Evaluation.half_right_sheet).
    vm_compute. reflexivity.
  - discriminate.
  - unfold Evaluation.two_subjects. repeat constructor; vm_compute; discriminate.
Defined.

End Service.

(** ** evaluation.py, further: when the evaluation errs, uniform sheets,
    answers built from test data *)
Module EvaluationMore.
Import Py Evaluation.

(** The marking-scheme entry that the verdict of one item reads: the branch
    taken by the loop of [evaluate_omr_response]; [None] for the
    multi-marked branch, which reads none. *)
Definition points_read (ev : OMREvaluator) (item : string * Answer) : option string :=
  let correct_answer := get_answer (answer_key_manager ev) (fst item) in
  if answer_eqb (snd item) correct_answer then Some "correct"%string
  else if is_blank (snd item) then Some "unmarked"%string
  else if Nat.ltb 1 (answer_len (snd item)) then None
  else Some "incorrect"%string.

(** The answers that [create_from_test_data] gives the questions of one
    subject: its own key as far as it reaches, then "A". *)
Definition subject_answers (subject : Subject) : list string :=
  map (fun i : Z =>
         if (i <? Z.of_nat (length (default [] (s_answer_key subject))))%Z
         then default "A"%string (index (default [] (s_answer_key subject)) i)
         else "A"%string)
      (range 0 (subject_questions subject)).

(** The answers of all subjects, in question order. *)
Definition expected_answers (test_subjects : list Subject) : list string :=
  concat (map subject_answers test_subjects).

(** The label [f"q{n}"]. *)
Definition q_label (n : Z) : string := ("q" +:+ pretty n)%string.

Lemma q_label_inj (a b : Z) : q_label a = q_label b -> a = b.
Proof.
  unfold q_label. cbn [String.append]. intros [= H]. exact (inj pretty a b H).
Qed.

Section Facts.

Variable py_float : string -> option float.

Lemma evaluate_question_is_Some ev ms t item :
  is_Some (evaluate_question py_float ev ms t item) <->
  (forall k, points_read ev item = Some k -> is_Some (points py_float ms k)).
Proof.
  unfold evaluate_question, points_read.
  destruct (answer_eqb (snd item) _).
  { destruct (points py_float ms "correct") as [p|] eqn:Hp; split.
    - intros _ k [= <-]. rewrite Hp. eauto.
    - intros _. eauto.
    - intros [x Hx]. discriminate.
    - intros H. destruct (H "correct"%string eq_refl) as [x Hx]. congruence. }
  destruct (is_blank (snd item)).
  { destruct (points py_float ms "unmarked") as [p|] eqn:Hp; split.
    - intros _ k [= <-]. rewrite Hp. eauto.
    - intros _. eauto.
    - intros [x Hx]. discriminate.
    - intros H. destruct (H "unmarked"%string eq_refl) as [x Hx]. congruence. }
  destruct (Nat.ltb 1 (answer_len (snd item))).
  { split; [intros _ k; discriminate | intros _; eauto]. }
  destruct (points py_float ms "incorrect") as [p|] eqn:Hp; split.
  - intros _ k [= <-]. rewrite Hp. eauto.
  - intros _. eauto.
  - intros [x Hx]. discriminate.
  - intros H. destruct (H "incorrect"%string eq_refl) as [x Hx]. congruence.
Qed.

Lemma loop_is_Some ev ms omr :
  forall t,
    is_Some (for_each (evaluate_question py_float ev ms) omr t) <->
    Forall (fun item => forall k, points_read ev item = Some k ->
                                  is_Some (points py_float ms k)) omr.
Proof.
  induction omr as [|item rest IH]; intros t; simpl.
  - split; [constructor | eauto].
  - destruct (evaluate_question py_float ev ms t item) as [t'|] eqn:Hq.
    + rewrite IH. split.
      * intros Hrest. constructor; [|exact Hrest].
        apply (evaluate_question_is_Some ev ms t item). rewrite Hq. eauto.
      * intros Hall. now apply Forall_cons in Hall as [_ ?].
    + split; [intros [x Hx]; discriminate|].
      intros Hall. apply Forall_cons in Hall as [Hitem _].
      apply (evaluate_question_is_Some ev ms t item) in Hitem.
      rewrite Hq in Hitem. destruct Hitem as [x Hx]. discriminate.
Qed.

(** X1 (evaluation.py, [evaluate_omr_response]).  The evaluation runs
    without internal error exactly when the DEFAULT marking scheme exists,
    its "correct" entry can be read as a float, and so can the entry that
    each question's verdict needs (none for a multi-marked question); in
    every other case the whole report is the all-zero report with no
    outcome. *)
Theorem evaluation_errs_exactly (ev : OMREvaluator) (omr_response : list (string * Answer)) :
  (evaluates_cleanly py_float ev omr_response <->
   exists marking_scheme,
     get_marking_scheme (answer_key_manager ev) "DEFAULT" = Some marking_scheme /\
     is_Some (points py_float marking_scheme "correct") /\
     Forall (fun item => forall k, points_read ev item = Some k ->
                                   is_Some (points py_float marking_scheme k))
            omr_response) /\
  (evaluates_cleanly py_float ev omr_response \/
   evaluate_omr_response py_float ev omr_response = error_report).
Proof.
  split.
  - unfold evaluates_cleanly, evaluate_omr_response_body.
    destruct (get_marking_scheme (answer_key_manager ev) "DEFAULT") as [ms|].
    + pose proof (loop_is_Some ev ms omr_response tally0) as Hloop.
      destruct (for_each _ omr_response tally0) as [t|].
      * destruct (points py_float ms "correct") as [c|] eqn:Hc.
        -- split; [|eauto]. intros _. exists ms. rewrite Hc.
           repeat split; eauto. apply Hloop. eauto.
        -- split; [intros [x Hx]; discriminate|].
           intros (ms' & [= <-] & [c Hc'] & _). congruence.
      * split; [intros [x Hx]; discriminate|].
        intros (ms' & [= <-] & _ & Hall). apply Hloop in Hall.
        destruct Hall as [x Hx]. discriminate.
    + split; [intros [x Hx]; discriminate|]. intros (ms' & Hms & _). discriminate.
  - unfold evaluates_cleanly, evaluate_omr_response.
    destruct (evaluate_omr_response_body py_float ev omr_response); [left; eauto | now right].
Qed.

(** What a clean evaluation establishes, for the lemmas below. *)
Lemma clean_evaluation ev omr ms c :
  get_marking_scheme (answer_key_manager ev) "DEFAULT" = Some ms ->
  points py_float ms "correct" = Some c ->
  Forall (fun item => forall k, points_read ev item = Some k ->
                                is_Some (points py_float ms k)) omr ->
  let report := evaluate_omr_response py_float ev omr in
  Forall2 (outcome_of py_float ev ms) omr (evaluation_results report) /\
  total_score report = Py.sum (map score (evaluation_results report)) /\
  correct_answers report = verdict_count correct (evaluation_results report) /\
  incorrect_answers report = verdict_count incorrect (evaluation_results report) /\
  unmarked_answers report = verdict_count unmarked (evaluation_results report) /\
  multi_marked_answers report = verdict_count multi_marked (evaluation_results report) /\
  max_possible_score report = PrimFloat.mul (float_of_nat (length omr)) c.
Proof.
  intros Hms Hc Hall report.
  assert (Hclean : evaluates_cleanly py_float ev omr).
  { unfold evaluates_cleanly, evaluate_omr_response_body. rewrite Hms.
    apply (loop_is_Some ev ms omr tally0) in Hall. destruct Hall as [t ->].
    rewrite Hc. eauto. }
  apply clean_report in Hclean. fold report in Hclean.
  apply body_report in Hclean
    as (ms' & t & c' & Hms' & Hloop & Hc' & Htot & Hmax & Hco & Hin & Hun & Hmu & Hres & _).
  assert (ms' = ms) by congruence. subst ms'.
  assert (c' = c) by congruence. subst c'.
  apply tally_loop in Hloop as (HF & Ht & H1 & H2 & H3 & H4).
  rewrite Hres, Htot, Hco, Hin, Hun, Hmu, Hmax. repeat split; assumption.
Qed.

Lemma verdict_count_uniform (v w : Verdict) (rs : list EvaluationResult) :
  Forall (fun r => verdict r = v) rs ->
  verdict_count w rs = if verdict_eqb v w then length rs else 0.
Proof.
  unfold verdict_count. induction 1 as [|r rs Hr _ IH]; simpl.
  - now destruct (verdict_eqb v w).
  - rewrite Hr. destruct (verdict_eqb v w); simpl; now rewrite IH.
Qed.

Lemma verdicts_uniform (v : Verdict) (rs : list EvaluationResult) :
  Forall (fun r => verdict r = v) rs -> map verdict rs = repeat v (length rs).
Proof. induction 1 as [|r rs Hr _ IH]; simpl; [reflexivity | now rewrite Hr, IH]. Qed.

Lemma uniform_outcomes ev ms omr (rs : list EvaluationResult) (v : Verdict) (p : float) :
  Forall2 (outcome_of py_float ev ms) omr rs ->
  Forall (fun item =>
            forall w q, by_precedence py_float ms
                          (get_answer (answer_key_manager ev) (fst item)) (snd item) w q ->
                        w = v /\ q = p) omr ->
  Forall (fun r => verdict r = v) rs /\ map score rs = repeat p (length omr).
Proof.
  induction 1 as [|item r omr rs (Hq & Ha & Hc & Hp) _ IH]; intros Hall.
  - split; [constructor | reflexivity].
  - apply Forall_cons in Hall as [Hitem Hrest]. destruct (IH Hrest) as [IH1 IH2].
    rewrite Hc in Hp. destruct (Hitem _ _ Hp) as [Hv Hs].
    split; [now constructor|]. simpl. now rewrite Hs, IH2.
Qed.

(** X2 (evaluation.py, [evaluate_omr_response]).  A sheet on which every
    response is blank (empty or null), judged against a key that has a
    non-empty answer for each of its questions, is all [unmarked]: the
    unmarked count is the number of questions, the other counts are zero,
    every outcome scores the scheme's unmarked points and the total is
    their sum. *)
Theorem blank_sheet_is_unmarked (ev : OMREvaluator) (omr_response : list (string * Answer))
    (marking_scheme : gmap string string) (c u : float) :
  get_marking_scheme (answer_key_manager ev) "DEFAULT" = Some marking_scheme ->
  points py_float marking_scheme "correct" = Some c ->
  points py_float marking_scheme "unmarked" = Some u ->
  Forall (fun item => is_blank (snd item) = true /\
                      get_answer (answer_key_manager ev) (fst item) <> ""%string)
         omr_response ->
  let report := evaluate_omr_response py_float ev omr_response in
  map verdict (evaluation_results report) = repeat unmarked (length omr_response) /\
  map score (evaluation_results report) = repeat u (length omr_response) /\
  unmarked_answers report = length omr_response /\
  correct_answers report = 0 /\ incorrect_answers report = 0 /\
  multi_marked_answers report = 0 /\
  total_score report = Py.sum (repeat u (length omr_response)).
Proof.
  intros Hms Hc Hu Hall report.
  assert (Hne : Forall (fun item => answer_eqb (snd item)
                          (get_answer (answer_key_manager ev) (fst item)) = false /\
                        is_blank (snd item) = true) omr_response).
  { revert Hall. apply List.Forall_impl. intros [q [s|]] [Hb Hk]; simpl in *; [|auto].
    apply String.eqb_eq in Hb. subst s. split; [|reflexivity].
    destruct (String.eqb "" (get_answer (answer_key_manager ev) q)) eqn:E; [|reflexivity].
    apply String.eqb_eq in E. congruence. }
  assert (Hread : Forall (fun item => forall k, points_read ev item = Some k ->
                            is_Some (points py_float marking_scheme k)) omr_response).
  { revert Hne. apply List.Forall_impl. intros item [He Hb] k. unfold points_read.
    rewrite He, Hb. intros [= <-]. rewrite Hu. eauto. }
  destruct (clean_evaluation ev omr_response marking_scheme c Hms Hc Hread)
    as (HF & Htot & H1 & H2 & H3 & H4 & _).
  fold report in HF, Htot, H1, H2, H3, H4.
  destruct (uniform_outcomes ev marking_scheme omr_response (evaluation_results report)
              unmarked u HF) as [Hv Hs].
  { revert Hne. apply List.Forall_impl. intros item [He Hb] w q Hp.
    apply answer_eqb_false in He.
    inversion Hp as [p E | p Hn Hbl Hpt | s Hn E Hs' Hl | s p Hn E Hs' Hl Hpt]; subst.
    - congruence.
    - split; [reflexivity | congruence].
    - rewrite E in Hb. simpl in Hb. apply String.eqb_eq in Hb. congruence.
    - rewrite E in Hb. simpl in Hb. apply String.eqb_eq in Hb. congruence. }
  assert (Hlen : length (evaluation_results report) = length omr_response).
  { symmetry. eapply Forall2_length. exact HF. }
  rewrite Htot, H1, H2, H3, H4, Hs.
  rewrite !(verdict_count_uniform unmarked _ _ Hv). simpl. rewrite Hlen.
  repeat split; trivial.
  rewrite <- Hlen. now apply verdicts_uniform.
Qed.

(** X3 (evaluation.py, [evaluate_omr_response]).  A sheet on which every
    response equals the key's answer for its question is all [correct]: the
    correct count is the number of questions, the other counts are zero,
    every outcome scores the scheme's correct points, the total is their
    sum and the maximum is the question count times those points. *)
Theorem right_sheet_is_correct (ev : OMREvaluator) (omr_response : list (string * Answer))
    (marking_scheme : gmap string string) (c : float) :
  get_marking_scheme (answer_key_manager ev) "DEFAULT" = Some marking_scheme ->
  points py_float marking_scheme "correct" = Some c ->
  Forall (fun item => snd item = Some (get_answer (answer_key_manager ev) (fst item)))
         omr_response ->
  let report := evaluate_omr_response py_float ev omr_response in
  map verdict (evaluation_results report) = repeat correct (length omr_response) /\
  map score (evaluation_results report) = repeat c (length omr_response) /\
  correct_answers report = length omr_response /\
  incorrect_answers report = 0 /\ unmarked_answers report = 0 /\
  multi_marked_answers report = 0 /\
  total_score report = Py.sum (repeat c (length omr_response)) /\
  max_possible_score report = PrimFloat.mul (float_of_nat (length omr_response)) c.
Proof.
  intros Hms Hc Hall report.
  assert (Hread : Forall (fun item => forall k, points_read ev item = Some k ->
                            is_Some (points py_float marking_scheme k)) omr_response).
  { revert Hall. apply List.Forall_impl. intros [q a] He k. unfold points_read.
    simpl in *. subst a. simpl. rewrite String.eqb_refl. intros [= <-]. rewrite Hc. eauto. }
  destruct (clean_evaluation ev omr_response marking_scheme c Hms Hc Hread)
    as (HF & Htot & H1 & H2 & H3 & H4 & Hmax).
  fold report in HF, Htot, H1, H2, H3, H4, Hmax.
  destruct (uniform_outcomes ev marking_scheme omr_response (evaluation_results report)
              correct c HF) as [Hv Hs].
  { revert Hall. apply List.Forall_impl. intros [qn a] He w q Hp. simpl in *.
    inversion Hp as [p E Hpt | p Hn Hbl Hpt | s Hn E Hs' Hl | s p Hn E Hs' Hl Hpt];
      subst; try congruence.
    split; [reflexivity | congruence]. }
  assert (Hlen : length (evaluation_results report) = length omr_response).
  { symmetry. eapply Forall2_length. exact HF. }
  rewrite Htot, H1, H2, H3, H4, Hs, Hmax.
  rewrite !(verdict_count_uniform correct _ _ Hv). simpl. rewrite Hlen.
  repeat split; trivial.
  rewrite <- Hlen. now apply verdicts_uniform.
Qed.

End Facts.

(** The answers keyed so far: question numbers 1 .. [length exp] have the
    answers [exp], and no other question label has one. *)
Definition keyed (answers : gmap string string) (question_num : Z) (exp : list string)
  : Prop :=
  question_num = (1 + Z.of_nat (length exp))%Z /\
  forall j : Z,
    answers !! q_label j
    = (if (1 <=? j)%Z then exp !! Z.to_nat (j - 1) else None).

Lemma keyed_step answers question_num exp a :
  keyed answers question_num exp ->
  keyed (<[q_label question_num := a]> answers) (question_num + 1) (exp ++ [a]).
Proof.
  intros [Hq Hk]. split; [rewrite length_app; simpl; lia|].
  intros j. destruct (Z.eq_dec j question_num) as [->|Hne].
  - rewrite lookup_insert_eq.
    destruct (1 <=? question_num)%Z eqn:E; [|apply Z.leb_gt in E; lia].
    replace (Z.to_nat (question_num - 1)) with (length exp) by lia.
    rewrite lookup_app_r by lia. now rewrite Nat.sub_diag.
  - rewrite lookup_insert_ne by (intros E; apply q_label_inj in E; congruence).
    rewrite Hk. destruct (1 <=? j)%Z eqn:E; [|reflexivity].
    apply Z.leb_le in E.
    destruct (decide (Z.to_nat (j - 1) < length exp)%nat) as [Hlt|Hge].
    + now rewrite lookup_app_l.
    + rewrite (lookup_ge_None_2 exp) by lia.
      symmetry. apply lookup_ge_None_2. rewrite length_app. simpl. lia.
Qed.

Lemma keyed_fold (f : Z -> string) (l : list Z) :
  forall answers question_num exp,
    keyed answers question_num exp ->
    keyed
      (fst (fold_left
              (fun (acc : gmap string string * Z) (i : Z) =>
                 let '(answers, question_num) := acc in
                 (<[q_label question_num := f i]> answers, (question_num + 1)%Z))
              l (answers, question_num)))
      (snd (fold_left
              (fun (acc : gmap string string * Z) (i : Z) =>
                 let '(answers, question_num) := acc in
                 (<[q_label question_num := f i]> answers, (question_num + 1)%Z))
              l (answers, question_num)))
      (exp ++ map f l).
Proof.
  induction l as [|i l IH]; intros answers question_num exp Hk; simpl.
  - now rewrite app_nil_r.
  - replace (exp ++ f i :: map f l) with ((exp ++ [f i]) ++ map f l)
      by now rewrite <- app_assoc.
    apply IH. now apply keyed_step.
Qed.

Lemma keyed_subjects (test_subjects : list Subject) :
  forall answers question_num exp,
    keyed answers question_num exp ->
    keyed (fst (fold_left add_subject_answers test_subjects (answers, question_num)))
          (snd (fold_left add_subject_answers test_subjects (answers, question_num)))
          (exp ++ expected_answers test_subjects).
Proof.
  induction test_subjects as [|s rest IH]; intros answers question_num exp Hk; simpl.
  - unfold expected_answers. simpl. now rewrite app_nil_r.
  - unfold expected_answers. simpl. rewrite app_assoc.
    pose proof (keyed_fold
                  (fun i : Z =>
                     if (i <? Z.of_nat (length (default [] (s_answer_key s))))%Z
                     then default "A"%string (index (default [] (s_answer_key s)) i)
                     else "A"%string)
                  (range 0 (subject_questions s)) answers question_num exp Hk) as Hs.
    destruct (add_subject_answers (answers, question_num) s) as [answers' qn'] eqn:E.
    unfold add_subject_answers in E. unfold q_label in Hs. rewrite E in Hs.
    apply (IH answers' qn' _ Hs).
Qed.

(** X4 (evaluation.py, [EvaluationConfig.create_from_test_data]).  The
    evaluator built from test data keys the questions by number across the
    subjects: question [j] (label "q[j]", counting from 1) has the [j]-th
    of the subjects' answers laid end to end, where a subject contributes
    one answer per question of its count, its own key as far as that
    reaches and "A" beyond; no other question number has an answer. *)
Theorem test_data_answers (test_subjects : list Subject) (j : Z) :
  answer_key (answer_key_manager (create_from_test_data test_subjects)) !! q_label j
  = (if (1 <=? j)%Z then expected_answers test_subjects !! Z.to_nat (j - 1) else None).
Proof.
  unfold create_from_test_data, evaluator_of. simpl.
  assert (H0 : keyed ∅ 1 []).
  { split; [reflexivity|]. intros i. rewrite lookup_empty. now destruct (1 <=? i)%Z. }
  destruct (keyed_subjects test_subjects ∅ 1%Z [] H0) as [_ Hk]. apply Hk.
Qed.

(** *** Concrete sheets *)

(** A sheet left blank, and one answered as the key [A, B, C, D] says. *)
Definition blank_sheet : list (string * Answer) :=
  [("q1", Some ""); ("q2", None); ("q3", Some ""); ("q4", Some "")]%string.

Definition right_sheet : list (string * Answer) :=
  [("q1", Some "A"); ("q2", Some "B"); ("q3", Some "C"); ("q4", Some "D")]%string.

Definition default_scheme : gmap string string :=
  <["correct"%string := "1"%string]>
    (<["incorrect"%string := "0"%string]>
       (<["unmarked"%string := "0"%string]> ∅)).

Example test_data_keys :
  map (fun j => get_answer (answer_key_manager
                              (create_from_test_data
                                 [ {| s_name := Some "Math"%string; s_questions := Some 3%Z;
                                      s_answer_key := Some ["C"; "D"]%string |};
                                   {| s_name := None; s_questions := Some 1%Z;
                                      s_answer_key := None |} ]))
                           (q_label j))
      [0; 1; 2; 3; 4; 5]%Z
  = [""; "C"; "D"; "A"; "A"; ""]%string.
Proof. vm_compute. reflexivity. Qed.

Lemma blank_sheet_is_unmarked_witness :
  let report := evaluate_omr_response float_literal (evaluator_of abcd_key) blank_sheet in
  map verdict (evaluation_results report) = repeat unmarked (length blank_sheet) /\
  map score (evaluation_results report) = repeat 0%float (length blank_sheet) /\
  unmarked_answers report = length blank_sheet /\
  correct_answers report = 0 /\ incorrect_answers report = 0 /\
  multi_marked_answers report = 0 /\
  total_score report = Py.sum (repeat 0%float (length blank_sheet)).
Proof.
  apply (blank_sheet_is_unmarked float_literal (evaluator_of abcd_key) blank_sheet
           default_scheme 1%float 0%float).
  - vm_compute. reflexivity.
  - vm_compute. reflexivity.
  - vm_compute. reflexivity.
  - unfold blank_sheet. repeat constructor; vm_compute; discriminate.
Defined.

Lemma right_sheet_is_correct_witness :
  let report := evaluate_omr_response float_literal (evaluator_of abcd_key) right_sheet in
  map verdict (evaluation_results report) = repeat correct (length right_sheet) /\
  map score (evaluation_results report) = repeat 1%float (length right_sheet) /\
  correct_answers report = length right_sheet /\
  incorrect_answers report = 0 /\ unmarked_answers report = 0 /\
  multi_marked_answers report = 0 /\
  total_score report = Py.sum (repeat 1%float (length right_sheet)) /\
  max_possible_score report = PrimFloat.mul (float_of_nat (length right_sheet)) 1%float.
Proof.
  apply (right_sheet_is_correct float_literal (evaluator_of abcd_key) right_sheet
           default_scheme 1%float).
  - vm_compute. reflexivity.
  - vm_compute. reflexivity.
  - unfold right_sheet. repeat constructor.
Defined.

End EvaluationMore.

(** ** template.py, further: lookups, serialisation, constructed templates *)
Module TemplateMore.
Import Py TemplateModel.

Open Scope Z_scope.

(** [Template.get_field_block_by_name]: the first block of that name. *)
Fixpoint find_block (blocks : list FieldBlock) (block_name : string) : option FieldBlock :=
  match blocks with
  | [] => None
  | block :: rest =>
      if String.eqb (name block) block_name then Some block else find_block rest block_name
  end.

Definition get_field_block_by_name (t : Template) (block_name : string)
  : option FieldBlock :=
  find_block (field_blocks t) block_name.

(** [Template.get_all_bubbles]: the bubbles of all blocks, row after row;
    [None] when a block has no grid to iterate (the loop raises). *)
Fixpoint all_bubbles_of (blocks : list FieldBlock) : option (list Bubble) :=
  match blocks with
  | [] => Some []
  | block :: rest =>
      match traverse_bubbles block, all_bubbles_of rest with
      | Some rows, Some more => Some (concat rows ++ more)
      | _, _ => None
      end
  end.

Definition get_all_bubbles (t : Template) : option (list Bubble) :=
  all_bubbles_of (field_blocks t).

(** The configuration object of a template; its [preProcessors] entry is
    carried through unchanged and is left out, as in [Template]. *)
Record TemplateConfig : Type := {
  pageDimensions : list Z;
  bubbleDimensions : list Z;
  emptyValue : option string;
  fieldBlocks : list (string * BlockConfig)
}.

(** The value of [fieldBlocks] for one block in [to_dict]. *)
Definition block_config (block : FieldBlock) : BlockConfig :=
  {| fieldType := fb_field_type block; cfg_origin := origin block;
     bubblesGap := bubbles_gap block; labelsGap := labels_gap block;
     fieldLabels := field_labels block |}.

(** [Template.to_dict]: the dict comprehension keys the blocks by name. *)
Definition to_dict (t : Template) : TemplateConfig :=
  {| pageDimensions := page_dimensions t;
     bubbleDimensions := bubble_dimensions t;
     emptyValue := t_empty_value t;
     fieldBlocks :=
       dict_update [] (map (fun block => (name block, block_config block)) (field_blocks t)) |}.

(** [Template(...)] on a configuration object. *)
Definition load (c : TemplateConfig) : option Template :=
  new_template (pageDimensions c) (bubbleDimensions c) (emptyValue c) (fieldBlocks c).

(** The number of values of a field type (0 for an unsupported one). *)
Definition domain_size (ft : string) : nat :=
  match field_types ft with
  | Some (bubble_values, _) => length bubble_values
  | None => 0
  end.

(** A configuration entry whose grid stays in the range where the float
    coordinates of the code are exact.  An entry of an unsupported field
    type has no grid: the code raises before it reads the origin. *)
Definition block_in_range (c : BlockConfig) : Prop :=
  match field_types (fieldType c) with
  | Some (bubble_values, direction) =>
      grid_in_range (cfg_origin c) (bubblesGap c) (labelsGap c) direction
                    (length bubble_values) (length (fieldLabels c))
  | None => True
  end.

(** Every entry of a configuration is in that range. *)
Definition config_in_range (blocks : list (string * BlockConfig)) : Prop :=
  Forall (fun entry => block_in_range (snd entry)) blocks.

(** *** Blocks as constructed *)

Lemma new_field_block_eq dims e block_name c :
  new_field_block dims e block_name c =
  match field_types (fieldType c) with
  | Some (bubble_values, direction) =>
      Some {| name := block_name; fb_field_type := fieldType c; origin := cfg_origin c;
              fb_bubble_dimensions := dims; bubbles_gap := bubblesGap c;
              labels_gap := labelsGap c; field_labels := fieldLabels c;
              empty_value := e; shift := 0;
              traverse_bubbles :=
                Some (place_rows (fieldType c) (bubblesGap c) (labelsGap c)
                                 (fst (axes direction)) (snd (axes direction))
                                 bubble_values (cfg_origin c) (fieldLabels c)) |}
  | None => None
  end.
Proof.
  unfold new_field_block, post_init, generate_bubble_grid. simpl.
  destruct (field_types (fieldType c)) as [[values direction]|]; [|reflexivity].
  now destruct direction.
Qed.

(** A block built from a configuration entry. *)
Definition built_from (dims : list Z) (e : option string) (entry : string * BlockConfig)
    (block : FieldBlock) : Prop :=
  new_field_block dims e (fst entry) (snd entry) = Some block.

Lemma setup_field_blocks_Some dims e cfg blocks :
  setup_field_blocks dims e cfg = Some blocks <-> Forall2 (built_from dims e) cfg blocks.
Proof.
  revert blocks. induction cfg as [|[n c] cfg IH]; intros blocks; simpl.
  - split; [intros [= <-]; constructor | intros H; inversion H; reflexivity].
  - unfold built_from at 1.
    destruct (new_field_block dims e n c) as [fb|] eqn:Hb.
    + destruct (setup_field_blocks dims e cfg) as [fbs|] eqn:Hs.
      * split.
        -- intros [= <-]. constructor; [exact Hb | now apply IH].
        -- intros H. inversion H as [|x y xs ys Hxy Hrest]; subst.
           unfold built_from in Hxy. simpl in Hxy.
           apply IH in Hrest. congruence.
      * split; [discriminate|].
        intros H. inversion H as [|x y xs ys Hxy Hrest]; subst.
        apply IH in Hrest. discriminate.
    + split; [discriminate|].
      intros H. inversion H as [|x y xs ys Hxy Hrest]; subst.
      unfold built_from in Hxy. simpl in Hxy. congruence.
Qed.

Lemma built_from_fields dims e entry block :
  built_from dims e entry block ->
  name block = fst entry /\ block_config block = snd entry /\
  fb_bubble_dimensions block = dims /\ empty_value block = e /\ shift block = 0 /\
  exists bubble_values direction,
    field_types (fieldType (snd entry)) = Some (bubble_values, direction) /\
    traverse_bubbles block
    = Some (place_rows (fieldType (snd entry)) (bubblesGap (snd entry))
                       (labelsGap (snd entry)) (fst (axes direction)) (snd (axes direction))
                       bubble_values (cfg_origin (snd entry)) (fieldLabels (snd entry))).
Proof.
  unfold built_from. rewrite new_field_block_eq.
  destruct (field_types (fieldType (snd entry))) as [[values direction]|]; [|discriminate].
  intros [= <-]. simpl. repeat split; try reflexivity.
  - unfold block_config. simpl. now destruct (snd entry).
  - eauto.
Qed.

(** X5 (template.py, [generate_bubble_grid]).  In the grid of a block of a
    supported field type whose origin, gaps and farthest points are
    integers of magnitude at most 2^53 (where the float coordinates of
    the code are exact), the bubble of the [i]-th label and the [k]-th
    domain value carries that label and value and sits [k] bubble gaps from
    the origin along the layout axis ([x] for the horizontal types, [y] for
    QTYPE_INT) and [i] label gaps along the other axis. *)
Theorem bubble_position (fb : FieldBlock) (bubble_values : list string)
    (direction : Direction) (i k : nat) (label value : string) :
  field_types (fb_field_type fb) = Some (bubble_values, direction) ->
  traverse_bubbles fb = None ->
  grid_in_range (origin fb) (bubbles_gap fb) (labels_gap fb) direction
                (length bubble_values) (length (field_labels fb)) ->
  field_labels fb !! i = Some label ->
  bubble_values !! k = Some value ->
  exists fb' rows row,
    post_init fb = Some fb' /\ traverse_bubbles fb' = Some rows /\
    rows !! i = Some row /\
    row !! k =
    Some {| x := match direction with
                 | horizontal => fst (origin fb) + Z.of_nat k * bubbles_gap fb
                 | vertical => fst (origin fb) + Z.of_nat i * labels_gap fb
                 end;
            y := match direction with
                 | horizontal => snd (origin fb) + Z.of_nat i * labels_gap fb
                 | vertical => snd (origin fb) + Z.of_nat k * bubbles_gap fb
                 end;
            field_label := label; field_type := fb_field_type fb;
            field_value := value |}.
Proof.
  intros Hft Hnone _ Hi Hk.
  exists (with_traverse_bubbles fb
            (place_rows (fb_field_type fb) (bubbles_gap fb) (labels_gap fb)
                        (fst (axes direction)) (snd (axes direction))
                        bubble_values (origin fb) (field_labels fb))),
         (place_rows (fb_field_type fb) (bubbles_gap fb) (labels_gap fb)
                     (fst (axes direction)) (snd (axes direction))
                     bubble_values (origin fb) (field_labels fb)),
         (place_bubbles (fb_field_type fb) label (bubbles_gap fb) (fst (axes direction))
                        (advance (origin fb) (snd (axes direction))
                                 (Z.of_nat i * labels_gap fb))
                        bubble_values).
  split.
  { unfold post_init, generate_bubble_grid. rewrite Hnone. simpl. rewrite Hft.
    now destruct direction. }
  split; [reflexivity|].
  split; [now apply place_rows_lookup|].
  rewrite (place_bubbles_lookup _ _ _ _ _ _ _ _ Hk).
  destruct (origin fb) as [ox oy]. destruct direction; simpl; do 2 f_equal; lia.
Qed.

(** X6 (template.py, [Template.__init__] and [setup_field_blocks]).
    For a configuration whose blocks of a supported type have origins,
    gaps and grid points of magnitude at most 2^53 (so that [float()] of an
    origin cannot overflow), building a template from it raises exactly
    when some block of the configuration has a field type other than
    QTYPE_INT, QTYPE_MCQ4 and QTYPE_MCQ5. *)
Theorem template_raises_exactly (c : TemplateConfig) :
  config_in_range (fieldBlocks c) ->
  (load c = None <->
   exists entry, In entry (fieldBlocks c) /\ field_types (fieldType (snd entry)) = None).
Proof.
  intros _. unfold load, new_template.
  destruct (setup_field_blocks (bubbleDimensions c) (emptyValue c) (fieldBlocks c))
    as [fbs|] eqn:Hs.
  - split; [discriminate|]. intros (entry & Hin & Hft). exfalso.
    apply setup_field_blocks_Some in Hs.
    apply list_elem_of_In in Hin.
    destruct (list_elem_of_lookup_1 _ _ Hin) as [n Hn].
    destruct (Forall2_lookup_l _ _ _ _ _ Hs Hn) as (b & _ & Hb).
    apply built_from_fields in Hb as (_ & _ & _ & _ & _ & vs & d & Hft' & _). congruence.
  - split; [intros _ | reflexivity].
    clear -Hs. induction (fieldBlocks c) as [|[n bc] cfg IH]; simpl in Hs; [discriminate|].
    destruct (new_field_block (bubbleDimensions c) (emptyValue c) n bc) as [fb|] eqn:Hb.
    + destruct (setup_field_blocks (bubbleDimensions c) (emptyValue c) cfg); [discriminate|].
      destruct (IH eq_refl) as (entry & Hin & Hft). exists entry. split; [now right | exact Hft].
    + exists (n, bc). split; [now left|]. simpl.
      rewrite new_field_block_eq in Hb.
      destruct (field_types (fieldType bc)) as [[vs d]|]; [discriminate | reflexivity].
Qed.

Lemma loaded_template c t :
  load c = Some t ->
  page_dimensions t = pageDimensions c /\ bubble_dimensions t = bubbleDimensions c /\
  t_empty_value t = emptyValue c /\
  Forall2 (built_from (bubbleDimensions c) (emptyValue c)) (fieldBlocks c) (field_blocks t).
Proof.
  unfold load, new_template.
  destruct (setup_field_blocks _ _ _) as [fbs|] eqn:Hs; [|discriminate].
  intros [= <-]. simpl. repeat split; trivial. now apply setup_field_blocks_Some.
Qed.

Lemma field_types_nonempty ft values direction :
  field_types ft = Some (values, direction) -> values <> [].
Proof.
  unfold field_types.
  destruct (String.eqb ft "QTYPE_INT"); [intros [= <- _]; discriminate|].
  destruct (String.eqb ft "QTYPE_MCQ4"); [intros [= <- _]; discriminate|].
  destruct (String.eqb ft "QTYPE_MCQ5"); [intros [= <- _]; discriminate|].
  discriminate.
Qed.

Lemma place_rows_no_empty_row ft bgap lgap h v values labels :
  values <> [] ->
  forall lead,
    forallb (fun row => negb (is_empty row))
            (place_rows ft bgap lgap h v values lead labels) = true.
Proof.
  intros Hne. induction labels as [|l labels IH]; intros lead; simpl; [reflexivity|].
  rewrite IH, andb_true_r. destruct values; [congruence | reflexivity].
Qed.

Lemma built_block_valid dims e entry block :
  built_from dims e entry block ->
  block_is_valid block = negb (is_empty (fieldLabels (snd entry))).
Proof.
  intros Hb. apply built_from_fields in Hb as (_ & _ & _ & _ & _ & vs & d & Hft & Htb).
  unfold block_is_valid. rewrite Htb.
  rewrite place_rows_no_empty_row by (eapply field_types_nonempty; exact Hft).
  rewrite andb_true_r. now destruct (fieldLabels (snd entry)).
Qed.

Lemma validate_loaded (c : TemplateConfig) (t : Template) :
  load c = Some t ->
  (validate_template t = true <->
   length (pageDimensions c) = 2%nat /\ length (bubbleDimensions c) = 2%nat /\
   fieldBlocks c <> [] /\
   Forall (fun entry => fieldLabels (snd entry) <> []) (fieldBlocks c)).
Proof.
  intros Hload. destruct (loaded_template c t Hload) as (Hp & Hb & _ & HF).
  assert (Hvalid : forallb block_is_valid (field_blocks t) = true <->
                   Forall (fun entry => fieldLabels (snd entry) <> []) (fieldBlocks c)).
  { clear -HF. induction HF as [|entry block cfg blocks Hbuilt _ IH]; simpl.
    - split; [constructor | reflexivity].
    - rewrite (built_block_valid _ _ _ _ Hbuilt), andb_true_iff, IH.
      rewrite negb_true_iff, is_empty_false. split.
      + intros [H1 H2]. now constructor.
      + intros H. now apply Forall_cons in H. }
  assert (Hblocks : is_empty (field_blocks t) = false <-> fieldBlocks c <> []).
  { destruct HF; simpl; split; congruence. }
  unfold validate_template. rewrite Hp, Hb.
  destruct (pageDimensions c) as [|p0 [|p1 [|p2 ps]]]; simpl;
    try (split; [discriminate | intros (H & _); discriminate]).
  destruct (bubbleDimensions c) as [|b0 [|b1 [|b2 bs]]]; simpl;
    try (split; [discriminate | intros (_ & H & _); discriminate]).
  destruct (is_empty (field_blocks t)) eqn:He.
  - split; [discriminate|]. intros (_ & _ & Hne & _).
    apply Hblocks in Hne. discriminate.
  - rewrite Hvalid. split; [|tauto]. intros H. repeat split; trivial. now apply Hblocks.
Qed.

(** X7 (template.py, [Template.__init__] then [validate_template]).  A
    template built from a configuration validates exactly when both
    dimension lists of the configuration have two entries, the
    configuration has at least one block and every block lists at least
    one label. *)
Theorem loaded_template_validates (c : TemplateConfig) (t : Template) :
  load c = Some t ->
  (validate_template t = true <->
   length (pageDimensions c) = 2%nat /\ length (bubbleDimensions c) = 2%nat /\
   fieldBlocks c <> [] /\
   Forall (fun entry => fieldLabels (snd entry) <> []) (fieldBlocks c)).
Proof. exact (validate_loaded c t). Qed.

Lemma load_is_Some (c : TemplateConfig) :
  Forall (fun entry => is_Some (field_types (fieldType (snd entry)))) (fieldBlocks c) ->
  is_Some (load c).
Proof.
  unfold load, new_template. intros Hall.
  assert (H : is_Some (setup_field_blocks (bubbleDimensions c) (emptyValue c) (fieldBlocks c))).
  { induction Hall as [|[n bc] cfg [[vs d] Hft] _ IH]; simpl; [eauto|].
    rewrite new_field_block_eq. simpl in Hft. rewrite Hft.
    destruct IH as [fbs ->]. eauto. }
  destruct H as [fbs ->]. eauto.
Qed.

(** X8 (template.py, [to_dict] after [Template.__init__]).  For a
    configuration whose blocks have pairwise distinct names, serialising
    the template built from it gives the configuration back (page and
    bubble dimensions, empty value, every block's type, origin, gaps and
    labels, in order), so that loading the serialised form rebuilds the
    same template with the same bubble geometry. *)
Theorem to_dict_round_trip (c : TemplateConfig) (t : Template) :
  load c = Some t ->
  NoDup (map fst (fieldBlocks c)) ->
  to_dict t = c /\ load (to_dict t) = Some t.
Proof.
  intros Hload Hnd. destruct (loaded_template c t Hload) as (Hp & Hb & He & HF).
  assert (Hitems : map (fun block => (name block, block_config block)) (field_blocks t)
                   = fieldBlocks c).
  { clear -HF. induction HF as [|[n bc] block cfg blocks Hbuilt _ IH]; simpl; [reflexivity|].
    apply built_from_fields in Hbuilt as (Hn & Hc & _). simpl in Hn, Hc.
    now rewrite Hn, Hc, IH. }
  assert (Hd : to_dict t = c).
  { unfold to_dict. rewrite Hitems, Hp, Hb, He, dict_update_fresh_nil by exact Hnd.
    now destruct c. }
  split; [exact Hd | now rewrite Hd].
Qed.

(** X9 (template.py, [get_all_bubbles]).  For a template built from a
    configuration, [get_all_bubbles] returns the bubbles of all blocks and
    their number is the sum, over the blocks, of the number of labels
    times the number of values of the block's field type (10, 4 or 5). *)
Theorem all_bubbles_count (c : TemplateConfig) (t : Template) :
  load c = Some t ->
  exists bubbles,
    get_all_bubbles t = Some bubbles /\
    length bubbles
    = sum_list_with (fun entry => (length (fieldLabels (snd entry))
                                   * domain_size (fieldType (snd entry)))%nat)
                    (fieldBlocks c).
Proof.
  intros Hload. destruct (loaded_template c t Hload) as (_ & _ & _ & HF).
  unfold get_all_bubbles.
  induction HF as [|entry block cfg blocks Hbuilt _ (bubbles & Hall & Hlen)]; simpl.
  - exists []. split; reflexivity.
  - apply built_from_fields in Hbuilt as (_ & _ & _ & _ & _ & vs & d & Hft & Htb).
    rewrite Htb, Hall. eexists. split; [reflexivity|].
    rewrite length_app, place_rows_count, Hlen. unfold domain_size. now rewrite Hft.
Qed.

Lemma find_block_built dims e cfg blocks block_name :
  Forall2 (built_from dims e) cfg blocks ->
  match dict_get cfg block_name with
  | Some bc =>
      exists block, find_block blocks block_name = Some block /\
                    built_from dims e (block_name, bc) block
  | None => find_block blocks block_name = None
  end.
Proof.
  induction 1 as [|[n bc] block cfg blocks Hbuilt _ IH]; simpl; [reflexivity|].
  destruct (built_from_fields _ _ _ _ Hbuilt) as (Hn & _). simpl in Hn. rewrite Hn.
  destruct (String.eqb n block_name) eqn:E; [|exact IH].
  apply String.eqb_eq in E. exists block. split; [reflexivity|]. now rewrite <- E.
Qed.

(** X10 (template.py, [get_field_block_by_name]).  On a template built
    from a configuration, looking a block up by name returns the block
    built from the configuration's entry of that name (its type, origin,
    gaps and labels, with its grid), and returns None exactly for a name
    the configuration does not have. *)
Theorem block_lookup_by_name (c : TemplateConfig) (t : Template) (block_name : string) :
  load c = Some t ->
  match dict_get (fieldBlocks c) block_name with
  | Some bc =>
      exists block,
        get_field_block_by_name t block_name = Some block /\
        name block = block_name /\ block_config block = bc /\
        new_field_block (bubbleDimensions c) (emptyValue c) block_name bc = Some block
  | None => get_field_block_by_name t block_name = None
  end.
Proof.
  intros Hload. destruct (loaded_template c t Hload) as (_ & _ & _ & HF).
  pose proof (find_block_built _ _ _ _ block_name HF) as H.
  unfold get_field_block_by_name.
  destruct (dict_get (fieldBlocks c) block_name) as [bc|]; [|exact H].
  destruct H as (block & Hfind & Hbuilt). exists block.
  destruct (built_from_fields _ _ _ _ Hbuilt) as (Hn & Hc & _).
  repeat split; trivial.
Qed.

(** *** A concrete template *)

(** The default template, cut to three questions, and a digit block. *)
Definition small_config : TemplateConfig :=
  {| pageDimensions := [666; 820]; bubbleDimensions := [20; 20];
     emptyValue := Some ""%string;
     fieldBlocks :=
       [("Questions"%string, questions_block);
        ("Roll"%string,
         {| fieldType := "QTYPE_INT"; cfg_origin := (400, 100); bubblesGap := 30;
            labelsGap := 40; fieldLabels := ["r1"; "r2"]%string |})] |}.

Definition small_template : Template :=
  Eval vm_compute in
    default {| page_dimensions := []; bubble_dimensions := []; field_blocks := [];
               t_empty_value := None |} (load small_config).

(** The small configuration with a block of six choices added. *)
Definition six_choice_config : TemplateConfig :=
  {| pageDimensions := [666; 820]; bubbleDimensions := [20; 20];
     emptyValue := Some ""%string;
     fieldBlocks :=
       [("Questions"%string, questions_block);
        ("Extra"%string,
         {| fieldType := "QTYPE_MCQ6"; cfg_origin := (50, 400); bubblesGap := 50;
            labelsGap := 60; fieldLabels := ["q4"]%string |})] |}.

Example six_choice_config_raises : load six_choice_config = None.
Proof. vm_compute. reflexivity. Qed.

Lemma template_raises_exactly_witness :
  load six_choice_config = None <->
  exists entry,
    In entry (fieldBlocks six_choice_config) /\ field_types (fieldType (snd entry)) = None.
Proof.
  apply (template_raises_exactly six_choice_config).
  repeat constructor; vm_compute; discriminate.
Defined.

Lemma bubble_position_witness :
  exists fb' rows row,
    post_init (fresh_block "Questions" questions_block) = Some fb' /\
    traverse_bubbles fb' = Some rows /\
    rows !! 2%nat = Some row /\
    row !! 3%nat =
    Some {| x := 50 + Z.of_nat 3 * 50; y := 100 + Z.of_nat 2 * 60;
            field_label := "q3"; field_type := "QTYPE_MCQ4"; field_value := "D" |}.
Proof.
  apply (bubble_position (fresh_block "Questions" questions_block)
           ["A"; "B"; "C"; "D"]%string horizontal 2 3 "q3"%string "D"%string);
    try reflexivity.
  unfold grid_in_range, exact_in_double. simpl. lia.
Defined.

Lemma loaded_template_validates_witness :
  validate_template small_template = true <->
  length (pageDimensions small_config) = 2%nat /\
  length (bubbleDimensions small_config) = 2%nat /\
  fieldBlocks small_config <> [] /\
  Forall (fun entry => fieldLabels (snd entry) <> []) (fieldBlocks small_config).
Proof.
  apply (loaded_template_validates small_config small_template).
  vm_compute. reflexivity.
Defined.

Lemma to_dict_round_trip_witness :
  to_dict small_template = small_config /\ load (to_dict small_template) = Some small_template.
Proof.
  apply (to_dict_round_trip small_config small_template).
  - vm_compute. reflexivity.
  - apply (bool_decide_unpack (NoDup (map fst (fieldBlocks small_config)))).
    vm_compute. exact I.
Defined.

Lemma all_bubbles_count_witness :
  exists bubbles,
    get_all_bubbles small_template = Some bubbles /\
    length bubbles
    = sum_list_with (fun entry => (length (fieldLabels (snd entry))
                                   * domain_size (fieldType (snd entry)))%nat)
                    (fieldBlocks small_config).
Proof.
  apply (all_bubbles_count small_config small_template). vm_compute. reflexivity.
Defined.

Lemma block_lookup_by_name_witness :
  match dict_get (fieldBlocks small_config) "Roll" with
  | Some bc =>
      exists block,
        get_field_block_by_name small_template "Roll" = Some block /\
        name block = "Roll"%string /\ block_config block = bc /\
        new_field_block (bubbleDimensions small_config) (emptyValue small_config) "Roll" bc
        = Some block
  | None => get_field_block_by_name small_template "Roll" = None
  end.
Proof.
  apply (block_lookup_by_name small_config small_template "Roll").
  vm_compute. reflexivity.
Defined.

Example small_template_bubbles :
  option_map (@length Bubble) (get_all_bubbles small_template) = Some (3 * 4 + 2 * 10)%nat.
Proof. vm_compute. reflexivity. Qed.

End TemplateMore.

(** ** core.py: the template and the evaluator made from test data *)
Module Core.
Import Py.

Open Scope Z_scope.

(** One iteration of the loop of [create_template_from_test_data] over
    [enumerate(test_subjects)]: the state is the [fieldBlocks] dict and
    [current_question]. *)
Definition add_block (st : list (string * TemplateModel.BlockConfig) * Z)
    (entry : nat * Evaluation.Subject) : list (string * TemplateModel.BlockConfig) * Z :=
  let '(fieldBlocks, current_question) := st in
  let '(i, subject) := entry in
  let subject_name := Service.subject_name i subject in
  let subject_questions := Evaluation.subject_questions subject in
  if 0 <? subject_questions then
    let origin_y := 100 + Z.of_nat i * subject_questions * 60 in
    (dict_set fieldBlocks subject_name
       {| TemplateModel.fieldType := "QTYPE_MCQ4";
          TemplateModel.cfg_origin := (50, origin_y);
          TemplateModel.bubblesGap := 50;
          TemplateModel.labelsGap := 60;
          TemplateModel.fieldLabels :=
            map EvaluationMore.q_label
                (range current_question (current_question + subject_questions)) |},
     current_question + subject_questions)
  else st.

(** The [template_config] that [create_template_from_test_data] writes. *)
Definition template_config_from_test_data (test_subjects : list Evaluation.Subject)
  : TemplateMore.TemplateConfig :=
  {| TemplateMore.pageDimensions := [666; 820];
     TemplateMore.bubbleDimensions := [20; 20];
     TemplateMore.emptyValue := Some ""%string;
     TemplateMore.fieldBlocks :=
       fst (fold_left add_block (Service.enumerate_from 0 test_subjects) ([], 1)) |}.

(** [OMRCore.load_template] on a configuration read back from its file:
    the template it binds (if the construction does not raise) and the
    boolean it returns. *)
Definition load_template (c : TemplateMore.TemplateConfig)
  : option TemplateModel.Template * bool :=
  match TemplateMore.load c with
  | Some t => (Some t, TemplateModel.validate_template t)
  | None => (None, false)
  end.

(** [OMRCore.create_template_from_test_data], with a file system that
    returns the configuration it was given. *)
Definition create_template_from_test_data (test_subjects : list Evaluation.Subject)
  : option TemplateModel.Template * bool :=
  load_template (template_config_from_test_data test_subjects).

(** The number of questions of all subjects, a negative count as none. *)
Definition question_total (test_subjects : list Evaluation.Subject) : nat :=
  sum_list_with (fun s => Z.to_nat (Evaluation.subject_questions s)) test_subjects.

(** ["total_questions"] of [OMRCore.get_template_info]. *)
Definition total_questions (t : TemplateModel.Template) : nat :=
  sum_list_with (fun block => length (TemplateModel.field_labels block))
                (TemplateModel.field_blocks t).

(** The names under which the loop stores a block: those of the subjects
    with a positive question count, in order. *)
Definition block_names (test_subjects : list Evaluation.Subject) : list string :=
  map (fun entry => Service.subject_name (fst entry) (snd entry))
      (List.filter (fun entry => 0 <? Evaluation.subject_questions (snd entry))
                   (Service.enumerate_from 0 test_subjects)).

(** *** The loop over the subjects *)

Lemma In_range (lo hi j : Z) : In j (range lo hi) <-> lo <= j < hi.
Proof.
  unfold range. rewrite in_map_iff. split.
  - intros (k & <- & Hk). apply in_seq in Hk. lia.
  - intros Hj. exists (Z.to_nat (j - lo)). split; [lia|]. apply in_seq. lia.
Qed.

Lemma length_range (lo hi : Z) : length (range lo hi) = Z.to_nat (hi - lo).
Proof. unfold range. now rewrite length_map, length_seq. Qed.

Lemma dict_set_In {V : Type} (d : list (string * V)) k v k' v' :
  In (k', v') (dict_set d k v) -> In (k', v') d \/ (k' = k /\ v' = v).
Proof.
  induction d as [|[k0 v0] d IH]; simpl.
  - intros [[= <- <-]|[]]. now right.
  - destruct (String.eqb k0 k) eqn:E; simpl.
    + apply String.eqb_eq in E. subst k0.
      intros [[= <- <-]|Hin]; [now right | left; now right].
    + intros [Heq|Hin]; [left; now left|].
      destruct (IH Hin) as [H|H]; [left; now right | now right].
Qed.

Lemma dict_set_not_nil {V : Type} (d : list (string * V)) k v : dict_set d k v <> [].
Proof. destruct d as [|[k0 v0] d]; simpl; [|destruct (String.eqb k0 k)]; discriminate. Qed.

(** What the loop leaves behind: the next question number, and every block
    it stored is an MCQ4 block with at least one label, all numbered within
    the questions handed out. *)
Lemma add_blocks_effect (test_subjects : list Evaluation.Subject) :
  forall (i : nat) d current_question,
    let st := fold_left add_block (Service.enumerate_from i test_subjects)
                        (d, current_question) in
    snd st = current_question + Z.of_nat (question_total test_subjects) /\
    (forall k bc, In (k, bc) (fst st) ->
       In (k, bc) d \/
       (TemplateModel.fieldType bc = "QTYPE_MCQ4"%string /\
        TemplateModel.fieldLabels bc <> [] /\
        forall label, In label (TemplateModel.fieldLabels bc) ->
          exists j, label = EvaluationMore.q_label j /\
                    current_question <= j < snd st)) /\
    (fst st = [] <->
     d = [] /\ Forall (fun s => Evaluation.subject_questions s <= 0) test_subjects).
Proof.
  induction test_subjects as [|s rest IH]; intros i d cur; simpl.
  - split; [lia|]. split; [now left|]. split; [now intros ->| now intros [-> _]].
  - destruct (0 <? Evaluation.subject_questions s) eqn:Hpos.
    + apply Z.ltb_lt in Hpos.
      set (bc0 := {| TemplateModel.fieldType := "QTYPE_MCQ4"%string;
                     TemplateModel.cfg_origin :=
                       (50, 100 + Z.of_nat i * Evaluation.subject_questions s * 60);
                     TemplateModel.bubblesGap := 50; TemplateModel.labelsGap := 60;
                     TemplateModel.fieldLabels :=
                       map EvaluationMore.q_label
                           (range cur (cur + Evaluation.subject_questions s)) |}).
      destruct (IH (S i) (dict_set d (Service.subject_name i s) bc0)
                   (cur + Evaluation.subject_questions s)) as (Hq & Hin & Hnil).
      split; [rewrite Hq; lia|]. split.
      * intros k bc Hk. destruct (Hin k bc Hk) as [Hold|(Hft & Hne & Hl)].
        -- apply dict_set_In in Hold as [Hold|[_ ->]]; [now left|]. right.
           split; [reflexivity|]. split.
           ++ simpl. intros Hmap. apply (f_equal (@length string)) in Hmap.
              rewrite length_map, length_range in Hmap. simpl in Hmap. lia.
           ++ simpl. intros label Hlabel. apply in_map_iff in Hlabel as (j & <- & Hj).
              exists j. split; [reflexivity|]. apply In_range in Hj. rewrite Hq. lia.
        -- right. split; [exact Hft|]. split; [exact Hne|].
           intros label Hlabel. destruct (Hl label Hlabel) as (j & -> & Hj).
           exists j. split; [reflexivity | lia].
      * split.
        -- intros Hst. apply Hnil in Hst as [Hst _]. now apply dict_set_not_nil in Hst.
        -- intros [_ Hall]. inversion Hall; subst. lia.
    + apply Z.ltb_ge in Hpos.
      destruct (IH (S i) d cur) as (Hq & Hin & Hnil).
      split; [rewrite Hq; lia|]. split; [exact Hin|].
      rewrite Hnil. split.
      * intros [-> Hall]. split; [reflexivity | now constructor].
      * intros [-> Hall]. split; [reflexivity | now inversion Hall].
Qed.

Lemma positive_or_none (test_subjects : list Evaluation.Subject) :
  Forall (fun s => Evaluation.subject_questions s <= 0) test_subjects \/
  Exists (fun s => 0 < Evaluation.subject_questions s) test_subjects.
Proof.
  induction test_subjects as [|s rest [IH|IH]].
  - left. constructor.
  - destruct (Z_le_gt_dec (Evaluation.subject_questions s) 0).
    + left. now constructor.
    + right. left. lia.
  - right. now right.
Qed.

Lemma generated_blocks (test_subjects : list Evaluation.Subject) :
  Forall (fun entry =>
            TemplateModel.fieldType (snd entry) = "QTYPE_MCQ4"%string /\
            TemplateModel.fieldLabels (snd entry) <> [] /\
            forall label, In label (TemplateModel.fieldLabels (snd entry)) ->
              exists j, label = EvaluationMore.q_label j /\
                        1 <= j < 1 + Z.of_nat (question_total test_subjects))
         (TemplateMore.fieldBlocks (template_config_from_test_data test_subjects)).
Proof.
  destruct (add_blocks_effect test_subjects 0 [] 1) as (Hq & Hin & _).
  apply List.Forall_forall. intros [k bc] Hk. simpl in Hk |- *.
  destruct (Hin k bc Hk) as [[]|(Hft & Hne & Hl)].
  split; [exact Hft|]. split; [exact Hne|].
  intros label Hlabel. destruct (Hl label Hlabel) as (j & -> & Hj).
  exists j. split; [reflexivity|]. rewrite Hq in Hj. exact Hj.
Qed.

Lemma generated_template_loads (test_subjects : list Evaluation.Subject) :
  is_Some (TemplateMore.load (template_config_from_test_data test_subjects)).
Proof.
  apply TemplateMore.load_is_Some.
  eapply List.Forall_impl; [|apply generated_blocks].
  intros entry (-> & _). vm_compute. eauto.
Qed.

(** X11 (core.py, [create_template_from_test_data] with [load_template]).
    Creating a template from test data always builds a template, and
    returns True exactly when some subject has a positive number of
    questions: with none the template has no field block and fails its
    validation. *)
Theorem test_template_created (test_subjects : list Evaluation.Subject) :
  is_Some (fst (create_template_from_test_data test_subjects)) /\
  (snd (create_template_from_test_data test_subjects) = true <->
   Exists (fun s => 0 < Evaluation.subject_questions s) test_subjects).
Proof.
  unfold create_template_from_test_data, load_template.
  destruct (generated_template_loads test_subjects) as [t Ht]. rewrite Ht. simpl.
  split; [eauto|].
  rewrite (TemplateMore.validate_loaded _ t Ht).
  destruct (add_blocks_effect test_subjects 0 [] 1) as (_ & _ & Hnil).
  split.
  - intros (_ & _ & Hne & _).
    destruct (positive_or_none test_subjects) as [Hall|Hex]; [|exact Hex].
    exfalso. apply Hne. simpl. apply Hnil. now split.
  - intros Hex. split; [reflexivity|]. split; [reflexivity|]. split.
    + simpl. intros Hst. apply Hnil in Hst as [_ Hall].
      apply List.Exists_exists in Hex as (s & Hs & Hpos).
      rewrite List.Forall_forall in Hall. specialize (Hall s Hs). lia.
    + eapply List.Forall_impl; [|apply generated_blocks]. now intros entry (_ & Hne & _).
Qed.

Lemma length_expected_answers (test_subjects : list Evaluation.Subject) :
  length (EvaluationMore.expected_answers test_subjects) = question_total test_subjects.
Proof.
  unfold EvaluationMore.expected_answers, question_total.
  induction test_subjects as [|s rest IH]; simpl; [reflexivity|].
  rewrite length_app, IH. f_equal.
  unfold EvaluationMore.subject_answers. rewrite length_map, length_range. f_equal. lia.
Qed.

Lemma keyed_empty : EvaluationMore.keyed ∅ 1 [].
Proof.
  split; [reflexivity|]. intros j. rewrite lookup_empty.
  now destruct (1 <=? j).
Qed.

Lemma Forall2_In_r {A B : Type} (R : A -> B -> Prop) (xs : list A) (ys : list B) (y : B) :
  Forall2 R xs ys -> In y ys -> exists x, In x xs /\ R x y.
Proof.
  induction 1 as [|x y' xs ys Hxy _ IH]; simpl; [intros []|].
  intros [<-|Hin]; [exists x; auto|].
  destruct (IH Hin) as (x' & Hx' & HR). exists x'. auto.
Qed.

(** X12 (core.py, [create_template_from_test_data] and [setup_evaluator];
    evaluation.py, [create_from_test_data]).  The template and the
    evaluator made from the same subjects agree on the questions: every
    block of the template is an MCQ4 block, every label of it is some
    q[j] with [j] between 1 and the number of questions, and the
    evaluator's answer for that label is the [j]-th of the subjects'
    answers. *)
Theorem test_template_is_keyed (test_subjects : list Evaluation.Subject)
    (t : TemplateModel.Template) (block : TemplateModel.FieldBlock) (label : string) :
  fst (create_template_from_test_data test_subjects) = Some t ->
  In block (TemplateModel.field_blocks t) ->
  In label (TemplateModel.field_labels block) ->
  TemplateModel.fb_field_type block = "QTYPE_MCQ4"%string /\
  exists (j : Z) (answer : string),
    label = EvaluationMore.q_label j /\
    1 <= j <= Z.of_nat (question_total test_subjects) /\
    EvaluationMore.expected_answers test_subjects !! Z.to_nat (j - 1) = Some answer /\
    Evaluation.answer_key
      (Evaluation.answer_key_manager (Evaluation.create_from_test_data test_subjects))
    !! label = Some answer.
Proof.
  unfold create_template_from_test_data, load_template.
  destruct (TemplateMore.load _) as [t'|] eqn:Ht; [|discriminate].
  simpl. intros [= ->] Hblock Hlabel.
  apply TemplateMore.loaded_template in Ht as (_ & _ & _ & Hbuilt).
  destruct (Forall2_In_r _ _ _ _ Hbuilt Hblock) as (entry & Hentry & Hb).
  apply TemplateMore.built_from_fields in Hb as (_ & Hcfg & _).
  pose proof (generated_blocks test_subjects) as Hall.
  rewrite List.Forall_forall in Hall. destruct (Hall entry Hentry) as (Hft & _ & Hl).
  rewrite <- Hcfg in Hft, Hl. simpl in Hft, Hl.
  split; [exact Hft|].
  destruct (Hl label Hlabel) as (j & -> & Hj).
  destruct (lookup_lt_is_Some_2 (EvaluationMore.expected_answers test_subjects)
                                (Z.to_nat (j - 1))) as [answer Ha].
  { rewrite length_expected_answers. lia. }
  exists j, answer. split; [reflexivity|]. split; [lia|]. split; [exact Ha|].
  destruct (EvaluationMore.keyed_subjects test_subjects ∅ 1 [] keyed_empty) as [_ Hk].
  unfold Evaluation.create_from_test_data. simpl. rewrite Hk.
  destruct (1 <=? j) eqn:E; [exact Ha | apply Z.leb_gt in E; lia].
Qed.

Lemma range_app (a b c : Z) : a <= b <= c -> range a b ++ range b c = range a c.
Proof.
  intros Habc. unfold range.
  replace (Z.to_nat (c - a)) with (Z.to_nat (b - a) + Z.to_nat (c - b))%nat by lia.
  rewrite seq_app, map_app. f_equal. simpl.
  rewrite <- (Nat.add_0_r (Z.to_nat (b - a))) at 1.
  rewrite <- fmap_add_seq. change (map ?f (?g <$> ?l)) with (map f (map g l)).
  rewrite map_map. apply map_ext. intros k. lia.
Qed.

Definition names_from (i : nat) (test_subjects : list Evaluation.Subject) : list string :=
  map (fun entry => Service.subject_name (fst entry) (snd entry))
      (List.filter (fun entry => 0 <? Evaluation.subject_questions (snd entry))
                   (Service.enumerate_from i test_subjects)).

Definition config_labels (d : list (string * TemplateModel.BlockConfig)) : list string :=
  concat (map (fun entry => TemplateModel.fieldLabels (snd entry)) d).

(** With block names that do not repeat, every subject with questions
    adds its own block at the end. *)
Lemma add_blocks_in_order (test_subjects : list Evaluation.Subject) :
  forall (i : nat) d current_question,
    NoDup (map fst d ++ names_from i test_subjects) ->
    let st := fold_left add_block (Service.enumerate_from i test_subjects)
                        (d, current_question) in
    map fst (fst st) = map fst d ++ names_from i test_subjects /\
    config_labels (fst st)
    = config_labels d ++ map EvaluationMore.q_label (range current_question (snd st)).
Proof.
  induction test_subjects as [|s rest IH]; intros i d cur Hnd; simpl.
  - unfold names_from, range. simpl. rewrite Z.sub_diag. simpl. now rewrite !app_nil_r.
  - unfold names_from in Hnd |- *. simpl in Hnd |- *.
    destruct (0 <? Evaluation.subject_questions s) eqn:Hpos.
    + apply Z.ltb_lt in Hpos. simpl in Hnd |- *.
      rewrite dict_set_fresh.
      2:{ apply NoDup_app in Hnd as (_ & Hsep & _). intros Hin.
          apply (Hsep (Service.subject_name i s)); [now apply list_elem_of_In | now left]. }
      destruct (add_blocks_effect rest (S i)
                  (d ++ [(Service.subject_name i s,
                          {| TemplateModel.fieldType := "QTYPE_MCQ4"%string;
                             TemplateModel.cfg_origin :=
                               (50, 100 + Z.of_nat i * Evaluation.subject_questions s * 60);
                             TemplateModel.bubblesGap := 50; TemplateModel.labelsGap := 60;
                             TemplateModel.fieldLabels :=
                               map EvaluationMore.q_label
                                   (range cur (cur + Evaluation.subject_questions s)) |})])
                  (cur + Evaluation.subject_questions s)) as (Hq & _).
      edestruct (IH (S i)) as (Hnames & Hlabels).
      2:{ rewrite Hnames, Hlabels. split.
          - rewrite map_app. simpl. now rewrite <- app_assoc.
          - unfold config_labels. rewrite map_app, concat_app. simpl.
            rewrite app_nil_r, <- app_assoc, <- map_app. do 2 f_equal.
            apply range_app. rewrite Hq. lia. }
      rewrite map_app. simpl. now rewrite <- app_assoc.
    + now apply IH.
Qed.

Lemma built_labels dims e cfg blocks :
  Forall2 (TemplateMore.built_from dims e) cfg blocks ->
  map TemplateModel.name blocks = map fst cfg /\
  concat (map TemplateModel.field_labels blocks) = config_labels cfg /\
  sum_list_with (fun block => length (TemplateModel.field_labels block)) blocks
  = length (config_labels cfg).
Proof.
  unfold config_labels.
  induction 1 as [|entry block cfg blocks Hb _ (IHn & IHl & IHs)]; simpl; [auto|].
  apply TemplateMore.built_from_fields in Hb as (Hn & Hcfg & _).
  rewrite <- Hcfg in *. simpl. rewrite Hn, IHn, IHl, IHs, length_app. auto.
Qed.

(** X13 (core.py, [create_template_from_test_data], [get_template_info]).
    When the subjects that have questions are stored under pairwise
    distinct names, the template made from test data has one block per
    such subject, in order and under its name, the labels of the blocks
    laid end to end are q1, q2, ... up to the number of questions, and
    the ["total_questions"] of the template info is that number. *)
Theorem test_template_questions (test_subjects : list Evaluation.Subject)
    (t : TemplateModel.Template) :
  fst (create_template_from_test_data test_subjects) = Some t ->
  NoDup (block_names test_subjects) ->
  map TemplateModel.name (TemplateModel.field_blocks t) = block_names test_subjects /\
  concat (map TemplateModel.field_labels (TemplateModel.field_blocks t))
  = map EvaluationMore.q_label (range 1 (1 + Z.of_nat (question_total test_subjects))) /\
  total_questions t = question_total test_subjects.
Proof.
  unfold create_template_from_test_data, load_template.
  destruct (TemplateMore.load _) as [t'|] eqn:Ht; [|discriminate].
  simpl. intros [= ->] Hnd.
  apply TemplateMore.loaded_template in Ht as (_ & _ & _ & Hbuilt).
  apply built_labels in Hbuilt as (Hn & Hl & Hs). simpl in Hn, Hl, Hs.
  destruct (add_blocks_effect test_subjects 0 [] 1) as (Hq & _).
  destruct (add_blocks_in_order test_subjects 0 [] 1 Hnd) as (Hnames & Hlabels).
  rewrite Hq in Hlabels. simpl in Hnames, Hlabels.
  unfold total_questions. rewrite Hn, Hl, Hs, Hnames, Hlabels.
  split; [reflexivity|]. split; [reflexivity|].
  rewrite length_map, length_range. lia.
Qed.

(** *** Concrete subjects *)

Definition two_subject_template : TemplateModel.Template :=
  Eval vm_compute in
    default {| TemplateModel.page_dimensions := []; TemplateModel.bubble_dimensions := [];
               TemplateModel.field_blocks := []; TemplateModel.t_empty_value := None |}
            (fst (create_template_from_test_data Evaluation.two_subjects)).

Definition physics_block : TemplateModel.FieldBlock :=
  Eval vm_compute in
    default (TemplateModel.fresh_block "Physics" TemplateModel.questions_block)
            (TemplateMore.get_field_block_by_name two_subject_template "Physics").

(** Two subjects of the same name share one block: the second overwrites
    the labels of the first, so the template asks only q3 and q4 while the
    evaluator is keyed for q1 to q4. *)
Definition same_name_subjects : list Evaluation.Subject :=
  [ {| Evaluation.s_name := Some "Math"%string; Evaluation.s_questions := Some 2;
       Evaluation.s_answer_key := Some ["A"; "B"]%string |};
    {| Evaluation.s_name := Some "Math"%string; Evaluation.s_questions := Some 2;
       Evaluation.s_answer_key := Some ["C"; "D"]%string |} ].

Example same_name_subjects_share_a_block :
  map (fun entry => (fst entry, TemplateModel.fieldLabels (snd entry)))
      (TemplateMore.fieldBlocks (template_config_from_test_data same_name_subjects))
  = [("Math", ["q3"; "q4"])]%string.
Proof. vm_compute. reflexivity. Qed.

Lemma test_template_is_keyed_witness :
  TemplateModel.fb_field_type physics_block = "QTYPE_MCQ4"%string /\
  exists (j : Z) (answer : string),
    "q4"%string = EvaluationMore.q_label j /\
    1 <= j <= Z.of_nat (question_total Evaluation.two_subjects) /\
    EvaluationMore.expected_answers Evaluation.two_subjects !! Z.to_nat (j - 1)
    = Some answer /\
    Evaluation.answer_key
      (Evaluation.answer_key_manager
         (Evaluation.create_from_test_data Evaluation.two_subjects))
    !! "q4"%string = Some answer.
Proof.
  apply (test_template_is_keyed Evaluation.two_subjects two_subject_template
           physics_block "q4"%string).
  - vm_compute. reflexivity.
  - simpl. right. left. reflexivity.
  - simpl. right. left. reflexivity.
Defined.

Lemma test_template_questions_witness :
  map TemplateModel.name (TemplateModel.field_blocks two_subject_template)
  = block_names Evaluation.two_subjects /\
  concat (map TemplateModel.field_labels (TemplateModel.field_blocks two_subject_template))
  = map EvaluationMore.q_label
        (range 1 (1 + Z.of_nat (question_total Evaluation.two_subjects))) /\
  total_questions two_subject_template = question_total Evaluation.two_subjects.
Proof.
  apply (test_template_questions Evaluation.two_subjects two_subject_template).
  - vm_compute. reflexivity.
  - apply (bool_decide_unpack (NoDup (block_names Evaluation.two_subjects))).
    vm_compute. exact I.
Defined.

End Core.

(** ** bubble_detection.py: thresholds, blocks and sheets at the edges *)
Module DetectionMore.
Import Py Detection.

Open Scope Z_scope.

(** [BubbleDetectionResult]. *)
Record BubbleDetectionResult : Type := {
  is_marked : bool;
  confidence : float;
  intensity : float;
  threshold_used : float;
  bubble : TemplateModel.Bubble
}.

(** Python's [min(a, b)] on floats: [b] only when it is smaller. *)
Definition py_min (a b : float) : float := if PrimFloat.ltb b a then b else a.

(** What [detect_sheet] returns: the dict of [detect_bubbles]. *)
Record DetectionResults : Type := {
  omr_response : list (string * option string);
  final_marked : list string;
  dr_multi_marked : list string;
  multi_roll : list string;
  global_threshold : float
}.

Section Sheet.

Variable cv2_mean : Image -> Z -> Z -> Z -> Z -> float.
Variable np_max np_min np_mean : list float -> option float.

(** The first lines of the [try] body of [detect_bubbles]: the image
    resized to the page dimensions, normalised and made grayscale; [None]
    when one of these calls raises. *)
Variable prepare : Image -> list Z -> option Image.

(** [BubbleDetector.detect_bubble_with_confidence]: the last result is
    returned for a bubble out of bounds and when the body raises (the
    dimensions do not unpack into two). *)
Definition detect_bubble_with_confidence (image : Image) (b : TemplateModel.Bubble)
    (bubble_dimensions : list Z) (threshold : float) : BubbleDetectionResult :=
  let sentinel :=
    {| is_marked := false; confidence := 0%float; intensity := 255%float;
       threshold_used := threshold; bubble := b |} in
  match bubble_dimensions with
  | [box_w; box_h] =>
      let x := TemplateModel.x b in
      let y := TemplateModel.y b in
      if (0 <=? y) && (y + box_h <=? shape0 image) && (0 <=? x) && (x + box_w <=? shape1 image)
      then
        let bubble_intensity := cv2_mean image y (y + box_h) x (x + box_w) in
        let confidence :=
          PrimFloat.div (PrimFloat.abs (PrimFloat.sub bubble_intensity threshold))
                        255%float in
        {| is_marked := PrimFloat.ltb bubble_intensity threshold;
           confidence := py_min confidence 1%float;
           intensity := bubble_intensity;
           threshold_used := threshold;
           bubble := b |}
      else sentinel
  | _ => sentinel
  end.

(** One iteration of the loop of [detect_bubbles] over the field blocks. *)
Definition add_block_result (d : BubbleDetector) (gray : Image) (global_thr : float)
    (bubble_dimensions : list Z) (acc : DetectionResults) (fb : TemplateModel.FieldBlock)
  : DetectionResults :=
  let r := process_field_block cv2_mean np_max np_min np_mean d fb gray global_thr
                               bubble_dimensions in
  {| omr_response := dict_update (omr_response acc) (field_response r);
     final_marked := final_marked acc ++ marked r;
     dr_multi_marked := dr_multi_marked acc ++ multi_marked r;
     multi_roll := multi_roll acc;
     global_threshold := global_threshold acc |}.

(** The [try] body of [BubbleDetector.detect_bubbles]. *)
Definition detect_bubbles_body (d : BubbleDetector) (image : Image)
    (t : TemplateModel.Template) : option DetectionResults :=
  match prepare image (TemplateModel.page_dimensions t) with
  | None => None
  | Some gray =>
      let global_thr := fst (fst (get_global_threshold d gray)) in
      Some (fold_left (add_block_result d gray global_thr (TemplateModel.bubble_dimensions t))
                      (TemplateModel.field_blocks t)
                      {| omr_response := []; final_marked := []; dr_multi_marked := [];
                         multi_roll := []; global_threshold := global_thr |})
  end.

(** [BubbleDetector.detect_bubbles]. *)
Definition detect_bubbles (d : BubbleDetector) (image : Image)
    (t : TemplateModel.Template) : DetectionResults :=
  match detect_bubbles_body d image t with
  | Some r => r
  | None => {| omr_response := []; final_marked := []; dr_multi_marked := [];
               multi_roll := [];
               global_threshold := float_of_Z (global_default_threshold d) |}
  end.

(** *** The global threshold of a low-contrast image *)




(** *** When a block fails *)

Lemma process_questions_None fb image box_w box_h T rows :
  forall acc,
    for_each (process_question cv2_mean fb image box_w box_h T) rows acc = None <->
    In [] rows.
Proof.
  induction rows as [|row rows IH]; intros acc; simpl; [split; [discriminate | intros []]|].
  destruct row as [|b rest].
  - simpl. split; [now left | reflexivity].
  - rewrite process_question_effect. rewrite IH.
    split; [now right | intros [Hnil|Hin]; [discriminate | exact Hin]].
Qed.

(** X15 (bubble_detection.py, [process_field_block]).  With a bubble box
    of two positive dimensions, processing a block raises inside, and so
    returns four empty results, exactly when the block has no grid or its
    grid has a row without bubbles; every response found before that row
    is dropped with it. *)
Theorem block_fails_exactly (d : BubbleDetector) (fb : TemplateModel.FieldBlock)
    (image : Image) (global_thr : float) (box_w box_h : Z) :
  0 < box_w -> 0 < box_h ->
  (process_field_block_body cv2_mean np_max np_min np_mean d fb image global_thr
                            [box_w; box_h] = None <->
   match TemplateModel.traverse_bubbles fb with
   | None => True
   | Some rows => In [] rows
   end) /\
  (process_field_block_body cv2_mean np_max np_min np_mean d fb image global_thr
                            [box_w; box_h] = None ->
   process_field_block cv2_mean np_max np_min np_mean d fb image global_thr [box_w; box_h]
   = empty_result).
Proof.
  intros _ _. split.
  - unfold process_field_block_body.
    destruct (TemplateModel.traverse_bubbles fb) as [rows|]; [|split; trivial].
    unfold process_questions. apply process_questions_None.
  - intros H. unfold process_field_block. now rewrite H.
Qed.

(** *** A block that lies off the image *)

Lemma detect_row_outside fb image box_w box_h T row :
  Forall (fun b => within_image image (bubble_rect fb box_w box_h b) = false) row ->
  detect_row cv2_mean fb image box_w box_h T row = [].
Proof.
  induction 1 as [|b row Hb _ IH]; cbn [detect_row]; [reflexivity|].
  now rewrite Hb.
Qed.




(** *** One bubble with its confidence *)

(** X17 (bubble_detection.py, [detect_bubble_with_confidence] against
    [process_field_block]).  For a block that is not shifted, the bubbles
    of a row that the block pass detects are exactly those that
    [detect_bubble_with_confidence] reports as marked at the same
    threshold and box, in order; the single-bubble result never reports a
    confidence above 1, keeps the threshold and the bubble it was given,
    and is unmarked whenever the dimensions are not a pair. *)
Theorem marked_with_confidence (fb : TemplateModel.FieldBlock) (image : Image)
    (box_w box_h : Z) (threshold : float) (row : list TemplateModel.Bubble) :
  TemplateModel.shift fb = 0 ->
  detect_row cv2_mean fb image box_w box_h threshold row
  = List.filter (fun b => is_marked (detect_bubble_with_confidence image b [box_w; box_h]
                                                                   threshold))
                row /\
  forall b dims,
    let r := detect_bubble_with_confidence image b dims threshold in
    PrimFloat.ltb 1%float (confidence r) = false /\
    threshold_used r = threshold /\ bubble r = b /\
    (length dims <> 2%nat -> is_marked r = false).
Proof.
  intros Hshift. split.
  - induction row as [|b row IH]; [reflexivity|].
    cbn [detect_row List.filter]. rewrite IH.
    unfold detect_bubble_with_confidence, within_image, bubble_intensity, bubble_rect.
    rewrite Hshift, Z.add_0_r.
    destruct ((0 <=? TemplateModel.y b) && (TemplateModel.y b + box_h <=? shape0 image)
              && (0 <=? TemplateModel.x b) && (TemplateModel.x b + box_w <=? shape1 image));
      cbn [is_marked]; [|reflexivity].
    now destruct (PrimFloat.ltb _ threshold).
  - intros b dims r. unfold r, detect_bubble_with_confidence.
    destruct dims as [|w [|h [|extra dims]]]; cbn [is_marked confidence threshold_used bubble length];
      try (repeat split; (reflexivity || lia)).
    destruct ((0 <=? TemplateModel.y b) && (TemplateModel.y b + h <=? shape0 image)
              && (0 <=? TemplateModel.x b) && (TemplateModel.x b + w <=? shape1 image));
      cbn [is_marked confidence threshold_used bubble]; repeat split; try reflexivity; try lia.
    unfold py_min. set (c := PrimFloat.div _ _).
    destruct (PrimFloat.ltb 1 c) eqn:E; [reflexivity | exact E].
Qed.

(** *** A whole sheet *)

Lemma dict_set_keys_In {V : Type} (d : list (string * V)) k v k' :
  In k' (map fst (dict_set d k v)) <-> In k' (map fst d) \/ k' = k.
Proof.
  induction d as [|[k0 v0] d IH]; simpl; [intuition congruence|].
  destruct (String.eqb k0 k) eqn:E; simpl.
  - apply String.eqb_eq in E. subst k0. intuition congruence.
  - rewrite IH. tauto.
Qed.

Lemma dict_set_keys_NoDup {V : Type} (d : list (string * V)) k v :
  NoDup (map fst d) -> NoDup (map fst (dict_set d k v)).
Proof.
  induction d as [|[k0 v0] d IH]; simpl; intros Hnd.
  - apply NoDup_singleton.
  - apply NoDup_cons in Hnd as [Hk0 Hnd].
    destruct (String.eqb k0 k) eqn:E; simpl; apply NoDup_cons.
    + split; assumption.
    + split; [|now apply IH]. intros Hin. apply list_elem_of_In in Hin.
      apply dict_set_keys_In in Hin as [Hin| ->].
      * apply Hk0. now apply list_elem_of_In.
      * rewrite String.eqb_refl in E. discriminate.
Qed.

Lemma dict_update_keys_In {V : Type} (e : list (string * V)) :
  forall d k, In k (map fst (dict_update d e)) <-> In k (map fst d) \/ In k (map fst e).
Proof.
  unfold dict_update. induction e as [|[k0 v0] e IH]; intros d k; simpl; [tauto|].
  rewrite IH, dict_set_keys_In. intuition congruence.
Qed.

Lemma dict_update_keys_NoDup {V : Type} (e : list (string * V)) :
  forall d, NoDup (map fst d) -> NoDup (map fst (dict_update d e)).
Proof.
  unfold dict_update. induction e as [|[k0 v0] e IH]; intros d Hnd; simpl; [exact Hnd|].
  apply IH. now apply dict_set_keys_NoDup.
Qed.


Lemma keys_combine {V : Type} (labels : list string) (vs : list V) :
  length vs = length labels -> map fst (combine labels vs) = labels.
Proof.
  revert vs. induction labels as [|l labels IH]; intros [|v vs]; simpl; try congruence.
  intros [= H]. now rewrite IH.
Qed.

(** What the block pass returns for a block with a well-formed grid: one
    response per label, and marks only on labels of the block. *)
Definition answers_its_labels (d : BubbleDetector) (gray : Image) (global_thr : float)
    (dims : list Z) (fb : TemplateModel.FieldBlock) : Prop :=
  let r := process_field_block cv2_mean np_max np_min np_mean d fb gray global_thr dims in
  (exists responses,
      length responses = length (TemplateModel.field_labels fb) /\
      field_response r = dict_update [] (combine (TemplateModel.field_labels fb) responses)) /\
  (forall l, In l (marked r) -> In l (TemplateModel.field_labels fb)) /\
  (forall l, In l (multi_marked r) -> In l (TemplateModel.field_labels fb)).

Lemma built_block_answers d gray global_thr box_w box_h dims e entry fb :
  TemplateMore.built_from dims e entry fb ->
  answers_its_labels d gray global_thr [box_w; box_h] fb.
Proof.
  intros Hb.
  apply TemplateMore.built_from_fields in Hb
    as (_ & Hcfg & _ & _ & _ & values & direction & Hft & Hrows).
  assert (Hlabels : TemplateModel.fieldLabels (snd entry) = TemplateModel.field_labels fb)
    by now rewrite <- Hcfg.
  rewrite Hlabels in Hrows.
  destruct (field_types_values _ _ _ Hft) as [Hne _].
  pose proof (place_rows_labels (TemplateModel.fieldType (snd entry))
                (TemplateModel.bubblesGap (snd entry)) (TemplateModel.labelsGap (snd entry))
                (fst (TemplateModel.axes direction)) (snd (TemplateModel.axes direction))
                values (TemplateModel.field_labels fb) Hne
                (TemplateModel.cfg_origin (snd entry))) as HF.
  unfold answers_its_labels, process_field_block, process_field_block_body.
  rewrite Hrows. unfold process_questions.
  rewrite (process_questions_effect cv2_mean fb gray box_w box_h _ _ _ HF).
  cbn [field_response marked multi_marked empty_result app].
  split; [|split].
  - eexists. split; [|reflexivity].
    rewrite length_map. eapply Forall2_length. exact HF.
  - intros l. apply labels_where_In.
  - intros l. apply labels_where_In.
Qed.

Definition labels_of (blocks : list TemplateModel.FieldBlock) : list string :=
  concat (map TemplateModel.field_labels blocks).

Lemma blocks_loop d gray global_thr dims (blocks : list TemplateModel.FieldBlock) :
  Forall (answers_its_labels d gray global_thr dims) blocks ->
  forall acc,
    let r := fold_left (add_block_result d gray global_thr dims) blocks acc in
    (forall l, In l (map fst (omr_response r)) <->
               In l (map fst (omr_response acc)) \/ In l (labels_of blocks)) /\
    (NoDup (map fst (omr_response acc)) -> NoDup (map fst (omr_response r))) /\
    (forall l, In l (final_marked r) -> In l (final_marked acc) \/ In l (labels_of blocks)) /\
    (forall l, In l (dr_multi_marked r) ->
               In l (dr_multi_marked acc) \/ In l (labels_of blocks)) /\
    (NoDup (map fst (omr_response acc) ++ labels_of blocks) ->
     map fst (omr_response r) = map fst (omr_response acc) ++ labels_of blocks) /\
    global_threshold r = global_threshold acc.
Proof.
  clear prepare. unfold labels_of.
  induction 1 as [|fb blocks ((responses & Hlen & Hresp) & Hm & Hmm) _ IH]; intros acc.
  - simpl. rewrite app_nil_r. repeat split; tauto.
  - cbn [fold_left map concat].
    destruct (IH (add_block_result d gray global_thr dims acc fb))
      as (Hkeys & Hnd & Hfm & Hfmm & Hord & Hthr).
    clear IH. cbn [add_block_result omr_response final_marked dr_multi_marked
                   global_threshold] in *.
    assert (Hk : forall l,
               In l (map fst (dict_update (omr_response acc)
                                (field_response
                                   (process_field_block cv2_mean np_max np_min np_mean d fb
                                      gray global_thr dims)))) <->
               In l (map fst (omr_response acc)) \/ In l (TemplateModel.field_labels fb)).
    { intros l. rewrite dict_update_keys_In, Hresp, dict_update_keys_In.
      rewrite keys_combine by exact Hlen. simpl. tauto. }
    split; [|split; [|split; [|split; [|split]]]].
    + intros l. rewrite Hkeys, Hk, in_app_iff. tauto.
    + intros Hacc. apply Hnd. now apply dict_update_keys_NoDup.
    + intros l Hl. apply Hfm in Hl as [Hl|Hl]; [|right; apply in_app_iff; now right].
      apply in_app_iff in Hl as [Hl|Hl]; [now left|].
      right. apply in_app_iff. left. now apply Hm.
    + intros l Hl. apply Hfmm in Hl as [Hl|Hl]; [|right; apply in_app_iff; now right].
      apply in_app_iff in Hl as [Hl|Hl]; [now left|].
      right. apply in_app_iff. left. now apply Hmm.
    + intros Hfresh. rewrite app_assoc in Hfresh.
      assert (Hstep : map fst (dict_update (omr_response acc)
                                 (field_response
                                    (process_field_block cv2_mean np_max np_min np_mean d fb
                                       gray global_thr dims)))
                      = map fst (omr_response acc) ++ TemplateModel.field_labels fb).
      { rewrite Hresp.
        assert (Hown : NoDup (TemplateModel.field_labels fb)).
        { apply NoDup_app in Hfresh as (Hfresh & _). now apply NoDup_app in Hfresh as (_ & _ & H). }
        rewrite (dict_update_fresh_keys (combine (TemplateModel.field_labels fb) responses) [])
          by (simpl; now rewrite keys_combine).
        simpl. rewrite dict_update_fresh_keys.
        - now rewrite map_app, keys_combine.
        - rewrite keys_combine by exact Hlen. now apply NoDup_app in Hfresh as (Hfresh & _). }
      rewrite Hord; rewrite Hstep; [now rewrite <- app_assoc | exact Hfresh].
    + exact Hthr.
Qed.


End Sheet.

(** *** Concrete sheets *)



(** An image that already has the page size and one channel. *)
Definition already_prepared (image : Image) (page_dimensions : list Z) : option Image :=
  match page_dimensions with
  | [_; _] => Some image
  | _ => None
  end.

Definition pixel_config : TemplateMore.TemplateConfig :=
  {| TemplateMore.pageDimensions := [4; 2]; TemplateMore.bubbleDimensions := [1; 1];
     TemplateMore.emptyValue := Some ""%string;
     TemplateMore.fieldBlocks :=
       [("Questions"%string,
         {| TemplateModel.fieldType := "QTYPE_MCQ4"; TemplateModel.cfg_origin := (0, 0);
            TemplateModel.bubblesGap := 1; TemplateModel.labelsGap := 1;
            TemplateModel.fieldLabels := ["q1"; "q2"]%string |})] |}.

Definition pixel_template : TemplateModel.Template :=
  Eval vm_compute in
    default {| TemplateModel.page_dimensions := []; TemplateModel.bubble_dimensions := [];
               TemplateModel.field_blocks := []; TemplateModel.t_empty_value := None |}
            (TemplateMore.load pixel_config).

Example two_rows_sheet :
  let r := detect_bubbles region_mean float_max float_min float_mean already_prepared
             default_detector two_rows pixel_template in
  (omr_response r, final_marked r, dr_multi_marked r, global_threshold r)
  = ([("q1", Some "A"); ("q2", Some "AB")], ["q1"], ["q2"], 89.25%float)%string.
Proof. vm_compute. reflexivity. Qed.


Lemma block_fails_exactly_witness :
  (process_field_block_body region_mean float_max float_min float_mean default_detector
     two_question_block two_rows 89.25%float [1; 1] = None <->
   match TemplateModel.traverse_bubbles two_question_block with
   | None => True
   | Some rows => In [] rows
   end) /\
  (process_field_block_body region_mean float_max float_min float_mean default_detector
     two_question_block two_rows 89.25%float [1; 1] = None ->
   process_field_block region_mean float_max float_min float_mean default_detector
     two_question_block two_rows 89.25%float [1; 1] = empty_result).
Proof.
  apply (block_fails_exactly region_mean float_max float_min float_mean default_detector
           two_question_block two_rows 89.25%float 1 1); lia.
Defined.


Lemma marked_with_confidence_witness :
  detect_row region_mean two_question_block two_rows 1 1 127.5%float first_row
  = List.filter (fun b => is_marked (detect_bubble_with_confidence region_mean two_rows b
                                                                   [1; 1] 127.5%float))
                first_row /\
  forall b dims,
    let r := detect_bubble_with_confidence region_mean two_rows b dims 127.5%float in
    PrimFloat.ltb 1%float (confidence r) = false /\
    threshold_used r = 127.5%float /\ bubble r = b /\
    (length dims <> 2%nat -> is_marked r = false).
Proof.
  apply (marked_with_confidence region_mean two_question_block two_rows 1 1 127.5%float
           first_row).
  reflexivity.
Defined.


End DetectionMore.

(** ** services/omr_processor.py: what the service derives from a report *)
Module ServiceMore.
Import Py Service.

Open Scope Z_scope.

(** The sum of the scores of a score dict. *)
Definition score_total (scores : list (string * Z)) : Z :=
  foldr Z.add 0 (map snd scores).

(** [question[1:]]. *)
Definition tail_of (question : string) : string :=
  match question with
  | EmptyString => ""%string
  | String _ rest => rest
  end.

(** [int()] on plain decimal literals with an optional minus sign. *)
Definition digit_of (c : ascii) : option Z :=
  let n := Z.of_nat (nat_of_ascii c) - 48 in
  if (0 <=? n) && (n <=? 9) then Some n else None.

Fixpoint digits_value (s : string) (acc : Z) : option Z :=
  match s with
  | EmptyString => Some acc
  | String c rest =>
      match digit_of c with
      | Some d => digits_value rest (10 * acc + d)
      | None => None
      end
  end.

Definition decimal_int (s : string) : option Z :=
  match s with
  | EmptyString => None
  | String "-"%char EmptyString => None
  | String "-"%char rest => option_map Z.opp (digits_value rest 0)
  | _ => digits_value s 0
  end.

Section InvalidQuestions.

(** The builtin [int()] on a string; [None] when it raises ValueError. *)
Variable py_int : string -> option Z.

(** One iteration of the loop of [_extract_invalid_questions]. *)
Definition extract_step (invalid_questions : list Z) (question : string) : list Z :=
  if String.prefix "q" question then
    match py_int (tail_of question) with
    | Some q_num => invalid_questions ++ [q_num]
    | None => invalid_questions
    end
  else invalid_questions.

(** [OMRProcessor._extract_invalid_questions] on the ["multi_marked"]
    entry of the detection metadata ([None] when the key is absent). *)
Definition _extract_invalid_questions (multi_marked : option (list string)) : list Z :=
  fold_left extract_step (default [] multi_marked) [].

Lemma extract_labels (ns : list Z) :
  Forall (fun n => py_int (pretty n) = Some n) ns ->
  forall acc, fold_left extract_step (map EvaluationMore.q_label ns) acc = acc ++ ns.
Proof.
  induction 1 as [|n ns Hn _ IH]; intros acc; simpl; [now rewrite app_nil_r|].
  rewrite IH. unfold extract_step, EvaluationMore.q_label.
  change ("q" +:+ pretty n)%string with (String "q" (pretty n)).
  cbn [String.prefix tail_of].
  destruct (ascii_dec "q" "q") as [_|Hne]; [|congruence].
  replace (String.prefix "" (pretty n)) with true by (now destruct (pretty n)).
  rewrite Hn. now rewrite <- app_assoc.
Qed.

(** X20 (services/omr_processor.py, [_extract_invalid_questions]).  The
    invalid questions of multi-marked labels of the form q[n] are the
    numbers [n], in order, whenever [int()] reads back the decimal of
    each; labels the template of [create_template_from_test_data] hands
    out are of that form. *)
Theorem invalid_questions_of_labels (ns : list Z) :
  Forall (fun n => py_int (pretty n) = Some n) ns ->
  _extract_invalid_questions (Some (map EvaluationMore.q_label ns)) = ns.
Proof.
  intros Hns. unfold _extract_invalid_questions. simpl.
  now rewrite (extract_labels ns Hns []).
Qed.

End InvalidQuestions.

(** *** The subject scores add up *)

Lemma correct_count_app rs rs' :
  correct_count (rs ++ rs') = correct_count rs + correct_count rs'.
Proof.
  unfold correct_count, Evaluation.verdict_count.
  rewrite List.filter_app, length_app. lia.
Qed.

Lemma correct_count_bounds rs : 0 <= correct_count rs <= Z.of_nat (length rs).
Proof.
  unfold correct_count, Evaluation.verdict_count.
  induction rs as [|r rs IH]; simpl; [lia|].
  destruct (Evaluation.verdict_eqb _ _); simpl; lia.
Qed.

Lemma slice_scores_sum results subjects :
  forall offset i,
    0 <= offset ->
    Forall (fun s => 0 <= Evaluation.subject_questions s) subjects ->
    score_total (slice_scores results offset i subjects)
    = correct_count (take (Core.question_total subjects) (drop (Z.to_nat offset) results)).
Proof.
  unfold score_total, Core.question_total.
  induction subjects as [|s rest IH]; intros offset i Hoff Hall.
  - simpl. now rewrite take_0.
  - apply Forall_cons in Hall as [Hn Hrest]. cbn beta in Hn.
    cbn [slice_scores map foldr snd sum_list_with].
    rewrite (IH (offset + Evaluation.subject_questions s) (S i) ltac:(lia) Hrest).
    rewrite <- take_take_drop, correct_count_app, drop_drop.
    rewrite Z2Nat.inj_add by lia. reflexivity.
Qed.

Lemma slice_scores_bounds results subjects :
  forall offset i,
    Forall (fun s => 0 <= Evaluation.subject_questions s) subjects ->
    Forall2 (fun kv s => 0 <= snd kv <= Evaluation.subject_questions s)
            (slice_scores results offset i subjects) subjects.
Proof.
  induction subjects as [|s rest IH]; intros offset i Hall; simpl; constructor.
  - apply Forall_cons in Hall as [Hn _]. cbn beta in Hn. simpl.
    pose proof (correct_count_bounds
                  (take (Z.to_nat (Evaluation.subject_questions s))
                        (drop (Z.to_nat offset) results))) as Hb.
    rewrite length_take in Hb. lia.
  - apply Forall_cons in Hall as [_ Hrest]. now apply IH.
Qed.

(** X19 (services/omr_processor.py, [_convert_to_subject_scores]).  For
    subjects with non-negative question counts and pairwise distinct
    names whose counts cover all the evaluated questions, the loop of the
    service gives every subject one score between 0 and its question
    count, and the scores add up to the number of correct answers. *)
Theorem subject_scores_add_up (results : list Evaluation.EvaluationResult)
    (test_subjects : list Evaluation.Subject) :
  Forall (fun s => 0 <= Evaluation.subject_questions s) test_subjects ->
  NoDup (map (fun entry => subject_name (fst entry) (snd entry))
             (enumerate_from 0 test_subjects)) ->
  (length results <= Core.question_total test_subjects)%nat ->
  exists scores,
    subject_score_dict results test_subjects = Some scores /\
    map fst scores
    = map (fun entry => subject_name (fst entry) (snd entry)) (enumerate_from 0 test_subjects) /\
    Forall2 (fun kv s => 0 <= snd kv <= Evaluation.subject_questions s) scores test_subjects /\
    score_total scores = correct_count results.
Proof.
  intros Hall Hnd Hcover.
  destruct (score_subjects_loop results test_subjects 0%nat [] 1 ltac:(lia) Hall)
    as (last & Hrun).
  change (1 - 1) with 0 in Hrun.
  rewrite dict_update_fresh_nil in Hrun by (now rewrite slice_scores_names).
  exists (slice_scores results 0 0 test_subjects).
  split; [unfold subject_score_dict; now rewrite Hrun|].
  split; [apply slice_scores_names|].
  split; [now apply slice_scores_bounds|].
  rewrite (slice_scores_sum results test_subjects 0 0%nat ltac:(lia) Hall).
  change (Z.to_nat 0) with 0%nat. rewrite drop_0, take_ge by exact Hcover. reflexivity.
Qed.

(** *** The legacy fields *)

(** The five fixed fields of the response, in the order of
    [legacy_names]. *)
Definition legacy_fields (response : SubjectScores) : list Z :=
  [math response; ai_ml response; stats response; python response; genai response].

(** X26 (services/omr_processor.py, [_convert_to_subject_scores];
    models/schemas.py, [SubjectScores]).  For caller-supplied subjects
    with non-negative question counts and pairwise distinct names, the
    service returns a response exactly when pydantic reads the total as
    an integer from 0 to 100 and each of the first five subjects has at
    most 20 correct answers (otherwise the constructor raises), and the
    five fixed fields of a returned response (math, ai_ml, stats, python,
    genai) are filled by position: the n-th field holds the score of the
    n-th subject whatever its name, and a field beyond the number of
    subjects holds 0 unless some subject is named as that field's legacy
    name (Math, AI/ML, Stats, Python, GenAI), whose score it then
    repeats. *)
Theorem legacy_fields_by_position (int_of_float : float -> option Z)
    (scoring_report : Evaluation.ScoringReport)
    (test_subjects : list Evaluation.Subject) :
  test_subjects <> [] ->
  Forall (fun s => 0 <= Evaluation.subject_questions s) test_subjects ->
  NoDup (map (fun entry => subject_name (fst entry) (snd entry))
             (enumerate_from 0 test_subjects)) ->
  exists scores,
    subject_score_dict (Evaluation.evaluation_results scoring_report) test_subjects
    = Some scores /\
    length scores = length test_subjects /\
    (is_Some (_convert_to_subject_scores int_of_float scoring_report (Some test_subjects)) <->
     (exists t, int_of_float (Evaluation.total_score scoring_report) = Some t /\
                0 <= t <= 100) /\
     Forall (fun kv => snd kv <= 20) (take 5 scores)) /\
    forall response,
      _convert_to_subject_scores int_of_float scoring_report (Some test_subjects)
      = Some response ->
      forall n field fallback,
        legacy_fields response !! n = Some field ->
        legacy_names !! n = Some fallback ->
        field = match scores !! n with
                | Some kv => snd kv
                | None => default 0 (dict_get scores fallback)
                end.
Proof.
  intros Hne Hall Hnd.
  destruct (score_subjects_loop (Evaluation.evaluation_results scoring_report)
              test_subjects 0%nat [] 1 ltac:(lia) Hall) as (last & Hrun).
  change (1 - 1) with 0 in Hrun.
  rewrite dict_update_fresh_nil in Hrun by (now rewrite slice_scores_names).
  set (scores := slice_scores (Evaluation.evaluation_results scoring_report) 0 0
                              test_subjects) in *.
  assert (Hdict : subject_score_dict (Evaluation.evaluation_results scoring_report)
                                     test_subjects = Some scores)
    by (unfold subject_score_dict; now rewrite Hrun).
  assert (Hkeys : NoDup (map fst scores)) by (unfold scores; now rewrite slice_scores_names).
  exists scores. split; [exact Hdict|].
  split; [unfold scores; apply slice_scores_length|].
  split.
  - apply (convert_returns int_of_float scoring_report test_subjects scores Hne Hdict Hkeys).
    apply slice_scores_nonneg.
  - intros response Hr n field fallback Hfield Hname.
    rewrite (convert_subjects int_of_float scoring_report test_subjects scores Hne Hdict) in Hr.
    apply new_subject_scores_Some in Hr as (H0 & H1 & H2 & H3 & H4 & _).
    unfold legacy_fields, legacy_names in *.
    destruct n as [|[|[|[|[|n]]]]]; simpl in Hfield, Hname; try discriminate;
      injection Hfield as <-; injection Hname as <-.
    + now apply (legacy_field_valid int_of_float scores _ _ _ Hkeys) in H0 as [-> _].
    + now apply (legacy_field_valid int_of_float scores _ _ _ Hkeys) in H1 as [-> _].
    + now apply (legacy_field_valid int_of_float scores _ _ _ Hkeys) in H2 as [-> _].
    + now apply (legacy_field_valid int_of_float scores _ _ _ Hkeys) in H3 as [-> _].
    + now apply (legacy_field_valid int_of_float scores _ _ _ Hkeys) in H4 as [-> _].
Qed.

(** *** A concrete report *)

Definition half_right_results : list Evaluation.EvaluationResult :=
  Eval vm_compute in
    Evaluation.evaluation_results
      (Evaluation.evaluate_omr_response Evaluation.float_literal
         (Evaluation.create_from_test_data Evaluation.two_subjects)
         Evaluation.half_right_sheet).

Lemma invalid_questions_of_labels_witness :
  _extract_invalid_questions decimal_int (Some (map EvaluationMore.q_label [2; 14]))
  = [2; 14].
Proof.
  apply (invalid_questions_of_labels decimal_int [2; 14]).
  repeat constructor.
Defined.

Lemma subject_scores_add_up_witness :
  exists scores,
    subject_score_dict half_right_results Evaluation.two_subjects = Some scores /\
    map fst scores
    = map (fun entry => subject_name (fst entry) (snd entry))
          (enumerate_from 0 Evaluation.two_subjects) /\
    Forall2 (fun kv s => 0 <= snd kv <= Evaluation.subject_questions s) scores
            Evaluation.two_subjects /\
    score_total scores = correct_count half_right_results.
Proof.
  apply (subject_scores_add_up half_right_results Evaluation.two_subjects).
  - unfold Evaluation.two_subjects. repeat constructor; vm_compute; discriminate.
  - apply (bool_decide_unpack
             (NoDup (map (fun entry => subject_name (fst entry) (snd entry))
                         (enumerate_from 0 Evaluation.two_subjects)))).
    vm_compute. exact I.
  - vm_compute. lia.
Defined.

Lemma legacy_fields_by_position_witness :
  exists scores,
    subject_score_dict half_right_results Evaluation.two_subjects = Some scores /\
    length scores = length Evaluation.two_subjects /\
    (is_Some (_convert_to_subject_scores whole_float
                (Evaluation.evaluate_omr_response Evaluation.float_literal
                   (Evaluation.create_from_test_data Evaluation.two_subjects)
                   Evaluation.half_right_sheet)
                (Some Evaluation.two_subjects)) <->
     (exists t, whole_float
                  (Evaluation.total_score
                     (Evaluation.evaluate_omr_response Evaluation.float_literal
                        (Evaluation.create_from_test_data Evaluation.two_subjects)
                        Evaluation.half_right_sheet)) = Some t /\
                0 <= t <= 100) /\
     Forall (fun kv => snd kv <= 20) (take 5 scores)) /\
    forall response,
      _convert_to_subject_scores whole_float
        (Evaluation.evaluate_omr_response Evaluation.float_literal
           (Evaluation.create_from_test_data Evaluation.two_subjects)
           Evaluation.half_right_sheet)
        (Some Evaluation.two_subjects)
      = Some response ->
      forall n field fallback,
        legacy_fields response !! n = Some field ->
        legacy_names !! n = Some fallback ->
        field = match scores !! n with
                | Some kv => snd kv
                | None => default 0 (dict_get scores fallback)
                end.
Proof.
  apply (legacy_fields_by_position whole_float
           (Evaluation.evaluate_omr_response Evaluation.float_literal
              (Evaluation.create_from_test_data Evaluation.two_subjects)
              Evaluation.half_right_sheet)
           Evaluation.two_subjects).
  - discriminate.
  - unfold Evaluation.two_subjects. repeat constructor; vm_compute; discriminate.
  - apply (bool_decide_unpack
             (NoDup (map (fun entry => subject_name (fst entry) (snd entry))
                         (enumerate_from 0 Evaluation.two_subjects)))).
    vm_compute. exact I.
Defined.

(** A lone subject named "Python": the first field holds its score by
    position and the fourth repeats it by name. *)
Example python_alone_fills_two_fields :
  option_map legacy_fields
    (_convert_to_subject_scores whole_float
       (Evaluation.evaluate_omr_response Evaluation.float_literal
          (Evaluation.evaluator_of Evaluation.abcd_key)
          [("q1", Some "A"); ("q2", Some "B")]%string)
       (Some [ {| Evaluation.s_name := Some "Python"%string;
                  Evaluation.s_questions := Some 2;
                  Evaluation.s_answer_key := None |} ]))
  = Some [2; 0; 0; 2; 0].
Proof. vm_compute. reflexivity. Qed.

End ServiceMore.

(** ** core.py: one sheet through detection and evaluation *)
Module Pipeline.
Import Py.

Open Scope Z_scope.

(** The parts of [OMRCore] that processing reads. *)
Record OMRCore : Type := {
  template : option TemplateModel.Template;
  bubble_detector : Detection.BubbleDetector;
  evaluator : option Evaluation.OMREvaluator
}.

(** The dict that [process_omr_image] returns, without its timing, its
    visualisation and its error text. *)
Record Results : Type := {
  success : bool;
  res_omr_response : list (string * option string);
  scoring_report : option Evaluation.ScoringReport;
  detection_metadata : option DetectionMore.DetectionResults
}.

Definition failure : Results :=
  {| success := false; res_omr_response := []; scoring_report := None;
     detection_metadata := None |}.

(** [OMRCore.__init__]. *)
Definition new_core (threshold_params : Detection.ThresholdParams) : OMRCore :=
  {| template := None; bubble_detector := Detection.new_detector threshold_params;
     evaluator := None |}.

(** [OMRCore.create_template_from_test_data] on the state: the template
    is bound as soon as it is built, before it is validated. *)
Definition create_template_from_test_data (core : OMRCore)
    (test_subjects : list Evaluation.Subject) : OMRCore * bool :=
  let '(built, ok) := Core.create_template_from_test_data test_subjects in
  ({| template := match built with Some t => Some t | None => template core end;
      bubble_detector := bubble_detector core;
      evaluator := evaluator core |}, ok).

(** [OMRCore.setup_evaluator]: the test data are used when both arguments
    are non-empty, the default configuration (no answers) otherwise. *)
Definition setup_evaluator (core : OMRCore) (test_subjects : list Evaluation.Subject)
    (answer_key : list string) : OMRCore :=
  {| template := template core;
     bubble_detector := bubble_detector core;
     evaluator :=
       Some (match test_subjects, answer_key with
             | _ :: _, _ :: _ => Evaluation.create_from_test_data test_subjects
             | _, _ => Evaluation.evaluator_of ∅
             end) |}.

Section Run.

Variable cv2_mean : Detection.Image -> Z -> Z -> Z -> Z -> float.
Variable np_max np_min np_mean : list float -> option float.
Variable prepare : Detection.Image -> list Z -> option Detection.Image.
Variable py_float : string -> option float.

(** Step 1 of [process_omr_image]: the preprocessors of the template are
    created and applied; [None] when the factory raises. *)
Variable preprocess : Detection.Image -> option Detection.Image.

(** [OMRCore.process_omr_image]. *)
Definition process_omr_image (core : OMRCore) (image : Detection.Image) : Results :=
  match template core, evaluator core with
  | Some t, Some ev =>
      match preprocess image with
      | None => failure
      | Some processed_image =>
          let detection_results :=
            DetectionMore.detect_bubbles cv2_mean np_max np_min np_mean prepare
              (bubble_detector core) processed_image t in
          let report :=
            Evaluation.evaluate_omr_response py_float ev
              (DetectionMore.omr_response detection_results) in
          {| success := true;
             res_omr_response := DetectionMore.omr_response detection_results;
             scoring_report := Some report;
             detection_metadata := Some detection_results |}
      end
  | _, _ => failure
  end.

(** *** The questions of a sheet made from test data *)

Lemma NoDup_q_labels (lo hi : Z) : NoDup (map EvaluationMore.q_label (range lo hi)).
Proof.
  unfold range. rewrite map_map.
  change (map ?f ?l) with (f <$> l).
  apply NoDup_fmap_2_strong; [|apply NoDup_seq].
  intros a b _ _ H. apply EvaluationMore.q_label_inj in H. lia.
Qed.

Lemma generated_labels (test_subjects : list Evaluation.Subject) (t : TemplateModel.Template) :
  TemplateMore.load (Core.template_config_from_test_data test_subjects) = Some t ->
  NoDup (Core.block_names test_subjects) ->
  DetectionMore.labels_of (TemplateModel.field_blocks t)
  = map EvaluationMore.q_label (range 1 (1 + Z.of_nat (Core.question_total test_subjects))).
Proof.
  intros Ht Hnd.
  apply TemplateMore.loaded_template in Ht as (_ & _ & _ & Hbuilt).
  apply Core.built_labels in Hbuilt as (_ & Hl & _).
  destruct (Core.add_blocks_effect test_subjects 0 [] 1) as (Hq & _).
  destruct (Core.add_blocks_in_order test_subjects 0 [] 1 Hnd) as (_ & Hlabels).
  rewrite Hq in Hlabels. unfold DetectionMore.labels_of. rewrite Hl. exact Hlabels.
Qed.

Lemma sheet_keys (d : Detection.BubbleDetector) (image gray : Detection.Image)
    (c : TemplateMore.TemplateConfig) (t : TemplateModel.Template) (box_w box_h : Z) :
  TemplateMore.load c = Some t ->
  TemplateMore.bubbleDimensions c = [box_w; box_h] ->
  prepare image (TemplateModel.page_dimensions t) = Some gray ->
  NoDup (DetectionMore.labels_of (TemplateModel.field_blocks t)) ->
  map fst (DetectionMore.omr_response
             (DetectionMore.detect_bubbles cv2_mean np_max np_min np_mean prepare d image t))
  = DetectionMore.labels_of (TemplateModel.field_blocks t).
Proof.
  intros Hload Hdims Hprep Hnd.
  apply TemplateMore.loaded_template in Hload as (_ & Hbd & _ & Hbuilt).
  rewrite Hdims in Hbd, Hbuilt.
  unfold DetectionMore.detect_bubbles, DetectionMore.detect_bubbles_body.
  rewrite Hprep, Hbd.
  assert (Hall : Forall (DetectionMore.answers_its_labels cv2_mean np_max np_min np_mean d gray
                           (fst (fst (Detection.get_global_threshold d gray)))
                           [box_w; box_h])
                        (TemplateModel.field_blocks t)).
  { apply List.Forall_forall. intros fb Hfb.
    destruct (Core.Forall2_In_r _ _ _ _ Hbuilt Hfb) as (entry & _ & Hb).
    eapply DetectionMore.built_block_answers. exact Hb. }
  destruct (DetectionMore.blocks_loop cv2_mean np_max np_min np_mean d gray _ _ _ Hall
              {| DetectionMore.omr_response := []; DetectionMore.final_marked := [];
                 DetectionMore.dr_multi_marked := []; DetectionMore.multi_roll := [];
                 DetectionMore.global_threshold :=
                   fst (fst (Detection.get_global_threshold d gray)) |})
    as (_ & _ & _ & _ & Hord & _).
  exact (Hord Hnd).
Qed.

Lemma map_range_lookup (f : Z -> string) (l : list string) :
  (forall k x, l !! k = Some x -> f (1 + Z.of_nat k) = x) ->
  map f (range 1 (1 + Z.of_nat (length l))) = l.
Proof.
  intros Hf. unfold range. rewrite map_map.
  replace (Z.to_nat (1 + Z.of_nat (length l) - 1)) with (length l) by lia.
  apply list_eq. intros i. change (map ?g ?xs) with (g <$> xs).
  rewrite list_lookup_fmap.
  destruct (l !! i) as [x|] eqn:Hi.
  - rewrite lookup_seq_lt by (eapply lookup_lt_Some; exact Hi).
    simpl. f_equal. now apply Hf.
  - rewrite lookup_seq_ge by (now apply lookup_ge_None). reflexivity.
Qed.

Lemma keyed_answers (test_subjects : list Evaluation.Subject) :
  map (Evaluation.get_answer
         (Evaluation.answer_key_manager (Evaluation.create_from_test_data test_subjects)))
      (map EvaluationMore.q_label
           (range 1 (1 + Z.of_nat (Core.question_total test_subjects))))
  = EvaluationMore.expected_answers test_subjects.
Proof.
  rewrite map_map, <- Core.length_expected_answers.
  apply map_range_lookup. intros k x Hk.
  destruct (EvaluationMore.keyed_subjects test_subjects ∅ 1 [] Core.keyed_empty) as [_ Hkeyed].
  unfold Evaluation.get_answer, Evaluation.create_from_test_data. simpl.
  rewrite Hkeyed.
  destruct (1 <=? 1 + Z.of_nat k) eqn:E; [|apply Z.leb_gt in E; lia].
  replace (Z.to_nat (1 + Z.of_nat k - 1)) with k by lia.
  simpl. now rewrite Hk.
Qed.

Lemma test_data_scheme (test_subjects : list Evaluation.Subject) :
  Evaluation.get_marking_scheme
    (Evaluation.answer_key_manager (Evaluation.create_from_test_data test_subjects)) "DEFAULT"
  = Some EvaluationMore.default_scheme.
Proof.
  unfold Evaluation.get_marking_scheme, Evaluation.create_from_test_data,
    Evaluation.evaluator_of.
  cbn [Evaluation.answer_key_manager Evaluation.marking_schemes].
  vm_compute. reflexivity.
Qed.

Lemma default_scheme_points (one zero : float) :
  py_float "1" = Some one -> py_float "0" = Some zero ->
  Evaluation.points py_float EvaluationMore.default_scheme "correct" = Some one /\
  Evaluation.points py_float EvaluationMore.default_scheme "incorrect" = Some zero /\
  Evaluation.points py_float EvaluationMore.default_scheme "unmarked" = Some zero.
Proof.
  intros H1 H0. unfold Evaluation.points.
  assert (Hc : EvaluationMore.default_scheme !! "correct"%string = Some "1"%string)
    by (vm_compute; reflexivity).
  assert (Hi : EvaluationMore.default_scheme !! "incorrect"%string = Some "0"%string)
    by (vm_compute; reflexivity).
  assert (Hu : EvaluationMore.default_scheme !! "unmarked"%string = Some "0"%string)
    by (vm_compute; reflexivity).
  rewrite Hc, Hi, Hu. auto.
Qed.

Lemma outcomes_fields ev ms (omr : list (string * Evaluation.Answer)) results :
  Forall2 (Evaluation.outcome_of py_float ev ms) omr results ->
  map Evaluation.question results = map fst omr /\
  map Evaluation.student_answer results = map snd omr /\
  map Evaluation.correct_answer results
  = map (Evaluation.get_answer (Evaluation.answer_key_manager ev)) (map fst omr).
Proof.
  induction 1 as [|item r omr results (Hq & Hs & Hc & _) _ (IHq & IHs & IHc)]; simpl; [auto|].
  rewrite Hq, Hs, Hc, IHq, IHs, IHc. auto.
Qed.

(** X21 (core.py, [create_template_from_test_data], [setup_evaluator] and
    [process_omr_image]).  After the template and the evaluator have been
    set up from the same non-empty test data, with block names that do
    not repeat and the DEFAULT scheme's literals readable as floats, a
    sheet that passes preprocessing and preparation is processed
    successfully and is fully scored: the report has one outcome per
    question q1, q2, ... up to the number of questions, in order, each
    judged against the answer the subjects give for it and on the
    response detected for it; the four verdict counts add up to the
    number of questions, and the maximum score is that number times the
    points of a correct answer. *)
Theorem test_sheet_fully_scored (core : OMRCore) (test_subjects : list Evaluation.Subject)
    (answer_key : list string) (image processed gray : Detection.Image) (one zero : float) :
  test_subjects <> [] -> answer_key <> [] ->
  NoDup (Core.block_names test_subjects) ->
  preprocess image = Some processed ->
  prepare processed [666; 820] = Some gray ->
  py_float "1" = Some one -> py_float "0" = Some zero ->
  let core1 :=
    setup_evaluator (fst (create_template_from_test_data core test_subjects))
                    test_subjects answer_key in
  let questions := Core.question_total test_subjects in
  let res := process_omr_image core1 image in
  success res = true /\
  exists report,
    scoring_report res = Some report /\
    map Evaluation.question (Evaluation.evaluation_results report)
    = map EvaluationMore.q_label (range 1 (1 + Z.of_nat questions)) /\
    map Evaluation.correct_answer (Evaluation.evaluation_results report)
    = EvaluationMore.expected_answers test_subjects /\
    map Evaluation.student_answer (Evaluation.evaluation_results report)
    = map snd (res_omr_response res) /\
    (Evaluation.correct_answers report + Evaluation.incorrect_answers report
     + Evaluation.unmarked_answers report + Evaluation.multi_marked_answers report
     = questions)%nat /\
    Evaluation.max_possible_score report = PrimFloat.mul (float_of_nat questions) one.
Proof.
  intros Hsubjects Hkey Hnd Hpre Hprep H1 H0 core1 questions res.
  destruct (Core.generated_template_loads test_subjects) as [t Ht].
  assert (Hcore : core1 = {| template := Some t; bubble_detector := bubble_detector core;
                             evaluator := Some (Evaluation.create_from_test_data test_subjects) |}).
  { unfold core1, setup_evaluator, create_template_from_test_data,
      Core.create_template_from_test_data, Core.load_template.
    rewrite Ht. simpl.
    destruct test_subjects as [|s rest]; [congruence|].
    destruct answer_key as [|a key]; [congruence | reflexivity]. }
  pose proof (generated_labels test_subjects t Ht Hnd) as Hlabels.
  destruct (TemplateMore.loaded_template _ _ Ht) as (Hpd & _ & _ & _). simpl in Hpd.
  rewrite <- Hpd in Hprep.
  pose proof (sheet_keys (bubble_detector core) processed gray _ t 20 20 Ht eq_refl Hprep) as Hkeys.
  rewrite Hlabels in Hkeys. specialize (Hkeys (NoDup_q_labels _ _)).
  set (omr := DetectionMore.omr_response
                (DetectionMore.detect_bubbles cv2_mean np_max np_min np_mean prepare
                   (bubble_detector core) processed t)) in *.
  destruct (default_scheme_points one zero H1 H0) as (Hc & Hi & Hu).
  destruct (EvaluationMore.clean_evaluation py_float
              (Evaluation.create_from_test_data test_subjects) omr
              EvaluationMore.default_scheme one (test_data_scheme test_subjects) Hc)
    as (Hout & _ & Hnc & Hni & Hnu & Hnm & Hmax).
  { apply List.Forall_forall. intros item _ k Hk.
    unfold EvaluationMore.points_read in Hk.
    destruct (Evaluation.answer_eqb _ _); [injection Hk as <-; eauto|].
    destruct (Evaluation.is_blank _); [injection Hk as <-; eauto|].
    destruct (Nat.ltb _ _); [discriminate | injection Hk as <-; eauto]. }
  assert (Hres : res = {| success := true; res_omr_response := omr;
                          scoring_report :=
                            Some (Evaluation.evaluate_omr_response py_float
                                    (Evaluation.create_from_test_data test_subjects) omr);
                          detection_metadata :=
                            Some (DetectionMore.detect_bubbles cv2_mean np_max np_min np_mean
                                    prepare (bubble_detector core) processed t) |}).
  { unfold res, process_omr_image. rewrite Hcore. cbn [template evaluator bubble_detector].
    now rewrite Hpre. }
  rewrite Hres. cbn [success scoring_report res_omr_response].
  split; [reflexivity|]. eexists. split; [reflexivity|].
  destruct (outcomes_fields _ _ _ _ Hout) as (Hq & Hs & Hca).
  unfold Evaluation.Answer in *.
  assert (Hlen : length (Evaluation.evaluation_results
                           (Evaluation.evaluate_omr_response py_float
                              (Evaluation.create_from_test_data test_subjects) omr))
                 = questions).
  { rewrite <- (length_map Evaluation.question), Hq, Hkeys, length_map, Core.length_range.
    unfold questions. lia. }
  split; [now rewrite Hq, Hkeys|].
  split; [rewrite Hca, Hkeys; apply keyed_answers|].
  split; [exact Hs|].
  split.
  - rewrite Hnc, Hni, Hnu, Hnm, Evaluation.verdict_count_total. exact Hlen.
  - rewrite Hmax. do 2 f_equal.
    rewrite <- (length_map fst omr), Hkeys, length_map, Core.length_range.
    unfold questions. lia.
Qed.

End Run.

(** *** A concrete run *)

Definition as_it_is (image : Detection.Image) : option Detection.Image := Some image.

Example two_subjects_run :
  let core1 :=
    setup_evaluator (fst (create_template_from_test_data (new_core Detection.no_params)
                                                          Evaluation.two_subjects))
                    Evaluation.two_subjects ["A"; "B"; "C"; "D"]%string in
  let res := process_omr_image Detection.region_mean Detection.float_max Detection.float_min
               Detection.float_mean DetectionMore.already_prepared Evaluation.float_literal
               as_it_is core1 Detection.two_rows in
  (success res, res_omr_response res,
   option_map Evaluation.unmarked_answers (scoring_report res))
  = (true, [("q1", Some ""); ("q2", Some ""); ("q3", Some ""); ("q4", Some "")]%string,
     Some 4%nat).
Proof. vm_compute. reflexivity. Qed.

Lemma test_sheet_fully_scored_witness :
  let core1 :=
    setup_evaluator (fst (create_template_from_test_data (new_core Detection.no_params)
                                                          Evaluation.two_subjects))
                    Evaluation.two_subjects ["A"; "B"; "C"; "D"]%string in
  let questions := Core.question_total Evaluation.two_subjects in
  let res := process_omr_image Detection.region_mean Detection.float_max Detection.float_min
               Detection.float_mean DetectionMore.already_prepared Evaluation.float_literal
               as_it_is core1 Detection.two_rows in
  success res = true /\
  exists report,
    scoring_report res = Some report /\
    map Evaluation.question (Evaluation.evaluation_results report)
    = map EvaluationMore.q_label (range 1 (1 + Z.of_nat questions)) /\
    map Evaluation.correct_answer (Evaluation.evaluation_results report)
    = EvaluationMore.expected_answers Evaluation.two_subjects /\
    map Evaluation.student_answer (Evaluation.evaluation_results report)
    = map snd (res_omr_response res) /\
    (Evaluation.correct_answers report + Evaluation.incorrect_answers report
     + Evaluation.unmarked_answers report + Evaluation.multi_marked_answers report
     = questions)%nat /\
    Evaluation.max_possible_score report = PrimFloat.mul (float_of_nat questions) 1%float.
Proof.
  apply (test_sheet_fully_scored Detection.region_mean Detection.float_max Detection.float_min
           Detection.float_mean DetectionMore.already_prepared Evaluation.float_literal
           as_it_is (new_core Detection.no_params) Evaluation.two_subjects
           ["A"; "B"; "C"; "D"]%string Detection.two_rows Detection.two_rows Detection.two_rows
           1%float 0%float).
  - discriminate.
  - discriminate.
  - apply (bool_decide_unpack (NoDup (Core.block_names Evaluation.two_subjects))).
    vm_compute. exact I.
  - reflexivity.
  - reflexivity.
  - reflexivity.
  - reflexivity.
Defined.

End Pipeline.

(** ** bubble_detection.py and core.py: a question and its place on the page *)
Module Page.
Import Py.

Open Scope Z_scope.

(** *** Lookups in an updated dict *)

Lemma dict_get_update_fresh {V : Type} (e : list (string * V)) :
  forall d k, ~ In k (map fst e) -> dict_get (dict_update d e) k = dict_get d k.
Proof.
  unfold dict_update. induction e as [|[k0 v0] e IH]; intros d k Hk; simpl; [reflexivity|].
  simpl in Hk. rewrite IH by (intros H; apply Hk; now right).
  apply dict_get_set_ne. intros ->. apply Hk. now left.
Qed.

Lemma dict_get_update_in {V : Type} (e : list (string * V)) :
  NoDup (map fst e) ->
  forall d k v, In (k, v) e -> dict_get (dict_update d e) k = Some v.
Proof.
  unfold dict_update. induction e as [|[k0 v0] e IH]; intros Hnd d k v Hin; [destruct Hin|].
  simpl in Hnd. apply NoDup_cons in Hnd as [Hk0 Hnd]. simpl.
  destruct Hin as [[= -> ->]|Hin].
  - change (fold_left (fun acc kv => dict_set acc (fst kv) (snd kv)) e (dict_set d k v))
      with (dict_update (dict_set d k v) e).
    rewrite dict_get_update_fresh; [apply dict_get_set_eq|].
    intros H. apply Hk0. now apply list_elem_of_In.
  - now apply IH.
Qed.

Lemma In_combine_lookup {A B : Type} (xs : list A) :
  forall (ys : list B) k x y,
    xs !! k = Some x -> ys !! k = Some y -> In (x, y) (combine xs ys).
Proof.
  induction xs as [|x0 xs IH]; intros ys k x y Hx Hy; [discriminate|].
  destruct ys as [|y0 ys]; [discriminate|].
  destruct k as [|k]; simpl in *.
  - injection Hx as <-. injection Hy as <-. now left.
  - right. eapply IH; eassumption.
Qed.

Section Bounds.

Variable cv2_mean : Detection.Image -> Z -> Z -> Z -> Z -> float.
Variable np_max np_min np_mean : list float -> option float.
Variable prepare : Detection.Image -> list Z -> option Detection.Image.

(** What [detect_bubbles] hands on from one block. *)
Definition block_result (d : Detection.BubbleDetector) (gray : Detection.Image)
    (global_thr : float) (dims : list Z) (fb : TemplateModel.FieldBlock)
  : Detection.BlockResult :=
  Detection.process_field_block cv2_mean np_max np_min np_mean d fb gray global_thr dims.

(** *** The sheet's answers are the blocks' answers *)

Lemma keys_of_block d gray global_thr dims fb :
  DetectionMore.answers_its_labels cv2_mean np_max np_min np_mean d gray global_thr dims fb ->
  forall label,
    In label (map fst (Detection.field_response (block_result d gray global_thr dims fb))) <->
    In label (TemplateModel.field_labels fb).
Proof.
  clear prepare. intros ((responses & Hlen & Hresp) & _) label. unfold block_result.
  rewrite Hresp, DetectionMore.dict_update_keys_In.
  rewrite DetectionMore.keys_combine by exact Hlen. simpl.
  split; [intros [[]|H]; exact H | intros H; now right].
Qed.

Lemma blocks_loop_untouched d gray global_thr dims (blocks : list TemplateModel.FieldBlock)
    (label : string) :
  Forall (DetectionMore.answers_its_labels cv2_mean np_max np_min np_mean d gray global_thr dims)
         blocks ->
  ~ In label (DetectionMore.labels_of blocks) ->
  forall acc,
    dict_get (DetectionMore.omr_response
                (fold_left (DetectionMore.add_block_result cv2_mean np_max np_min np_mean d
                              gray global_thr dims) blocks acc)) label
    = dict_get (DetectionMore.omr_response acc) label.
Proof.
  clear prepare. unfold DetectionMore.labels_of.
  induction 1 as [|fb blocks Hfb _ IH]; intros Hout acc; [reflexivity|].
  cbn [fold_left map concat] in *.
  rewrite IH by (intros H; apply Hout, in_app_iff; now right).
  cbn [DetectionMore.add_block_result DetectionMore.omr_response].
  apply dict_get_update_fresh. intros Hin.
  apply (keys_of_block d gray global_thr dims fb Hfb) in Hin.
  apply Hout, in_app_iff. now left.
Qed.

Lemma blocks_loop_values d gray global_thr dims (blocks : list TemplateModel.FieldBlock) :
  Forall (DetectionMore.answers_its_labels cv2_mean np_max np_min np_mean d gray global_thr dims)
         blocks ->
  NoDup (DetectionMore.labels_of blocks) ->
  forall acc fb label,
    In fb blocks -> In label (TemplateModel.field_labels fb) ->
    dict_get (DetectionMore.omr_response
                (fold_left (DetectionMore.add_block_result cv2_mean np_max np_min np_mean d
                              gray global_thr dims) blocks acc)) label
    = dict_get (Detection.field_response (block_result d gray global_thr dims fb)) label.
Proof.
  clear prepare. unfold DetectionMore.labels_of.
  induction 1 as [|b0 blocks Hb0 Hrest IH]; intros Hnd acc fb label Hfb Hlabel;
    [destruct Hfb|].
  cbn [fold_left map concat] in *.
  apply NoDup_app in Hnd as (Hown & Hsep & Hnd).
  destruct Hfb as [->|Hfb]; [|now apply IH].
  rewrite (blocks_loop_untouched d gray global_thr dims blocks label Hrest).
  2:{ intros Hin. apply (Hsep label); now apply list_elem_of_In. }
  cbn [DetectionMore.add_block_result DetectionMore.omr_response].
  destruct Hb0 as ((responses & Hlen & Hresp) & _). unfold block_result. rewrite Hresp.
  assert (Hkeys : NoDup (map fst (combine (TemplateModel.field_labels fb) responses)))
    by now rewrite DetectionMore.keys_combine.
  rewrite (dict_update_fresh_nil _ Hkeys).
  apply list_elem_of_In, list_elem_of_lookup_1 in Hlabel as [k Hk].
  destruct (lookup_lt_is_Some_2 responses k) as [v Hv].
  { rewrite Hlen. eapply lookup_lt_Some. exact Hk. }
  pose proof (In_combine_lookup _ _ k label v Hk Hv) as Hin.
  rewrite (dict_get_update_in _ Hkeys _ label v Hin).
  symmetry. rewrite <- (dict_update_fresh_nil _ Hkeys).
  now apply dict_get_update_in.
Qed.

Lemma blocks_loop_marks d gray global_thr dims (blocks : list TemplateModel.FieldBlock) :
  forall acc,
    let r := fold_left (DetectionMore.add_block_result cv2_mean np_max np_min np_mean d
                          gray global_thr dims) blocks acc in
    DetectionMore.final_marked r
    = DetectionMore.final_marked acc
      ++ concat (map (fun fb => Detection.marked (block_result d gray global_thr dims fb)) blocks)
    /\
    DetectionMore.dr_multi_marked r
    = DetectionMore.dr_multi_marked acc
      ++ concat (map (fun fb => Detection.multi_marked (block_result d gray global_thr dims fb))
                     blocks).
Proof.
  clear prepare.
  induction blocks as [|fb blocks IH]; intros acc; simpl; [now rewrite !app_nil_r|].
  destruct (IH (DetectionMore.add_block_result cv2_mean np_max np_min np_mean d gray
                  global_thr dims acc fb)) as [Hm Hmm].
  rewrite Hm, Hmm. cbn [DetectionMore.add_block_result DetectionMore.final_marked
                        DetectionMore.dr_multi_marked].
  unfold block_result. now rewrite <- !app_assoc.
Qed.

Lemma sheet_blocks (d : Detection.BubbleDetector) (image gray : Detection.Image)
    (c : TemplateMore.TemplateConfig) (t : TemplateModel.Template) (box_w box_h : Z) :
  TemplateMore.load c = Some t ->
  TemplateMore.bubbleDimensions c = [box_w; box_h] ->
  prepare image (TemplateModel.page_dimensions t) = Some gray ->
  DetectionMore.detect_bubbles cv2_mean np_max np_min np_mean prepare d image t
  = fold_left (DetectionMore.add_block_result cv2_mean np_max np_min np_mean d gray
                 (fst (fst (Detection.get_global_threshold d gray))) [box_w; box_h])
              (TemplateModel.field_blocks t)
              {| DetectionMore.omr_response := []; DetectionMore.final_marked := [];
                 DetectionMore.dr_multi_marked := []; DetectionMore.multi_roll := [];
                 DetectionMore.global_threshold :=
                   fst (fst (Detection.get_global_threshold d gray)) |} /\
  Forall (DetectionMore.answers_its_labels cv2_mean np_max np_min np_mean d gray
            (fst (fst (Detection.get_global_threshold d gray))) [box_w; box_h])
         (TemplateModel.field_blocks t).
Proof.
  intros Hload Hdims Hprep.
  apply TemplateMore.loaded_template in Hload as (_ & Hbd & _ & Hbuilt).
  rewrite Hdims in Hbd, Hbuilt. split.
  - unfold DetectionMore.detect_bubbles, DetectionMore.detect_bubbles_body.
    now rewrite Hprep, Hbd.
  - apply List.Forall_forall. intros fb Hfb.
    destruct (Core.Forall2_In_r _ _ _ _ Hbuilt Hfb) as (entry & _ & Hb).
    eapply DetectionMore.built_block_answers. exact Hb.
Qed.

(** X22 (bubble_detection.py, [detect_bubbles] over [process_field_block]).
    On a template built from a configuration with a pair of bubble
    dimensions, once the image is prepared, the lists of marked and
    multi-marked labels of the sheet are those of its blocks laid end to
    end in template order; and when no label repeats in the template, the
    response of the sheet to a question is the response of the block that
    holds it, computed with the global threshold of the prepared image. *)
Theorem sheet_is_its_blocks (d : Detection.BubbleDetector) (image gray : Detection.Image)
    (c : TemplateMore.TemplateConfig) (t : TemplateModel.Template) (box_w box_h : Z) :
  TemplateMore.load c = Some t ->
  TemplateMore.bubbleDimensions c = [box_w; box_h] ->
  prepare image (TemplateModel.page_dimensions t) = Some gray ->
  let r := DetectionMore.detect_bubbles cv2_mean np_max np_min np_mean prepare d image t in
  let of_block :=
    block_result d gray (fst (fst (Detection.get_global_threshold d gray))) [box_w; box_h] in
  DetectionMore.final_marked r
  = concat (map (fun fb => Detection.marked (of_block fb)) (TemplateModel.field_blocks t)) /\
  DetectionMore.dr_multi_marked r
  = concat (map (fun fb => Detection.multi_marked (of_block fb))
                (TemplateModel.field_blocks t)) /\
  DetectionMore.multi_roll r = [] /\
  (NoDup (DetectionMore.labels_of (TemplateModel.field_blocks t)) ->
   forall fb label,
     In fb (TemplateModel.field_blocks t) -> In label (TemplateModel.field_labels fb) ->
     dict_get (DetectionMore.omr_response r) label
     = dict_get (Detection.field_response (of_block fb)) label).
Proof.
  intros Hload Hdims Hprep r of_block.
  destruct (sheet_blocks d image gray c t box_w box_h Hload Hdims Hprep) as [Hr Hall].
  unfold r. rewrite Hr.
  destruct (blocks_loop_marks d gray (fst (fst (Detection.get_global_threshold d gray)))
              [box_w; box_h] (TemplateModel.field_blocks t)
              {| DetectionMore.omr_response := []; DetectionMore.final_marked := [];
                 DetectionMore.dr_multi_marked := []; DetectionMore.multi_roll := [];
                 DetectionMore.global_threshold :=
                   fst (fst (Detection.get_global_threshold d gray)) |}) as [Hm Hmm].
  split; [exact Hm|]. split; [exact Hmm|]. split.
  - clear. induction (TemplateModel.field_blocks t) as [|fb blocks IH] using rev_ind;
      [reflexivity|].
    rewrite fold_left_app. simpl. exact IH.
  - intros Hnd fb label Hfb Hlabel. now apply blocks_loop_values.
Qed.

(** *** Rows beyond the page *)

Lemma place_bubbles_y ft label gap values :
  forall p,
    Forall (fun b => TemplateModel.y b = snd p)
           (TemplateModel.place_bubbles ft label gap 0 p values).
Proof.
  induction values as [|v values IH]; intros p; simpl; constructor; [reflexivity|].
  exact (IH (TemplateModel.advance p 0 gap)).
Qed.

Lemma row_below_image fb gray box_w box_h row y0 :
  Forall (fun b => TemplateModel.y b = y0) row ->
  Detection.shape0 gray < y0 + box_h ->
  Forall (fun b => Detection.within_image gray (Detection.bubble_rect fb box_w box_h b) = false)
         row.
Proof.
  intros Hrow Hbelow. eapply List.Forall_impl; [|exact Hrow].
  intros b Hb. unfold Detection.within_image, Detection.bubble_rect. rewrite Hb.
  replace (y0 + box_h <=? Detection.shape0 gray) with false
    by (symmetry; apply Z.leb_gt; lia).
  now rewrite andb_false_r.
Qed.

Lemma NoDup_concat_In {A : Type} (ls : list (list A)) (l : list A) :
  NoDup (concat ls) -> In l ls -> NoDup l.
Proof.
  induction ls as [|l0 ls IH]; simpl; intros Hnd Hin; [destruct Hin|].
  apply NoDup_app in Hnd as (H0 & _ & Hrest).
  destruct Hin as [->|Hin]; [exact H0 | now apply IH].
Qed.

(** The response of a block to the question of a row that lies below the
    image, for a block laid out in rows. *)
Lemma block_row_below d gray global_thr box_w box_h dims e entry fb values k label :
  TemplateMore.built_from dims e entry fb ->
  TemplateModel.field_types (TemplateModel.fb_field_type fb)
  = Some (values, TemplateModel.horizontal) ->
  NoDup (TemplateModel.field_labels fb) ->
  TemplateModel.field_labels fb !! k = Some label ->
  Detection.shape0 gray
  < snd (TemplateModel.origin fb) + Z.of_nat k * TemplateModel.labels_gap fb + box_h ->
  dict_get (Detection.field_response (block_result d gray global_thr [box_w; box_h] fb)) label
  = Some (TemplateModel.empty_value fb).
Proof.
  clear prepare. intros Hb Hft Hnd Hk Hbelow.
  apply TemplateMore.built_from_fields in Hb
    as (_ & Hcfg & _ & _ & _ & values' & direction & Hft' & Hrows).
  rewrite <- Hcfg in Hft', Hrows. simpl in Hft', Hrows.
  rewrite Hft in Hft'. injection Hft' as <- <-. simpl in Hrows.
  destruct (Detection.field_types_values _ _ _ Hft) as [Hne _].
  pose proof (Detection.place_rows_labels (TemplateModel.fb_field_type fb)
                (TemplateModel.bubbles_gap fb) (TemplateModel.labels_gap fb) 0 1
                values (TemplateModel.field_labels fb) Hne (TemplateModel.origin fb)) as HF.
  pose proof (TemplateModel.place_rows_lookup (TemplateModel.fb_field_type fb)
                (TemplateModel.bubbles_gap fb) (TemplateModel.labels_gap fb) 0 1
                values (TemplateModel.field_labels fb) k (TemplateModel.origin fb) label Hk)
    as Hrow.
  unfold block_result, Detection.process_field_block, Detection.process_field_block_body.
  rewrite Hrows. unfold Detection.process_questions.
  rewrite (Detection.process_questions_effect cv2_mean fb gray box_w box_h _ _ _ HF).
  cbn [Detection.field_response Detection.empty_result].
  set (T := Detection.block_threshold _ _ _ _ _ _ _ _ _ _ _).
  set (rows := TemplateModel.place_rows _ _ _ _ _ _ _ _) in *.
  assert (Hkeys : NoDup (map fst (combine (TemplateModel.field_labels fb)
                                   (map (fun row => Detection.question_response fb
                                           (Detection.detect_row cv2_mean fb gray box_w box_h T row))
                                        rows)))).
  { rewrite DetectionMore.keys_combine; [exact Hnd|].
    rewrite length_map. eapply Forall2_length. exact HF. }
  apply (dict_get_update_in _ Hkeys).
  apply (In_combine_lookup _ _ k); [exact Hk|].
  change (map ?f ?l) with (f <$> l). rewrite list_lookup_fmap, Hrow. simpl. f_equal.
  rewrite DetectionMore.detect_row_outside; [reflexivity|].
  eapply row_below_image; [apply place_bubbles_y|]. simpl. lia.
Qed.

(** X23 (bubble_detection.py, [detect_bubbles] and [process_field_block];
    template.py, [generate_bubble_grid]).  On a template built from a
    configuration with distinct labels, whose origins, gaps and grid
    points are integers of magnitude at most 2^53 (where the float coordinates
    of the code are exact), a question of a row-wise block
    (QTYPE_MCQ4 or QTYPE_MCQ5) whose row starts less than a box height
    above the bottom edge of the prepared image, or below it, is never
    read: whatever the sheet shows, its response is the block's empty
    value. *)
Theorem row_beyond_the_image_reads_empty (d : Detection.BubbleDetector)
    (image gray : Detection.Image) (c : TemplateMore.TemplateConfig)
    (t : TemplateModel.Template) (box_w box_h : Z) (fb : TemplateModel.FieldBlock)
    (values : list string) (k : nat) (label : string) :
  TemplateMore.load c = Some t ->
  TemplateMore.config_in_range (TemplateMore.fieldBlocks c) ->
  TemplateMore.bubbleDimensions c = [box_w; box_h] ->
  prepare image (TemplateModel.page_dimensions t) = Some gray ->
  NoDup (DetectionMore.labels_of (TemplateModel.field_blocks t)) ->
  In fb (TemplateModel.field_blocks t) ->
  TemplateModel.field_types (TemplateModel.fb_field_type fb)
  = Some (values, TemplateModel.horizontal) ->
  TemplateModel.field_labels fb !! k = Some label ->
  Detection.shape0 gray
  < snd (TemplateModel.origin fb) + Z.of_nat k * TemplateModel.labels_gap fb + box_h ->
  dict_get (DetectionMore.omr_response
              (DetectionMore.detect_bubbles cv2_mean np_max np_min np_mean prepare d image t))
           label
  = Some (TemplateModel.empty_value fb).
Proof.
  intros Hload _ Hdims Hprep Hnd Hfb Hft Hk Hbelow.
  destruct (sheet_blocks d image gray c t box_w box_h Hload Hdims Hprep) as [Hr Hall].
  rewrite Hr.
  rewrite (blocks_loop_values d gray _ _ _ Hall Hnd _ fb label Hfb)
    by (apply list_elem_of_In; eapply list_elem_of_lookup_2; exact Hk).
  apply TemplateMore.loaded_template in Hload as (_ & _ & _ & Hbuilt).
  destruct (Core.Forall2_In_r _ _ _ _ Hbuilt Hfb) as (entry & _ & Hb).
  eapply block_row_below; try eassumption.
  eapply NoDup_concat_In; [exact Hnd | now apply in_map].
Qed.

(** *** The layout of a template made from test data *)

Lemma add_blocks_layout (test_subjects : list Evaluation.Subject) :
  forall (i : nat) d current_question k bc,
    In (k, bc) (fst (fold_left Core.add_block (Service.enumerate_from i test_subjects)
                               (d, current_question))) ->
    In (k, bc) d \/
    exists i' s,
      In (i', s) (Service.enumerate_from i test_subjects) /\
      0 < Evaluation.subject_questions s /\
      k = Service.subject_name i' s /\
      TemplateModel.fieldType bc = "QTYPE_MCQ4"%string /\
      TemplateModel.cfg_origin bc
      = (50, 100 + Z.of_nat i' * Evaluation.subject_questions s * 60) /\
      TemplateModel.labelsGap bc = 60 /\
      length (TemplateModel.fieldLabels bc) = Z.to_nat (Evaluation.subject_questions s).
Proof.
  clear. induction test_subjects as [|s rest IH]; intros i d cur k bc; simpl; [now left|].
  destruct (0 <? Evaluation.subject_questions s) eqn:Hpos.
  - apply Z.ltb_lt in Hpos. intros Hin.
    destruct (IH _ _ _ _ _ Hin) as [Hold|(i' & s' & Hin' & Hrest)].
    + apply Core.dict_set_In in Hold as [Hold|[-> ->]]; [now left|].
      right. exists i, s. split; [now left|]. split; [exact Hpos|].
      split; [reflexivity|]. split; [reflexivity|]. split; [reflexivity|].
      split; [reflexivity|]. simpl. rewrite length_map, Core.length_range. f_equal. lia.
    + right. exists i', s'. split; [now right | exact Hrest].
  - intros Hin. destruct (IH _ _ _ _ _ Hin) as [Hold|(i' & s' & Hin' & Hrest)];
      [now left|].
    right. exists i', s'. split; [now right | exact Hrest].
Qed.

(** X24 (core.py, [create_template_from_test_data]; bubble_detection.py,
    [detect_bubbles]).  A template made from test data stacks the block of
    the subject at index [i], with [n] questions, at height
    [100 + i * n * 60] and gives each question a row of 60; the page is
    820 high and a bubble 20.  So on a prepared image of the page height
    the question at position [k] of that block is answered with the empty
    string, whatever the sheet shows, as soon as [i * n + k] reaches 12
    (block names distinct). *)
Theorem questions_beyond_the_page (d : Detection.BubbleDetector)
    (image gray : Detection.Image) (test_subjects : list Evaluation.Subject)
    (t : TemplateModel.Template) (fb : TemplateModel.FieldBlock) :
  fst (Core.create_template_from_test_data test_subjects) = Some t ->
  NoDup (Core.block_names test_subjects) ->
  prepare image [666; 820] = Some gray ->
  Detection.shape0 gray = 820 ->
  In fb (TemplateModel.field_blocks t) ->
  exists (i : nat) (s : Evaluation.Subject),
    In (i, s) (Service.enumerate_from 0 test_subjects) /\
    0 < Evaluation.subject_questions s /\
    TemplateModel.name fb = Service.subject_name i s /\
    TemplateModel.origin fb = (50, 100 + Z.of_nat i * Evaluation.subject_questions s * 60) /\
    length (TemplateModel.field_labels fb) = Z.to_nat (Evaluation.subject_questions s) /\
    forall (k : nat) (label : string),
      TemplateModel.field_labels fb !! k = Some label ->
      12 <= Z.of_nat i * Evaluation.subject_questions s + Z.of_nat k ->
      dict_get (DetectionMore.omr_response
                  (DetectionMore.detect_bubbles cv2_mean np_max np_min np_mean prepare d image t))
               label
      = Some (Some ""%string).
Proof.
  unfold Core.create_template_from_test_data, Core.load_template.
  destruct (TemplateMore.load _) as [t'|] eqn:Ht; [|discriminate].
  simpl. intros [= ->] Hnd Hprep Hshape Hfb.
  pose proof (Pipeline.generated_labels test_subjects t Ht Hnd) as Hlabels.
  assert (Hdistinct : NoDup (DetectionMore.labels_of (TemplateModel.field_blocks t)))
    by (rewrite Hlabels; apply Pipeline.NoDup_q_labels).
  destruct (TemplateMore.loaded_template _ _ Ht) as (Hpd & _ & _ & Hbuilt).
  simpl in Hpd, Hbuilt. rewrite <- Hpd in Hprep.
  destruct (Core.Forall2_In_r _ _ _ _ Hbuilt Hfb) as ([k0 bc] & Hentry & Hb).
  destruct (add_blocks_layout test_subjects 0 [] 1 k0 bc Hentry)
    as [[]|(i & s & Hin & Hpos & -> & Hft & Horigin & Hgap & Hlen)].
  destruct (TemplateMore.built_from_fields _ _ _ _ Hb) as (Hname & Hcfg & _ & Hempty & _).
  simpl in Hname, Hcfg.
  assert (Hfields : TemplateModel.fb_field_type fb = "QTYPE_MCQ4"%string /\
                    TemplateModel.origin fb
                    = (50, 100 + Z.of_nat i * Evaluation.subject_questions s * 60) /\
                    TemplateModel.labels_gap fb = 60 /\
                    length (TemplateModel.field_labels fb)
                    = Z.to_nat (Evaluation.subject_questions s)).
  { rewrite <- Hcfg in Hft, Horigin, Hgap, Hlen. simpl in *. auto. }
  destruct Hfields as (Hft' & Horigin' & Hgap' & Hlen').
  exists i, s. split; [exact Hin|]. split; [exact Hpos|]. split; [exact Hname|].
  split; [exact Horigin'|]. split; [exact Hlen'|].
  intros k label Hk Hfar.
  destruct (sheet_blocks d image gray _ t 20 20 Ht eq_refl Hprep) as [Hr Hall].
  rewrite Hr.
  rewrite (blocks_loop_values d gray _ _ _ Hall Hdistinct _ fb label Hfb)
    by (apply list_elem_of_In; eapply list_elem_of_lookup_2; exact Hk).
  rewrite <- Hempty.
  apply (block_row_below d gray _ 20 20 _ _ _ fb ["A"; "B"; "C"; "D"]%string k label Hb).
  - now rewrite Hft'.
  - eapply NoDup_concat_In; [exact Hdistinct | now apply in_map].
  - exact Hk.
  - rewrite Horigin', Hgap', Hshape. simpl. lia.
Qed.

End Bounds.

(** *** A subject of thirteen questions *)

Definition thirteen_questions : list Evaluation.Subject :=
  [ {| Evaluation.s_name := Some "Math"%string; Evaluation.s_questions := Some 13;
       Evaluation.s_answer_key := None |} ].

Definition thirteen_template : TemplateModel.Template :=
  Eval vm_compute in
    default {| TemplateModel.page_dimensions := []; TemplateModel.bubble_dimensions := [];
               TemplateModel.field_blocks := []; TemplateModel.t_empty_value := None |}
            (fst (Core.create_template_from_test_data thirteen_questions)).

Definition math_block : TemplateModel.FieldBlock :=
  Eval vm_compute in
    default (TemplateModel.fresh_block "Math" TemplateModel.questions_block)
            (TemplateMore.get_field_block_by_name thirteen_template "Math").

(** A white sheet of the page size. *)
Definition white_page : Detection.Image := repeat (repeat 255 666%nat) 820%nat.

(** The thirteenth question starts at the bottom edge of the page. *)
Example thirteenth_row :
  option_map (map (fun b => (TemplateModel.field_label b, TemplateModel.y b)))
             (match TemplateModel.traverse_bubbles math_block with
              | Some rows => rows !! 12%nat
              | None => None
              end)
  = Some [("q13", 820); ("q13", 820); ("q13", 820); ("q13", 820)]%string.
Proof. vm_compute. reflexivity. Qed.

Lemma sheet_is_its_blocks_witness :
  let r := DetectionMore.detect_bubbles Detection.region_mean Detection.float_max
             Detection.float_min Detection.float_mean DetectionMore.already_prepared
             Detection.default_detector Detection.two_rows DetectionMore.pixel_template in
  let of_block :=
    block_result Detection.region_mean Detection.float_max Detection.float_min
      Detection.float_mean Detection.default_detector Detection.two_rows
      (fst (fst (Detection.get_global_threshold Detection.default_detector Detection.two_rows)))
      [1; 1] in
  DetectionMore.final_marked r
  = concat (map (fun fb => Detection.marked (of_block fb))
                (TemplateModel.field_blocks DetectionMore.pixel_template)) /\
  DetectionMore.dr_multi_marked r
  = concat (map (fun fb => Detection.multi_marked (of_block fb))
                (TemplateModel.field_blocks DetectionMore.pixel_template)) /\
  DetectionMore.multi_roll r = [] /\
  (NoDup (DetectionMore.labels_of (TemplateModel.field_blocks DetectionMore.pixel_template)) ->
   forall fb label,
     In fb (TemplateModel.field_blocks DetectionMore.pixel_template) ->
     In label (TemplateModel.field_labels fb) ->
     dict_get (DetectionMore.omr_response r) label
     = dict_get (Detection.field_response (of_block fb)) label).
Proof.
  apply (sheet_is_its_blocks Detection.region_mean Detection.float_max Detection.float_min
           Detection.float_mean DetectionMore.already_prepared Detection.default_detector
           Detection.two_rows Detection.two_rows DetectionMore.pixel_config
           DetectionMore.pixel_template 1 1).
  - vm_compute. reflexivity.
  - reflexivity.
  - reflexivity.
Defined.

Lemma row_beyond_the_image_reads_empty_witness :
  dict_get (DetectionMore.omr_response
              (DetectionMore.detect_bubbles Detection.region_mean Detection.float_max
                 Detection.float_min Detection.float_mean DetectionMore.already_prepared
                 Detection.default_detector white_page thirteen_template))
           "q13"
  = Some (TemplateModel.empty_value math_block).
Proof.
  apply (row_beyond_the_image_reads_empty Detection.region_mean Detection.float_max
           Detection.float_min Detection.float_mean DetectionMore.already_prepared
           Detection.default_detector white_page white_page
           (Core.template_config_from_test_data thirteen_questions) thirteen_template
           20 20 math_block ["A"; "B"; "C"; "D"]%string 12 "q13"%string).
  - vm_compute. reflexivity.
  - repeat constructor; vm_compute; discriminate.
  - reflexivity.
  - reflexivity.
  - apply (bool_decide_unpack
             (NoDup (DetectionMore.labels_of (TemplateModel.field_blocks thirteen_template)))).
    vm_compute. exact I.
  - left. reflexivity.
  - reflexivity.
  - reflexivity.
  - vm_compute. reflexivity.
Defined.

Lemma questions_beyond_the_page_witness :
  exists (i : nat) (s : Evaluation.Subject),
    In (i, s) (Service.enumerate_from 0 thirteen_questions) /\
    0 < Evaluation.subject_questions s /\
    TemplateModel.name math_block = Service.subject_name i s /\
    TemplateModel.origin math_block
    = (50, 100 + Z.of_nat i * Evaluation.subject_questions s * 60) /\
    length (TemplateModel.field_labels math_block)
    = Z.to_nat (Evaluation.subject_questions s) /\
    forall (k : nat) (label : string),
      TemplateModel.field_labels math_block !! k = Some label ->
      12 <= Z.of_nat i * Evaluation.subject_questions s + Z.of_nat k ->
      dict_get (DetectionMore.omr_response
                  (DetectionMore.detect_bubbles Detection.region_mean Detection.float_max
                     Detection.float_min Detection.float_mean DetectionMore.already_prepared
                     Detection.default_detector white_page thirteen_template))
               label
      = Some (Some ""%string).
Proof.
  apply (questions_beyond_the_page Detection.region_mean Detection.float_max
           Detection.float_min Detection.float_mean DetectionMore.already_prepared
           Detection.default_detector white_page white_page thirteen_questions
           thirteen_template math_block).
  - vm_compute. reflexivity.
  - apply (bool_decide_unpack (NoDup (Core.block_names thirteen_questions))).
    vm_compute. exact I.
  - reflexivity.
  - vm_compute. reflexivity.
  - left. reflexivity.
Defined.

End Page.

(** ** processors.py: what the marker crop returns *)
Module ProcessorsMore.
Import Py Processors.

Open Scope Z_scope.

Section MarkerCropResult.

Variable Picture : Type.
Variable path_exists : string -> bool.
Variable imread_gray : string -> option Image.
Variable to_gray : Picture -> option Image.
Variable py_int : float -> Z.
Variable cv2_resize : Image -> Z -> Z -> Image.
Variable ScoreMap : Type.
Variable match_template : Image -> Image -> option ScoreMap.
Variable res_max : ScoreMap -> float.
Variable first_argmax : ScoreMap -> float -> option (Z * Z).
Variable warp : Picture -> list (Z * Z) -> Z * Z -> option Picture.

(** The centre recorded for a quadrant in which the marker was found: the
    first point of the best score, moved by half the marker's size. *)
Definition found_in (self : CropOnMarkers) (optimal_marker quad : Image) (centre : Z * Z)
  : Prop :=
  exists res pt,
    match_template quad optimal_marker = Some res /\
    PrimFloat.ltb (res_max res) (min_matching_threshold self) = false /\
    first_argmax res (res_max res) = Some pt /\
    centre = (fst pt + Detection.shape0 optimal_marker / 2,
              snd pt + Detection.shape1 optimal_marker / 2).

Lemma matched_centres (self : CropOnMarkers) (optimal_marker : Image) (quads : list Image) :
  forall centres0 centres,
    match_quadrants ScoreMap match_template res_max first_argmax self optimal_marker
                    quads centres0 = matched centres ->
    exists found,
      centres = centres0 ++ found /\ Forall2 (found_in self optimal_marker) quads found.
Proof.
  induction quads as [|quad quads IH]; intros centres0 centres; simpl.
  - intros [= <-]. exists []. split; [now rewrite app_nil_r | constructor].
  - destruct (match_template quad optimal_marker) as [res|] eqn:Hres; [|discriminate].
    destruct (PrimFloat.ltb (res_max res) (min_matching_threshold self)) eqn:Hlow;
      [discriminate|].
    destruct (first_argmax res (res_max res)) as [pt|] eqn:Hpt; [|discriminate].
    intros Hrun. destruct (IH _ _ Hrun) as (found & -> & Hfound).
    eexists (_ :: found). split; [now rewrite <- app_assoc|].
    constructor; [|exact Hfound]. exists res, pt. auto.
Qed.

Lemma best_scale_among (image marker : Image) (scales : list float) :
  forall st best_scale best_max,
    for_each (best_match_step py_int cv2_resize ScoreMap match_template res_max image marker)
             scales st = Some (Some best_scale, best_max) ->
    fst st = Some best_scale \/ In best_scale scales.
Proof.
  induction scales as [|scale scales IH]; intros st best_scale best_max; simpl.
  - intros [= ->]. now left.
  - destruct (best_match_step py_int cv2_resize ScoreMap match_template res_max
                              image marker st scale) as [st'|] eqn:Hstep;
      [|discriminate].
    intros Hrun. destruct (IH _ _ _ Hrun) as [Hst'|Hin]; [|right; now right].
    unfold best_match_step in Hstep.
    destruct (_ || _) in Hstep; [injection Hstep as <-; now left|].
    destruct (match_template _ _) as [res|] in Hstep; [|discriminate].
    destruct (PrimFloat.ltb _ _) in Hstep; injection Hstep as <-;
      [right; left; simpl in Hst'; congruence | now left].
Qed.

(** X25 (processors.py, [CropOnMarkers.apply_filter] with
    [_get_best_match]).  The marker crop returns either its input picture
    unchanged, or the picture warped to the configured output size from
    exactly four centres: this happens only when the marker file exists
    and reads, a best scale was found among 0.5, 0.75, 1, 1.25 and 1.5,
    and in every one of the four quadrants the best score is not below the
    minimum matching threshold; the centre of a quadrant is the first
    point of that score moved by half the scaled marker's size. *)
Theorem marker_crop_result (self : CropOnMarkers) (image : Picture) :
  let result :=
    apply_filter Picture path_exists imread_gray to_gray py_int cv2_resize ScoreMap
                 match_template res_max first_argmax warp self image in
  result = image \/
  exists marker gray best_scale optimal_marker centres,
    marker_path self <> ""%string /\ path_exists (marker_path self) = true /\
    imread_gray (marker_path self) = Some marker /\ to_gray image = Some gray /\
    get_best_match py_int cv2_resize ScoreMap match_template res_max gray marker
    = Some (Some (best_scale, optimal_marker)) /\
    In best_scale [0.5; 0.75; 1; 1.25; 1.5]%float /\
    Forall2 (found_in self optimal_marker) (quadrants gray) centres /\
    length centres = 4%nat /\
    warp image centres (output_size self) = Some result.
Proof.
  intros result. unfold result, apply_filter.
  destruct (String.eqb (marker_path self) "") eqn:Hpath; [now left|].
  destruct (path_exists (marker_path self)) eqn:Hexists; [|now left]. cbn [negb orb].
  destruct (imread_gray (marker_path self)) as [marker|] eqn:Hmarker; [|now left].
  destruct (to_gray image) as [gray|] eqn:Hgray; [|now left].
  destruct (get_best_match py_int cv2_resize ScoreMap match_template res_max gray marker)
    as [[[best_scale optimal_marker]|]|] eqn:Hbest; try now left.
  destruct (match_quadrants ScoreMap match_template res_max first_argmax self optimal_marker
                            (quadrants gray) [])
    as [| |centres] eqn:Hquads; try now left.
  destruct (warp image centres (output_size self)) as [aligned|] eqn:Hwarp; [|now left].
  right. exists marker, gray, best_scale, optimal_marker, centres.
  destruct (matched_centres self optimal_marker _ _ _ Hquads) as (found & -> & Hfound).
  change ([] ++ found) with found in *.
  split; [intros E; rewrite E in Hpath; discriminate|].
  split; [reflexivity|]. split; [reflexivity|]. split; [reflexivity|].
  split; [exact Hbest|]. split.
  - unfold get_best_match in Hbest.
    destruct (for_each _ _ _) as [[[s|] b]|] eqn:Hrun in Hbest; try discriminate.
    injection Hbest as <- _.
    destruct (best_scale_among gray marker _ _ _ _ Hrun) as [Hst|Hin];
      [discriminate | exact Hin].
  - split; [exact Hfound|]. split; [|exact Hwarp].
    apply Forall2_length in Hfound. rewrite <- Hfound. reflexivity.
Qed.

End MarkerCropResult.

End ProcessorsMore.
